(** * IFFK planner: identifier generation, scoring, ranking and sheet updates

    A shallow embedding of the Python sources [programme_manager.py],
    [image_uploader.py] and of the scoring and overview views of [app.py],
    followed by the properties that the specification states about them.

    Python values are modelled by the inductive type [value], dictionaries by
    stdpp's [gmap], the remote workbook by an explicit store that is threaded
    through a small state-and-exception monad, and a Python float by the
    rational number it denotes ([Qc]).  What lies behind the client library
    of the sheet service is not part of the sources: how a sheet is read into
    records and how it takes typed input are parameters of the store. *)

From Stdlib Require Import ZArith QArith Qcanon List Permutation Sorted Lia Ascii String.
From stdpp Require Import base option numbers list strings gmap pretty.

Set Warnings "-register-all".

Open Scope string_scope.
Open Scope list_scope.
Open Scope Z_scope.

(** ** Python values *)

(** The values that travel through the program: form fields, sheet cells and
    data-frame cells.  [VNaN] is the missing value of pandas. *)
Inductive value : Type :=
  | VNone
  | VNaN
  | VBool (b : bool)
  | VInt (z : Z)
  | VFloat (q : Qc)
  | VStr (s : string).

Global Instance value_eq_dec : EqDecision value.
Proof. solve_decision. Defined.

(** The number a bool, int or float denotes; Python compares these three
    types numerically. *)
Definition to_number (v : value) : option Qc :=
  match v with
  | VBool b => Some (if b then 1%Qc else 0%Qc)
  | VInt z => Some (Qc_of_Z z)
  | VFloat q => Some q
  | _ => None
  end.

(** Python [a == b]. *)
Definition py_eq (a b : value) : bool :=
  match a, b with
  | VNone, VNone => true
  | VStr s, VStr t => bool_decide (s = t)
  | _, _ =>
      match to_number a, to_number b with
      | Some x, Some y => bool_decide (x = y)
      | _, _ => false
      end
  end.

(** [d.get(k)]: Python [None] when the key is absent. *)
Definition dict_get (d : gmap string value) (k : string) : value :=
  default VNone (d !! k).

(** ** [str] of integers and [str.zfill] *)

Fixpoint zeros (n : nat) : string :=
  match n with
  | O => ""
  | S n' => String "0"%char (zeros n')
  end.

Definition is_sign (c : ascii) : bool :=
  bool_decide (c = "+"%char) || bool_decide (c = "-"%char).

(** [s.zfill(width)]: pads with ['0'] on the left up to [width]; a leading
    sign stays in front of the padding. *)
Definition zfill (width : nat) (s : string) : string :=
  let fill := zeros (width - String.length s) in
  match s with
  | String c rest => if is_sign c then String c (fill +:+ rest) else fill +:+ s
  | EmptyString => fill
  end.

(** [str(n)] for a Python int. *)
Definition py_str_int (n : Z) : string := pretty n.

(** Reading decimal text back, to state what a padded serial number denotes:
    the value of a digit and the number a string of digits stands for. *)
Definition digit_value (c : ascii) : N := (N_of_ascii c - 48)%N.

Fixpoint string_value (s : string) : N :=
  match s with
  | EmptyString => 0%N
  | String c r => (digit_value c * 10 ^ N.of_nat (String.length r) + string_value r)%N
  end.

(** ** [ProgrammeManager] *)

(** The attributes of a [ProgrammeManager] that the modelled methods read:
    the category-to-code table loaded from the resources, and the workbook
    and sheet names taken from the environment. *)
Record ProgrammeManager : Type := {
  CATEGORY_CODES : gmap string string;
  WORKBOOK_FILENAME : string;
  FILMS_LIST_SHEET : string;
  TALKS_SHEET : string;
  PROGRAMME_SELECTION_SHEET : string
}.

(** [self.CATEGORY_CODES.get(category, "X")]: the keys of the table are
    strings, so a category that is not a string finds nothing. *)
Definition category_code (self : ProgrammeManager) (category : value) : string :=
  match category with
  | VStr c => default "X" (CATEGORY_CODES self !! c)
  | _ => "X"
  end.

(** The comprehension and count of [generate_sl_no], on the records that
    [sheet.get_all_records()] returned. *)
Definition same_category_rows (data : list (gmap string value)) (category : value)
  : list (gmap string value) :=
  filter (λ row, py_eq (dict_get row "CATEGORY") category = true) data.

Definition sl_no_of_records (data : list (gmap string value)) (category : value) : Z :=
  Z.of_nat (length (same_category_rows data category)) + 1.

(** [generate_programme_id], without its logging. *)
Definition programme_id_of (self : ProgrammeManager) (category : value) (sl_no : Z) : string :=
  category_code self category +:+ zfill 3 (py_str_int sl_no).


(** ** JSON documents, exceptions and the log *)

(** What [response.json()] returns.  An object keeps its members in textual
    order; Python's decoder lets the last of several equal names win. *)
Inductive json : Type :=
  | JNull
  | JBool (b : bool)
  | JNum (q : Qc)
  | JStr (s : string)
  | JArr (items : list json)
  | JObj (members : list (string * json)).

(** The remote calls of the sheet client, each of which may fail. *)
Inductive api_call : Type :=
  | Authorize | OpenWorkbook | GetAllRecords | AppendRow | BatchClear | AppendRows.

Global Instance api_call_eq_dec : EqDecision api_call.
Proof. solve_decision. Defined.

(** The exceptions the modelled code can raise.  [UploadFailed] and
    [ApiReportedError] are the two plain [Exception]s that
    [_handle_response] raises itself, told apart by their message;
    [GSpreadException] is what the client library raises when it cannot make
    records of a sheet; the last two are the failures of Python's [/]. *)
Inductive exn : Type :=
  | KeyError (key : string)
  | TypeError
  | AttributeError
  | JSONDecodeError
  | SpreadsheetNotFound (title : string)
  | WorksheetNotFound (title : string)
  | APIError (call : api_call)
  | UploadFailed (text : string)
  | ApiReportedError (data : json)
  | GSpreadException
  | OverflowError
  | ZeroDivisionError.

Inductive result (A : Type) : Type :=
  | Ok (a : A)
  | Raise (e : exn).
Arguments Ok {A} a.
Arguments Raise {A} e.

Inductive level : Type := INFO | WARNING | ERROR.

(** A log message is kept as the pieces of its f-string. *)
Inductive fragment : Type :=
  | Lit (s : string)
  | Val (v : value)
  | Js (j : json)
  | Exc (e : exn).

Record log_record : Type := {
  log_level : level;
  log_message : list fragment;
  (** [logging.exception] attaches the exception being handled *)
  log_exc_info : option exn
}.

(** ** The remote workbook *)

(** A worksheet is its grid of cells, the header in the first row. *)
Definition grid : Type := list (list value).

Definition blank : value := VStr "".

Definition row_blank (r : list value) : bool :=
  forallb (λ c, bool_decide (c = blank)) r.

(** The rows up to the last one that holds a value. *)
Fixpoint used_rows (g : grid) : grid :=
  match g with
  | [] => []
  | r :: g' =>
      match used_rows g' with
      | [] => if row_blank r then [] else [r]
      | rest => r :: rest
      end
  end.

(** Rows are appended below the last used row. *)
Definition grid_append (g : grid) (rows : list (list value)) : grid :=
  used_rows g ++ rows.

(** Clearing the range [A2:Z1000]: the first 26 cells of the rows 2 to 1000
    become blank; the header, the rows from 1001 on and the columns from AA
    on are outside the range. *)
Definition clear_A_to_Z (r : list value) : list value :=
  replicate (Nat.min 26 (length r)) blank ++ drop 26 r.

Definition clear_A2_Z1000 (g : grid) : grid :=
  take 1 g ++ map clear_A_to_Z (take 999 (drop 1 g)) ++ drop 1000 g.

(** The data rows of a sheet: the used rows below the header. *)
Definition data_rows (g : grid) : grid := drop 1 (used_rows g).

(** The state of the world: the workbooks of the sheet service by title, each
    a map from sheet title to grid; the remote calls that currently fail; and
    the log written so far, oldest record first.

    Two functions stand for what the client library and the service do with
    cells, which the sources do not contain.  [records_read] is the outcome
    of the library's [get_all_records] on a sheet with the given grid: the
    records it makes of the rows, with the text of a cell turned into a
    number where it reads as one, or the exception it raises, as it does on
    a header row that repeats a name.  [user_entered] is the cell the sheet
    holds after a value has been sent as typed input
    ([value_input_option="USER_ENTERED"]), which the sheet parses. *)
Record Store : Type := {
  workbooks : gmap string (gmap string grid);
  records_read : grid → result (list (gmap string value));
  user_entered : value → value;
  faults : list api_call;
  log : list log_record
}.

(** ** Computations: state and exceptions *)

Definition M (A : Type) : Type := Store → Store * result A.

Global Instance M_ret : MRet M := λ A a st, (st, Ok a).
Global Instance M_bind : MBind M := λ A B f m st,
  match m st with
  | (st', Ok a) => f a st'
  | (st', Raise e) => (st', Raise e)
  end.

Definition raise {A} (e : exn) : M A := λ st, (st, Raise e).

Definition emit (r : log_record) : M unit := λ st,
  ({| workbooks := workbooks st; records_read := records_read st;
      user_entered := user_entered st; faults := faults st;
      log := log st ++ [r] |}, Ok tt).

Definition logging_info (msg : list fragment) : M unit :=
  emit {| log_level := INFO; log_message := msg; log_exc_info := None |}.
Definition logging_warning (msg : list fragment) : M unit :=
  emit {| log_level := WARNING; log_message := msg; log_exc_info := None |}.
Definition logging_error (msg : list fragment) : M unit :=
  emit {| log_level := ERROR; log_message := msg; log_exc_info := None |}.

(** [try: body  except Exception as e: logging.exception(msg); raise] *)
Definition try_log_raise {A} (msg : exn → list fragment) (body : M A) : M A := λ st,
  match body st with
  | (st', Ok a) => (st', Ok a)
  | (st', Raise e) =>
      (emit {| log_level := ERROR; log_message := msg e; log_exc_info := Some e |} ;;
       raise e) st'
  end.

(** [d[k]] *)
Definition subscript (d : gmap string value) (k : string) : M value :=
  match d !! k with
  | Some v => mret v
  | None => raise (KeyError k)
  end.

(** A remote call that the service may refuse. *)
Definition remote (call : api_call) : M unit := λ st,
  if bool_decide (call ∈ faults st) then (st, Raise (APIError call)) else (st, Ok tt).

(** A worksheet handle names the workbook and the sheet it stands for. *)
Record sheet_handle : Type := { sh_workbook : string; sh_title : string }.

(** Finding a sheet: the workbook by title, then the sheet in it. *)
Definition lookup_grid (books : gmap string (gmap string grid)) (sheet : sheet_handle)
    : result grid :=
  match books !! sh_workbook sheet with
  | None => Raise (SpreadsheetNotFound (sh_workbook sheet))
  | Some wb =>
      match wb !! sh_title sheet with
      | None => Raise (WorksheetNotFound (sh_title sheet))
      | Some g => Ok g
      end
  end.

Definition read_grid (sheet : sheet_handle) : M grid := λ st,
  (st, lookup_grid (workbooks st) sheet).

Definition write_grid (sheet : sheet_handle) (g : grid) : M unit := λ st,
  ({| workbooks := alter (insert (sh_title sheet) g) (sh_workbook sheet) (workbooks st);
      records_read := records_read st; user_entered := user_entered st;
      faults := faults st; log := log st |}, Ok tt).

(** What the library makes of a grid, and the cells the sheet holds for
    rows sent as typed input. *)
Definition records_of (g : grid) : M (list (gmap string value)) := λ st,
  (st, records_read st g).

Definition typed_in (rows : list (list value)) : M (list (list value)) := λ st,
  (st, Ok (map (map (user_entered st)) rows)).

(** The four calls the program makes on a worksheet.  Each one goes to the
    service, which may refuse it, and works on the grid the sheet has at
    that moment.  [get_all_records] returns the records the library makes of
    the grid, or raises what the library raises. *)
Definition get_all_records (sheet : sheet_handle) : M (list (gmap string value)) :=
  remote GetAllRecords ;;
  g ← read_grid sheet;
  records_of g.

Definition append_row (sheet : sheet_handle) (row : list value) : M unit :=
  remote AppendRow ;;
  g ← read_grid sheet;
  write_grid sheet (grid_append g [row]).

(** [append_rows(rows, value_input_option="USER_ENTERED")]: the sheet takes
    every value as typed input. *)
Definition append_rows (sheet : sheet_handle) (rows : list (list value)) : M unit :=
  remote AppendRows ;;
  g ← read_grid sheet;
  cells ← typed_in rows;
  write_grid sheet (grid_append g cells).

Definition batch_clear_A2_Z1000 (sheet : sheet_handle) : M unit :=
  remote BatchClear ;;
  g ← read_grid sheet;
  write_grid sheet (clear_A2_Z1000 g).

(** ** The methods of [ProgrammeManager] *)

(** Each method is its [try] body wrapped in the handler that logs and
    re-raises; the log calls are kept where the source has them. *)
Definition get_sheets_client (self : ProgrammeManager) : M unit :=
  try_log_raise (λ _, [Lit "Failed to create Google Sheets client"])
    (remote Authorize ;;
     logging_info [Lit "Google Sheets client created successfully"]).

Definition get_sheet (self : ProgrammeManager) (sheet_name : string) : M sheet_handle :=
  try_log_raise (λ _, [Lit "Failed to access sheet: "; Val (VStr sheet_name)])
    (get_sheets_client self ;;
     remote OpenWorkbook ;;
     let sheet := {| sh_workbook := WORKBOOK_FILENAME self; sh_title := sheet_name |} in
     read_grid sheet ;;
     logging_info [Lit "Accessed sheet: "; Val (VStr sheet_name)] ;;
     mret sheet).

Definition generate_sl_no (self : ProgrammeManager) (sheet : sheet_handle)
    (category : value) : M Z :=
  try_log_raise (λ _, [Lit "Failed to generate serial number"])
    (data ← get_all_records sheet;
     let sl_no := sl_no_of_records data category in
     logging_info [Lit "Generated SL. No "; Val (VInt sl_no);
                   Lit " for category '"; Val category; Lit "'"] ;;
     mret sl_no).

Definition generate_programme_id (self : ProgrammeManager) (category : value)
    (sl_no : Z) : M string :=
  try_log_raise (λ _, [Lit "Failed to generate programme ID"])
    (let programme_id := programme_id_of self category sl_no in
     logging_info [Lit "Generated Programme ID: "; Val (VStr programme_id);
                   Lit " for category '"; Val category; Lit "'"] ;;
     mret programme_id).

Definition talks_category : value := VStr "Talks & Conversations".

(** The keys read from [data] for the row of a talk and of a film, in the
    order of the list display that builds the row. *)
Definition talks_fields : list string := ["topic"; "duration"; "image_url"].
Definition films_fields : list string :=
  ["international_title"; "original_title"; "year"; "runtime"; "language";
   "country"; "director"; "synopsis"; "image_url"; "letterboxd_url"].

Definition row_fields (category : value) : list string :=
  if py_eq category talks_category then talks_fields else films_fields.

(** The subscripts [data[k]] of a list display, evaluated left to right. *)
Fixpoint subscripts (d : gmap string value) (ks : list string) : M (list value) :=
  match ks with
  | [] => mret []
  | k :: ks' => v ← subscript d k; vs ← subscripts d ks'; mret (v :: vs)
  end.

Definition add_programme_entry (self : ProgrammeManager) (data : gmap string value)
    : M string :=
  try_log_raise (λ e, [Lit "Failed to add entry to sheet: "; Exc e])
    (category ← subscript data "category";
     let sheet_name :=
       if py_eq category talks_category then TALKS_SHEET self
       else FILMS_LIST_SHEET self in
     sheet ← get_sheet self sheet_name;
     sl_no ← generate_sl_no self sheet category;
     programme_id ← generate_programme_id self category sl_no;
     fields ← subscripts data (row_fields category);
     let row := [category; VInt sl_no; VStr programme_id] ++ fields in
     append_row sheet row ;;
     logging_info [Lit "New entry added: "; Val (VStr programme_id)] ;;
     mret programme_id).

(** A data frame: its column labels and its rows. *)
Record DataFrame : Type := { df_columns : list string; df_rows : list (list value) }.

(** [df.empty]: some axis has length 0. *)
Definition df_empty (df : DataFrame) : bool :=
  bool_decide (df_columns df = []) || bool_decide (df_rows df = []).

(** [str(v)].  [float_repr] stands for Python's formatting of floats, which
    the modelled sources do not contain. *)
Definition py_str (float_repr : Qc → string) (v : value) : string :=
  match v with
  | VNone => "None"
  | VNaN => "nan"
  | VBool b => if b then "True" else "False"
  | VInt z => py_str_int z
  | VFloat q => float_repr q
  | VStr s => s
  end.

(** A cell after [astype(str).fillna("")].  What becomes of a missing value
    depends on the installed pandas, which the repository does not pin: up to
    pandas 2 [astype(str)] turns it into the text [None] or [nan] and
    [fillna] finds nothing to fill; from pandas 3 on it stays missing and
    [fillna] makes it the empty text.  [na_kept] tells which of the two
    happens. *)
Definition astype_str_cell (na_kept : bool) (float_repr : Qc → string) (v : value)
    : value :=
  match v with
  | VNone | VNaN => if na_kept then VStr "" else VStr (py_str float_repr v)
  | _ => VStr (py_str float_repr v)
  end.

Definition astype_str_rows (na_kept : bool) (float_repr : Qc → string) (df : DataFrame)
    : list (list value) :=
  map (map (astype_str_cell na_kept float_repr)) (df_rows df).

Definition replace_sheet_data (na_kept : bool) (float_repr : Qc → string)
    (self : ProgrammeManager) (sheet_name : string) (df : DataFrame) : M unit :=
  try_log_raise (λ _, [Lit "Failed to replace data in sheet: "; Val (VStr sheet_name)])
    (sheet ← get_sheet self sheet_name;
     batch_clear_A2_Z1000 sheet ;;
     logging_info [Lit "Cleared old rows except header in sheet: "; Val (VStr sheet_name)] ;;
     if df_empty df then
       logging_warning [Lit "DataFrame is empty. Nothing to append to sheet: ";
                        Val (VStr sheet_name)]
     else
       let rows := astype_str_rows na_kept float_repr df in
       append_rows sheet rows ;;
       logging_info [Lit "Successfully appended "; Val (VInt (Z.of_nat (length rows)));
                     Lit " rows to sheet: "; Val (VStr sheet_name)]).

(** ** [ImageUploader._handle_response] *)

(** What the method reads from a response: the status, the body text, and
    the document [response.json()] decodes from it ([None] when the body is
    not JSON and decoding raises). *)
Record Response : Type := {
  status_code : Z;
  text : string;
  json_body : option json
}.

(** Python truth value of a decoded document. *)
Definition truthy (j : json) : bool :=
  match j with
  | JNull => false
  | JBool b => b
  | JNum q => negb (bool_decide (q = 0%Qc))
  | JStr s => negb (bool_decide (s = ""))
  | JArr items => negb (bool_decide (items = []))
  | JObj members => negb (bool_decide (members = []))
  end.

(** Lookup of a member name, the last occurrence winning. *)
Fixpoint member (k : string) (members : list (string * json)) : option json :=
  match members with
  | [] => None
  | (k', j) :: rest =>
      match member k rest with
      | Some j' => Some j'
      | None => if bool_decide (k' = k) then Some j else None
      end
  end.

(** [data.get(k)]: only a dict has [get]. *)
Definition json_get (data : json) (k : string) : M json :=
  match data with
  | JObj members => mret (default JNull (member k members))
  | _ => raise AttributeError
  end.

(** [data[k]] with a string [k]: a dict looks the key up; the other types
    reject a string subscript. *)
Definition json_subscript (data : json) (k : string) : M json :=
  match data with
  | JObj members =>
      match member k members with
      | Some j => mret j
      | None => raise (KeyError k)
      end
  | _ => raise TypeError
  end.

Definition response_json (response : Response) : M json :=
  match json_body response with
  | Some j => mret j
  | None => raise JSONDecodeError
  end.

Definition _handle_response (response : Response) : M json :=
  try_log_raise (λ e, [Lit "Failed to process imgbb API response: "; Exc e])
    (if bool_decide (status_code response ≠ 200) then
       logging_error [Lit "imgbb upload failed: "; Val (VStr (text response))] ;;
       raise (UploadFailed (text response))
     else
       data ← response_json response;
       success ← json_get data "success";
       if negb (truthy success) then
         logging_error [Lit "imgbb API error: "; Js data] ;;
         raise (ApiReportedError data)
       else
         inner ← json_subscript data "data";
         url ← json_subscript inner "url";
         logging_info [Lit "Image uploaded successfully: "; Js url] ;;
         mret url).

(** ** The scoring view of [app.py] *)

(** [sum(valid_scores)] *)
Definition sum_scores (scores : list Z) : Z := foldr Z.add 0 scores.

(** *** Python's [/] on two ints

    The quotient of two ints is a float: the double nearest to the exact
    quotient, a tie going to the double with the even significand.  A double
    is a multiple [m * 2^p] with [|m| < 2^53] and [-1074 ≤ p ≤ 971]. *)

(** [2^e] for an exponent of either sign. *)
Definition pow2 (e : Z) : Qc :=
  if decide (0 ≤ e) then Qc_of_Z (2 ^ e) else (1 / Qc_of_Z (2 ^ (- e)))%Qc.

(** The exponent [e] with [2^e ≤ n/d < 2^(e+1)], for positive [n] and [d]. *)
Definition binade (n d : Z) : Z :=
  let e := Z.log2 n - Z.log2 d in
  if decide (0 ≤ e)
  then (if decide (d * 2 ^ e ≤ n) then e else e - 1)
  else (if decide (d ≤ n * 2 ^ (- e)) then e else e - 1).

(** [n/d] rounded to the nearest integer, a tie to the even one, for
    positive [d]. *)
Definition round_half_even (n d : Z) : Z :=
  let m := n / d in
  let r := n mod d in
  match 2 * r ?= d with
  | Lt => m
  | Gt => m + 1
  | Eq => if Z.even m then m else m + 1
  end.

(** The double nearest to [n/d] for positive [n] and [d], without regard to
    the largest double: the quotient is rounded to a multiple of [2^p], where
    [p] leaves 53 significant bits and is at least -1074. *)
Definition nearest_double (n d : Z) : Qc :=
  let p := Z.max (binade n d - 52) (- 1074) in
  let m := if decide (0 ≤ p) then round_half_even n (d * 2 ^ p)
           else round_half_even (n * 2 ^ (- p)) d in
  (Qc_of_Z m * pow2 p)%Qc.

(** [a / b]: [ZeroDivisionError] for a zero divisor, [OverflowError] when
    the rounded quotient would reach [2^1024]. *)
Definition true_divide (a b : Z) : result Qc :=
  if decide (b = 0) then Raise ZeroDivisionError
  else if decide (a = 0) then Ok 0%Qc
  else
    let q := nearest_double (Z.abs a) (Z.abs b) in
    if decide (pow2 1024 ≤ q)%Qc then Raise OverflowError
    else Ok (if decide (0 < a * b) then q else (- q)%Qc).

(** The average shown and saved by the scoring view: the scores above 0 are
    kept and averaged with [/]; with none kept the result is the int 0. *)
Definition avg_score (scores : list Z) : result Qc :=
  let valid_scores := filter (λ s, 0 < s) scores in
  match valid_scores with
  | [] => Ok 0%Qc
  | _ => true_divide (sum_scores valid_scores) (Z.of_nat (length valid_scores))
  end.

(** A row of the selection sheet. *)
Record ScoreRecord : Type := {
  sel_PROGRAMME_ID : string;
  sel_SYNOPSIS : Z;
  sel_TRAILER : Z;
  sel_DIRECTOR_PROFILE : Z;
  sel_WRITER_PROFILE : Z;
  sel_LETTERBOXD_REVIEWS : Z;
  sel_AVERAGE_SCORE : Qc;
  sel_IS_SELECTED : bool
}.

Global Instance ScoreRecord_eq_dec : EqDecision ScoreRecord.
Proof. solve_decision. Defined.

(** The dictionary [new_entry] built when the save button is pressed, from
    the five scores, the average computed from them before and the check
    box. *)
Definition new_entry (programme_id : string)
    (synopsis_score trailer_score director_score writer_score letterboxd_score : Z)
    (avg_score : Qc) (is_selected : bool) : ScoreRecord :=
  {| sel_PROGRAMME_ID := programme_id;
     sel_SYNOPSIS := synopsis_score;
     sel_TRAILER := trailer_score;
     sel_DIRECTOR_PROFILE := director_score;
     sel_WRITER_PROFILE := writer_score;
     sel_LETTERBOXD_REVIEWS := letterboxd_score;
     sel_AVERAGE_SCORE := avg_score;
     sel_IS_SELECTED := is_selected |}.

(** "Remove old entry and append new one": when the frame is not empty the
    rows with the entry's programme ID are dropped, then the entry is
    concatenated at the end. *)
Definition upsert_score (selection_df : list ScoreRecord) (entry : ScoreRecord)
    : list ScoreRecord :=
  let selection_df :=
    if negb (bool_decide (selection_df = [])) then
      filter (λ r, sel_PROGRAMME_ID r ≠ sel_PROGRAMME_ID entry) selection_df
    else selection_df in
  selection_df ++ [entry].

(** ** The overview of [app.py] *)

(** A row of the films sheet, with the columns the overview uses. *)
Record FilmRow : Type := {
  film_CATEGORY : string;
  film_PROGRAMME_ID : string;
  film_INTERNATIONAL_TITLE : string;
  film_ORIGINAL_TITLE : string;
  film_YEAR : Z;
  film_RUNNING_TIME : Z
}.

Global Instance FilmRow_eq_dec : EqDecision FilmRow.
Proof. solve_decision. Defined.

(** A row of the left merge: a film with the score record that matched it,
    or without one, in which case every score column of the row is missing. *)
Record MergedRow : Type := {
  m_film : FilmRow;
  m_score : option ScoreRecord
}.

(** [films.merge(selection, on="PROGRAMME_ID", how="left")]: the films in
    their order, each once for every matching score record, or once with the
    score columns missing when nothing matches. *)
Definition merge_left (films : list FilmRow) (selection : list ScoreRecord)
    : list MergedRow :=
  flat_map
    (λ f,
       match filter (λ s, sel_PROGRAMME_ID s = film_PROGRAMME_ID f) selection with
       | [] => [ {| m_film := f; m_score := None |} ]
       | matches => map (λ s, {| m_film := f; m_score := Some s |}) matches
       end)
    films.

Definition col_IS_SELECTED (r : MergedRow) : option bool :=
  sel_IS_SELECTED <$> m_score r.
Definition col_AVERAGE_SCORE (r : MergedRow) : option Qc :=
  sel_AVERAGE_SCORE <$> m_score r.
Definition col_YEAR (r : MergedRow) : option Z := Some (film_YEAR (m_film r)).
Definition col_RUNNING_TIME (r : MergedRow) : option Z :=
  Some (film_RUNNING_TIME (m_film r)).
Definition col_PROGRAMME_ID (r : MergedRow) : option string :=
  Some (film_PROGRAMME_ID (m_film r)).

Definition bool_compare (a b : bool) : comparison :=
  match a, b with
  | false, true => Lt
  | true, false => Gt
  | _, _ => Eq
  end.

(** Comparison of two rows on one column of [sort_values]: by the column's
    values in the given direction, a missing value after every present one
    whatever the direction (pandas' default [na_position="last"]). *)
Definition by_column {A K : Type} (cmp : K → K → comparison) (col : A → option K)
    (ascending : bool) (a b : A) : comparison :=
  match col a, col b with
  | Some x, Some y => if ascending then cmp x y else cmp y x
  | Some _, None => Lt
  | None, Some _ => Gt
  | None, None => Eq
  end.

(** The first column that tells two rows apart decides. *)
Fixpoint lexsort_compare {A : Type} (keys : list (A → A → comparison)) (a b : A)
    : comparison :=
  match keys with
  | [] => Eq
  | k :: keys' =>
      match k a b with
      | Eq => lexsort_compare keys' a b
      | c => c
      end
  end.

Fixpoint insert_row {A : Type} (cmp : A → A → comparison) (x : A) (l : list A)
    : list A :=
  match l with
  | [] => [x]
  | y :: l' =>
      match cmp x y with
      | Gt => y :: insert_row cmp x l'
      | _ => x :: l
      end
  end.

(** [sort_values] on several columns is a stable lexicographic sort; it is
    modelled by insertion from the right, which keeps rows that compare equal
    in their order. *)
Definition sort_values {A : Type} (keys : list (A → A → comparison)) (l : list A)
    : list A :=
  foldr (insert_row (lexsort_compare keys)) [] l.

(** The [by] and [ascending] lists of the overview. *)
Definition ranking_keys : list (MergedRow → MergedRow → comparison) :=
  [ by_column bool_compare col_IS_SELECTED false;
    by_column Qccompare col_AVERAGE_SCORE false;
    by_column Z.compare col_YEAR false;
    by_column Z.compare col_RUNNING_TIME true;
    by_column String.compare col_PROGRAMME_ID true ].

(** The rows of the overview table, in display order.  A frame loaded from
    a sheet without records has no columns, so the column lookups on it fail:
    the category column of an empty films frame and the merge key of an empty
    selection frame raise [KeyError]. *)
Definition overview_rows (films : list FilmRow) (selection : list ScoreRecord)
    (selected_categories : list string) : result (list MergedRow) :=
  if bool_decide (films = []) then Raise (KeyError "CATEGORY")
  else
    let filtered_films :=
      filter (λ f, film_CATEGORY f ∈ selected_categories) films in
    if bool_decide (selection = []) then Raise (KeyError "PROGRAMME_ID")
    else Ok (sort_values ranking_keys (merge_left filtered_films selection)).

(** What the table shows for the two score columns, computed after the sort:
    a missing average is filled with 0 (the rounding to two decimals that
    follows is left out), and a row counts as selected only when its cell
    reads TRUE. *)
Definition display_AVERAGE_SCORE (r : MergedRow) : Qc :=
  default 0%Qc (col_AVERAGE_SCORE r).
Definition display_IS_SELECTED (r : MergedRow) : bool :=
  default false (col_IS_SELECTED r).

(** The ordering as the specification words it: the same five columns and
    directions, with a missing average treated as 0 and a film without a
    score record as not selected. *)
Definition spec_ranking_keys : list (MergedRow → MergedRow → comparison) :=
  [ by_column bool_compare (λ r, Some (display_IS_SELECTED r)) false;
    by_column Qccompare (λ r, Some (display_AVERAGE_SCORE r)) false;
    by_column Z.compare col_YEAR false;
    by_column Z.compare col_RUNNING_TIME true;
    by_column String.compare col_PROGRAMME_ID true ].

(** ** Vocabulary for adding an entry *)

(** Two stores that differ at most in their log. *)
Definition same_world (st st' : Store) : Prop :=
  workbooks st' = workbooks st ∧ faults st' = faults st
  ∧ records_read st' = records_read st ∧ user_entered st' = user_entered st.

(** The sheet an entry of a category goes to. *)
Definition target_sheet (self : ProgrammeManager) (category : value) : string :=
  if py_eq category talks_category then TALKS_SHEET self else FILMS_LIST_SHEET self.

(** What [get_sheet] meets on its way to a sheet: a refused authorization, a
    refused opening of the workbook, a missing workbook or sheet, or the
    sheet's grid. *)
Definition sheet_access (self : ProgrammeManager) (sheet_name : string) (st : Store)
    : result grid :=
  if bool_decide (Authorize ∈ faults st) then Raise (APIError Authorize)
  else if bool_decide (OpenWorkbook ∈ faults st) then Raise (APIError OpenWorkbook)
  else lookup_grid (workbooks st)
         {| sh_workbook := WORKBOOK_FILENAME self; sh_title := sheet_name |}.

(** The values of the keys [ks] in [d], or the [KeyError] of the first key
    that is absent. *)
Fixpoint lookup_fields (d : gmap string value) (ks : list string) : result (list value) :=
  match ks with
  | [] => Ok []
  | k :: ks' =>
      match d !! k with
      | None => Raise (KeyError k)
      | Some v =>
          match lookup_fields d ks' with
          | Ok vs => Ok (v :: vs)
          | Raise e => Raise e
          end
      end
  end.

(** The store after a row has been appended to a sheet. *)
Definition with_row (st : Store) (sheet : sheet_handle) (g : grid) (row : list value)
    : gmap string (gmap string grid) :=
  alter (insert (sh_title sheet) (grid_append g [row])) (sh_workbook sheet) (workbooks st).

(** What [add_programme_entry] does, step by step, as one value: the failure
    it meets first, or the sheet, its grid, the programme ID and the row of
    the append. *)
Definition entry_plan (self : ProgrammeManager) (data : gmap string value) (st : Store)
    : result (sheet_handle * grid * string * list value) :=
  match data !! "category" with
  | None => Raise (KeyError "category")
  | Some category =>
      let sheet := {| sh_workbook := WORKBOOK_FILENAME self;
                      sh_title := target_sheet self category |} in
      match sheet_access self (target_sheet self category) st with
      | Raise e => Raise e
      | Ok g =>
          if bool_decide (GetAllRecords ∈ faults st) then Raise (APIError GetAllRecords)
          else
            match records_read st g with
            | Raise e => Raise e
            | Ok records =>
                let sl_no := sl_no_of_records records category in
                let programme_id := programme_id_of self category sl_no in
                match lookup_fields data (row_fields category) with
                | Raise e => Raise e
                | Ok fields =>
                    if bool_decide (AppendRow ∈ faults st)
                    then Raise (APIError AppendRow)
                    else Ok (sheet, g, programme_id,
                             [category; VInt sl_no; VStr programme_id] ++ fields)
                end
            end
      end
  end.

(** ** Vocabulary for the ranking *)

(** The laws of a three-way comparison that ranks values: swapping the
    arguments mirrors the outcome, [Lt] is transitive, and what compares [Eq]
    compares the same way against everything else. *)
Record comparison_laws {A : Type} (c : A → A → comparison) : Prop := {
  cmp_sym : ∀ a b, c b a = CompOpp (c a b);
  cmp_lt_trans : ∀ a b d, c a b = Lt → c b d = Lt → c a d = Lt;
  cmp_eq_l : ∀ a b d, c a b = Eq → c a d = c b d
}.

(** What it means, column by column, that row [a] is ranked before row [b]:
    selected before not selected, and a row with the score column before one
    without it; the larger average first, and any average before none; the
    later year first; the shorter running time first; the smaller programme
    ID first. *)
Definition selected_before (a b : MergedRow) : Prop :=
  match col_IS_SELECTED a, col_IS_SELECTED b with
  | Some x, Some y => x = true ∧ y = false
  | Some _, None => True
  | None, _ => False
  end.

Definition average_before (a b : MergedRow) : Prop :=
  match col_AVERAGE_SCORE a, col_AVERAGE_SCORE b with
  | Some x, Some y => (y < x)%Qc
  | Some _, None => True
  | None, _ => False
  end.

Definition year_before (a b : MergedRow) : Prop :=
  film_YEAR (m_film b) < film_YEAR (m_film a).

Definition running_time_before (a b : MergedRow) : Prop :=
  film_RUNNING_TIME (m_film a) < film_RUNNING_TIME (m_film b).

Definition programme_id_before (a b : MergedRow) : Prop :=
  String.compare (film_PROGRAMME_ID (m_film a)) (film_PROGRAMME_ID (m_film b)) = Lt.

Definition ranks_before (a b : MergedRow) : Prop :=
  selected_before a b
  ∨ (col_IS_SELECTED a = col_IS_SELECTED b
     ∧ (average_before a b
        ∨ (col_AVERAGE_SCORE a = col_AVERAGE_SCORE b
           ∧ (year_before a b
              ∨ (film_YEAR (m_film a) = film_YEAR (m_film b)
                 ∧ (running_time_before a b
                    ∨ (film_RUNNING_TIME (m_film a) = film_RUNNING_TIME (m_film b)
                       ∧ programme_id_before a b))))))).

(** Two rows agree on all five sort columns. *)
Definition same_keys (a b : MergedRow) : Prop :=
  col_IS_SELECTED a = col_IS_SELECTED b
  ∧ col_AVERAGE_SCORE a = col_AVERAGE_SCORE b
  ∧ film_YEAR (m_film a) = film_YEAR (m_film b)
  ∧ film_RUNNING_TIME (m_film a) = film_RUNNING_TIME (m_film b)
  ∧ film_PROGRAMME_ID (m_film a) = film_PROGRAMME_ID (m_film b).

Global Instance same_keys_dec (a b : MergedRow) : Decision (same_keys a b).
Proof. unfold same_keys. apply _. Defined.

(** ** The rest of the views of [app.py] *)

(** [list(programme_manager.CATEGORY_CODES.keys())]: the names in the table.
    The views below only test membership in it, so the order of the keys is
    left to the map. *)
Definition all_categories (self : ProgrammeManager) : list string :=
  (map_to_list (CATEGORY_CODES self)).*1.

(** The category filter of the sidebar: choosing "All" stands for the names
    in the table, whatever else is chosen. *)
Definition effective_categories (self : ProgrammeManager) (selected_categories : list string)
    : list string :=
  if bool_decide ("All" ∈ selected_categories) then all_categories self
  else selected_categories.

(** The overview as the view computes it from the sidebar's selection. *)
Definition overview_view (self : ProgrammeManager) (films : list FilmRow)
    (selection : list ScoreRecord) (selected_categories : list string)
    : result (list MergedRow) :=
  overview_rows films selection (effective_categories self selected_categories).

(** The scoring view: the films of the chosen category, the titles offered
    in the second select box, and the film that a chosen title stands for,
    the first row with that title ([iloc[0]], which fails on no row). *)
Definition TEMP_TITLE (f : FilmRow) : string :=
  film_INTERNATIONAL_TITLE f +:+ " (" +:+ film_ORIGINAL_TITLE f +:+ ")".

Definition films_of_category (films : list FilmRow) (category : string) : list FilmRow :=
  filter (λ f, film_CATEGORY f = category) films.

Definition film_titles (films : list FilmRow) (category : string) : list string :=
  TEMP_TITLE <$> films_of_category films category.

Definition chosen_film (films : list FilmRow) (category film_choice : string)
    : option FilmRow :=
  head (filter (λ f, TEMP_TITLE f = film_choice) (films_of_category films category)).

(** The dictionary the Add Entry view builds for [add_programme_entry]: the
    talk variant when the chosen category is the talks category, else the
    film variant.  The language and the country come from select boxes that
    start without a choice. *)
Record TalkForm : Type := { form_topic : string; form_duration : Z }.

Record FilmForm : Type := {
  form_intl_title : string;
  form_orig_title : string;
  form_year : Z;
  form_run_time : Z;
  form_language : option string;
  form_country : option string;
  form_director : string;
  form_synopsis : string;
  form_letterboxd_url : string
}.

Definition optional_choice (choice : option string) : value :=
  match choice with
  | Some s => VStr s
  | None => VNone
  end.

Definition entry_data (category : string) (talk : TalkForm) (film : FilmForm)
    (image_url : value) : gmap string value :=
  if bool_decide (category = "Talks & Conversations") then
    {[ "category" := VStr category;
       "topic" := VStr (form_topic talk);
       "duration" := VInt (form_duration talk);
       "image_url" := image_url ]}
  else
    {[ "category" := VStr category;
       "international_title" := VStr (form_intl_title film);
       "original_title" := VStr (form_orig_title film);
       "year" := VInt (form_year film);
       "runtime" := VInt (form_run_time film);
       "language" := optional_choice (form_language film);
       "country" := optional_choice (form_country film);
       "director" := VStr (form_director film);
       "synopsis" := VStr (form_synopsis film);
       "image_url" := image_url;
       "letterboxd_url" := VStr (form_letterboxd_url film) ]}.

(** ** Loading a sheet into a frame *)

(** A frame loaded from a sheet is the list of its records.  The session
    keeps, beside the store, the values that the cached loader has returned
    so far, by sheet name.  What the loaders show in the page is not
    modelled. *)
Record Session : Type := {
  world : Store;
  data_cache : gmap string (list (gmap string value))
}.

(** [load_data_without_cache]: the records of the sheet, or, on any failure,
    an ERROR record in the log and the empty frame. *)
Definition load_data_without_cache (self : ProgrammeManager) (sheet_name : string)
    (st : Store) : Store * list (gmap string value) :=
  match (sheet ← get_sheet self sheet_name; get_all_records sheet) st with
  | (st', Ok records) => (st', records)
  | (st', Raise e) =>
      ((logging_error [Lit "Error loading Google Sheets ("; Val (VStr sheet_name);
                       Lit "): "; Exc e] st').1, [])
  end.

(** [load_data_with_cache]: the same body under a cache keyed by the sheet
    name; a call whose name is in the cache returns the stored frame and runs
    nothing. *)
Definition load_data_with_cache (self : ProgrammeManager) (sheet_name : string)
    (s : Session) : Session * list (gmap string value) :=
  match data_cache s !! sheet_name with
  | Some df => (s, df)
  | None =>
      let '(st', df) := load_data_without_cache self sheet_name (world s) in
      ({| world := st'; data_cache := <[sheet_name := df]> (data_cache s) |}, df)
  end.

(** What reading all records of a sheet by name meets: the failure of the
    access, a refused read, or the records of the sheet's grid. *)
Definition sheet_records (self : ProgrammeManager) (sheet_name : string) (st : Store)
    : result (list (gmap string value)) :=
  match sheet_access self sheet_name st with
  | Ok g =>
      if bool_decide (GetAllRecords ∈ faults st) then Raise (APIError GetAllRecords)
      else records_read st g
  | Raise e => Raise e
  end.

(** ** [ImageUploader.upload_bytes] *)

Record ImageUploader : Type := { api_key : string; upload_url : string }.

(** [post] stands for [requests.post]: given the URL, the key of the payload,
    the file name and the bytes it answers with a response or raises. *)
Definition upload_bytes (self : ImageUploader)
    (post : string → string → string → list Byte.byte → M Response)
    (file_bytes : list Byte.byte) (file_name : string) : M json :=
  logging_info [Lit "Uploading image bytes: "; Val (VStr file_name)] ;;
  try_log_raise (λ e, [Lit "Error uploading image bytes ("; Val (VStr file_name);
                       Lit "): "; Exc e])
    (response ← post (upload_url self) (api_key self) file_name file_bytes;
     _handle_response response).

(** ** [MarkdownHandler] *)

Module MarkdownHandler.

(** What rendering a card can raise: the [KeyError] of a subscript and the
    two failures of [int]. *)
Inductive exn : Type :=
  | KeyError (k : string)
  | TypeError
  | ValueError.

Inductive outcome (A : Type) : Type :=
  | Return (a : A)
  | Raised (e : exn).
Arguments Return {A} a.
Arguments Raised {A} e.

(** The replacement fields of the two f-strings: [movie.get(k,'')],
    [movie[k]], [int(movie[k])//60] and [int(movie[k])%60].  A template is
    the f-string cut into its literal text and its fields, in order. *)
Inductive field : Type :=
  | Get (k : string)
  | Item (k : string)
  | HoursOf (k : string)
  | MinutesOf (k : string).

Inductive piece : Type :=
  | Text (s : string)
  | Field (f : field).

(** The double quote and the line break of the literal text, and a text
    given by its lines. *)
Definition dq : string := String "034" "".
Definition nl : string := String "010" "".
Definition lines (ls : list string) : string := String.concat nl ls.

Definition programme_details_template : list piece :=
  [ Text (lines
            [ "";
              "        <div style=" +:+ dq;
              "            background-color:#111;";
              "            padding:10px;";
              "            border-radius:14px;";
              "            margin-bottom:25px;";
              "            border:1px solid rgba(255,255,255,0.08);";
              "            box-shadow:0 4px 12px rgba(0,0,0,0.2);";
              "            max-width: 650px;";
              "        " +:+ dq +:+ ">";
              "";
              "            <a href=" +:+ dq ]);
    Field (Get "LETTERBOXD_URL");
    Text (lines
            [ dq +:+ " target=" +:+ dq +:+ "_blank" +:+ dq +:+ ">";
              "                <img src=" +:+ dq ]);
    Field (Item "IMAGE_URL");
    Text (lines
            [ dq +:+ " style=" +:+ dq;
              "                    width:100%;";
              "                    border-radius:12px;";
              "                    margin-bottom:15px;";
              "                " +:+ dq +:+ ">";
              "            </a>";
              "";
              "            <h2 style=" +:+ dq
               +:+ "margin:0; padding:0; font-size:24px; font-weight:700; color:white;"
               +:+ dq +:+ ">";
              "                " ]);
    Field (Item "INTERNATIONAL_TITLE");
    Text (lines
            [ "";
              "            </h2>";
              "";
              "            <p style=" +:+ dq
               +:+ "margin:4px 0 0 0; font-size:16px; color:#ccc;" +:+ dq +:+ ">";
              "                " ]);
    Field (Item "ORIGINAL_TITLE");
    Text (lines
            [ "";
              "            </p>";
              "";
              "            <p style=" +:+ dq
               +:+ "margin:12px 0; font-size:15px; color:#aaa;" +:+ dq +:+ ">";
              "                " ]);
    Field (Item "DIRECTOR");
    Text (lines
            [ "";
              "            </p>";
              "";
              "            <p style=" +:+ dq
               +:+ "margin:0; font-size:15px; color:#bbb;" +:+ dq +:+ ">";
              "                " ]);
    Field (Item "YEAR");
    Text " | ";
    Field (HoursOf "RUNNING_TIME");
    Text " Hr ";
    Field (MinutesOf "RUNNING_TIME");
    Text (lines
            [ " Min";
              "            </p>";
              "";
              "            <p style=" +:+ dq
               +:+ "margin:0 0 16px 0; font-size:15px; color:#bbb;" +:+ dq +:+ ">";
              "                " ]);
    Field (Item "LANGUAGE");
    Text " | ";
    Field (Item "COUNTRY");
    Text (lines
            [ "";
              "            </p>";
              "";
              "            <details>";
              "            <summary><b>Synopsis</b></summary>";
              "            <p>" ]);
    Field (Item "SYNOPSIS");
    Text (lines
            [ "</p>";
              "            </details>";
              "";
              "        </div>";
              "        " ]) ].

Definition programme_image_template : list piece :=
  [ Text (lines
            [ "";
              "        <div style=" +:+ dq;
              "            background-color:#111;";
              "            padding:10px;";
              "            border-radius:14px;";
              "            margin-bottom:25px;";
              "            border:1px solid rgba(255,255,255,0.08);";
              "            box-shadow:0 4px 12px rgba(0,0,0,0.2);";
              "            max-width: 650px;";
              "        " +:+ dq +:+ ">";
              "";
              "            <a href=" +:+ dq ]);
    Field (Get "LETTERBOXD_URL");
    Text (lines
            [ dq +:+ " target=" +:+ dq +:+ "_blank" +:+ dq +:+ ">";
              "                <img src=" +:+ dq ]);
    Field (Item "IMAGE_URL");
    Text (lines
            [ dq +:+ " style=" +:+ dq;
              "                    width:100%;";
              "                    border-radius:12px;";
              "                    margin-bottom:15px;";
              "                " +:+ dq +:+ ">";
              "            </a>";
              "";
              "        </div>";
              "        " ]) ].

Section Render.

(** [float_repr] stands for Python's formatting of floats and [int_of_str]
    for the integer that [int] reads from a string, if any. *)
Variable float_repr : Qc → string.
Variable int_of_str : string → option Z.

(** [int(v)]: a float is cut towards zero; [None] is a [TypeError]; a
    missing number and a string that is no integer are a [ValueError]. *)
Definition py_int (v : value) : outcome Z :=
  match v with
  | VNone => Raised TypeError
  | VNaN => Raised ValueError
  | VBool b => Return (if b then 1 else 0)
  | VInt z => Return z
  | VFloat q => Return (Z.quot (Qnum (this q)) (Zpos (Qden (this q))))
  | VStr s =>
      match int_of_str s with
      | Some z => Return z
      | None => Raised ValueError
      end
  end.

Definition item (movie : gmap string value) (k : string) : outcome value :=
  match movie !! k with
  | Some v => Return v
  | None => Raised (KeyError k)
  end.

(** The text a field stands for.  Python's [//] and [%] by 60 are the
    flooring quotient and its remainder. *)
Definition field_text (movie : gmap string value) (f : field) : outcome string :=
  match f with
  | Get k =>
      Return (match movie !! k with
              | Some v => py_str float_repr v
              | None => ""
              end)
  | Item k =>
      match item movie k with
      | Return v => Return (py_str float_repr v)
      | Raised e => Raised e
      end
  | HoursOf k =>
      match item movie k with
      | Return v =>
          match py_int v with
          | Return z => Return (py_str_int (z / 60))
          | Raised e => Raised e
          end
      | Raised e => Raised e
      end
  | MinutesOf k =>
      match item movie k with
      | Return v =>
          match py_int v with
          | Return z => Return (py_str_int (z mod 60))
          | Raised e => Raised e
          end
      | Raised e => Raised e
      end
  end.

(** An f-string evaluates its fields from left to right and raises what the
    first failing field raises. *)
Fixpoint format (movie : gmap string value) (t : list piece) : outcome string :=
  match t with
  | [] => Return ""
  | Text s :: t' =>
      match format movie t' with
      | Return r => Return (s +:+ r)
      | Raised e => Raised e
      end
  | Field f :: t' =>
      match field_text movie f with
      | Return s =>
          match format movie t' with
          | Return r => Return (s +:+ r)
          | Raised e => Raised e
          end
      | Raised e => Raised e
      end
  end.

(** The fields of a template, in order, and what it means for a
    computation to return. *)
Definition fields (t : list piece) : list field :=
  omap (λ p, match p with Field f => Some f | Text _ => None end) t.

Definition returns {A : Type} (o : outcome A) : Prop := ∃ a, o = Return a.

Definition render_programme_details (movie : gmap string value) : outcome string :=
  format movie programme_details_template.

Definition render_programme_image (movie : gmap string value) : outcome string :=
  format movie programme_image_template.

End Render.

End MarkdownHandler.

(** The keys that the details card reads by subscript, in the order of the
    template. *)
Definition details_keys : list string :=
  ["IMAGE_URL"; "INTERNATIONAL_TITLE"; "ORIGINAL_TITLE"; "DIRECTOR"; "YEAR";
   "RUNNING_TIME"; "LANGUAGE"; "COUNTRY"; "SYNOPSIS"].

(** ** Sample data *)

Definition sample_manager : ProgrammeManager :=
  {| CATEGORY_CODES :=
       {[ "Feature Film" := "F"; "World Cinema" := "W";
          "Talks & Conversations" := "T" ]};
     WORKBOOK_FILENAME := "IFFK 2025";
     FILMS_LIST_SHEET := "Films";
     TALKS_SHEET := "Talks & Conversations";
     PROGRAMME_SELECTION_SHEET := "Programme Selection" |}.

Definition sample_films_header : list value :=
  map VStr ["CATEGORY"; "SL_NO"; "PROGRAMME_ID"; "INTERNATIONAL_TITLE";
            "ORIGINAL_TITLE"; "YEAR"; "RUNNING_TIME"; "LANGUAGE"; "COUNTRY";
            "DIRECTOR"; "SYNOPSIS"; "IMAGE_URL"; "LETTERBOXD_URL"].

Definition sample_film_cells (category : string) (sl_no : Z) (programme_id title : string)
    : list value :=
  [VStr category; VInt sl_no; VStr programme_id; VStr title; VStr title;
   VInt 2024; VInt 100; VStr "Malayalam"; VStr "India"; VStr "A director";
   VStr "A synopsis"; VStr "https://img.example/p.jpg";
   VStr "https://letterboxd.com/film/x/"].

Definition sample_films_grid : grid :=
  [ sample_films_header;
    sample_film_cells "World Cinema" 1 "W001" "First";
    sample_film_cells "Feature Film" 1 "F001" "Second";
    sample_film_cells "World Cinema" 2 "W002" "Third" ].

Definition sample_talks_grid : grid :=
  [ map VStr ["CATEGORY"; "SL_NO"; "PROGRAMME_ID"; "TOPIC"; "DURATION"; "IMAGE_URL"] ].

Definition sample_selection_grid : grid :=
  [ map VStr ["PROGRAMME_ID"; "SYNOPSIS"; "TRAILER"; "DIRECTOR_PROFILE";
              "WRITER_PROFILE"; "LETTERBOXD_REVIEWS"; "AVERAGE_SCORE"; "IS_SELECTED"];
    [VStr "W001"; VInt 3; VInt 4; VInt 0; VInt 0; VInt 0; VFloat (Q2Qc (7 # 2));
     VBool true] ].

(** A sheet service for the examples.  Its reading makes one record of each
    used row below the header, the header names over the cells as they are
    and a short row filled up with blanks, and it raises on a header row that
    repeats a cell.  Its typed input turns the texts [True] and [False] into
    booleans and a text of digits into the number, and keeps every other
    value. *)
Definition sample_record (header row : list value) : gmap string value :=
  let padded := row ++ replicate (length header - length row) blank in
  list_to_map
    (omap (λ kv, match kv.1 with VStr k => Some (k, kv.2) | _ => None end)
          (zip header padded)).

Definition sample_records_read (g : grid) : result (list (gmap string value)) :=
  match used_rows g with
  | [] => Ok []
  | header :: rows =>
      if bool_decide (NoDup header) then Ok (map (sample_record header) rows)
      else Raise GSpreadException
  end.

Fixpoint all_digits (s : string) : bool :=
  match s with
  | EmptyString => true
  | String c r => bool_decide (48 ≤ N_of_ascii c ≤ 57)%N && all_digits r
  end.

Definition sample_user_entered (v : value) : value :=
  match v with
  | VStr s =>
      if bool_decide (s = "True") then VBool true
      else if bool_decide (s = "False") then VBool false
      else if negb (bool_decide (s = "")) && all_digits s
           then VInt (Z.of_N (string_value s))
           else VStr s
  | _ => v
  end.

(** A store of the examples: the given workbooks and faults, the sample
    service and an empty log. *)
Definition sample_world (books : gmap string (gmap string grid)) (refused : list api_call)
    : Store :=
  {| workbooks := books;
     records_read := sample_records_read;
     user_entered := sample_user_entered;
     faults := refused;
     log := [] |}.

Definition sample_store : Store :=
  sample_world
    {[ "IFFK 2025" :=
         {[ "Films" := sample_films_grid;
            "Talks & Conversations" := sample_talks_grid;
            "Programme Selection" := sample_selection_grid ]} ]}
    [].

Definition sample_films_sheet : sheet_handle :=
  {| sh_workbook := "IFFK 2025"; sh_title := "Films" |}.

(** Two films of one category: the older one saved with every criterion at 0
    and not selected, the newer one never scored. *)
Definition sample_scored_film : FilmRow :=
  {| film_CATEGORY := "World Cinema"; film_PROGRAMME_ID := "W001";
     film_INTERNATIONAL_TITLE := "First"; film_ORIGINAL_TITLE := "First";
     film_YEAR := 2020; film_RUNNING_TIME := 100 |}.

Definition sample_unscored_film : FilmRow :=
  {| film_CATEGORY := "World Cinema"; film_PROGRAMME_ID := "W002";
     film_INTERNATIONAL_TITLE := "Third"; film_ORIGINAL_TITLE := "Third";
     film_YEAR := 2022; film_RUNNING_TIME := 100 |}.

Definition sample_zero_score : ScoreRecord := new_entry "W001" 0 0 0 0 0 0 false.

(** A film submission with every field, and a talk submission that lacks
    its topic. *)
Definition sample_film_data : gmap string value :=
  {[ "category" := VStr "World Cinema";
     "international_title" := VStr "Fourth";
     "original_title" := VStr "Fourth";
     "year" := VInt 2025;
     "runtime" := VInt 120;
     "language" := VStr "Malayalam";
     "country" := VStr "India";
     "director" := VStr "A director";
     "synopsis" := VStr "A synopsis";
     "image_url" := VStr "https://img.example/q.jpg";
     "letterboxd_url" := VStr "https://letterboxd.com/film/y/" ]}.

Definition sample_talk_data_without_topic : gmap string value :=
  {[ "category" := VStr "Talks & Conversations";
     "duration" := VInt 60;
     "image_url" := VStr "https://img.example/t.jpg" ]}.

(** The sample store while the sheet service refuses the authorization. *)
Definition sample_store_unauthorized : Store :=
  sample_world (workbooks sample_store) [Authorize].

(** The sample store while the sheet service refuses to append a row. *)
Definition sample_store_append_refused : Store :=
  sample_world (workbooks sample_store) [AppendRow].

(** A selection sheet that has grown to 1000 score rows, so that its last
    row is row 1001 of the sheet, and the store that holds it. *)
Definition sample_score_cells : list value :=
  [VStr "W001"; VInt 3; VInt 4; VInt 0; VInt 0; VInt 0; VFloat (Q2Qc (7 # 2));
   VBool true].

Definition sample_full_selection_grid : grid :=
  map VStr ["PROGRAMME_ID"; "SYNOPSIS"; "TRAILER"; "DIRECTOR_PROFILE";
            "WRITER_PROFILE"; "LETTERBOXD_REVIEWS"; "AVERAGE_SCORE"; "IS_SELECTED"]
  :: replicate 1000 sample_score_cells.

Definition sample_store_full : Store :=
  sample_world
    {[ "IFFK 2025" := {[ "Programme Selection" := sample_full_selection_grid ]} ]} [].

Definition sample_selection_sheet : sheet_handle :=
  {| sh_workbook := "IFFK 2025"; sh_title := "Programme Selection" |}.

Definition empty_frame : DataFrame := {| df_columns := []; df_rows := [] |}.

(** The frame that holds a single new score record. *)
Definition sample_one_row_frame : DataFrame :=
  {| df_columns := ["PROGRAMME_ID"; "SYNOPSIS"; "TRAILER"; "DIRECTOR_PROFILE";
                    "WRITER_PROFILE"; "LETTERBOXD_REVIEWS"; "AVERAGE_SCORE";
                    "IS_SELECTED"];
     df_rows := [[VStr "F001"; VInt 5; VInt 0; VInt 0; VInt 0; VInt 0; VInt 5;
                  VBool true]] |}.

(** An uploader and a host that answers every post with a hosted URL. *)
Definition sample_uploader : ImageUploader :=
  {| api_key := "k"; upload_url := "https://api.imgbb.com/1/upload" |}.

Definition sample_accepted : Response :=
  {| status_code := 200; text := "";
     json_body :=
       Some (JObj [("data", JObj [("url", JStr "https://i.ibb.co/x/p.jpg")]);
                   ("success", JBool true)]) |}.

Definition sample_post (url key file_name : string) (file_bytes : list Byte.byte)
    : M Response :=
  mret sample_accepted.

(** Two saves for one film, one after the other. *)
Definition sample_first_save : ScoreRecord :=
  new_entry "W001" 5 0 0 0 0 (Qc_of_Z 5) false.

Definition sample_second_save : ScoreRecord :=
  new_entry "W001" 2 2 2 2 2 (Qc_of_Z 2) true.

Definition sample_selection : list ScoreRecord :=
  [ new_entry "W001" 3 4 0 0 0 (nearest_double 7 2) true;
    new_entry "F001" 5 5 4 0 0 (nearest_double 14 3) false ].

(** A film stored under a category that the table does not name, and a
    film list that holds it beside two films of the table. *)
Definition sample_off_table_film : FilmRow :=
  {| film_CATEGORY := "Retrospective"; film_PROGRAMME_ID := "X001";
     film_INTERNATIONAL_TITLE := "Second"; film_ORIGINAL_TITLE := "Second";
     film_YEAR := 1970; film_RUNNING_TIME := 90 |}.

Definition sample_overview_films : list FilmRow :=
  [sample_unscored_film; sample_off_table_film; sample_scored_film].

(** A film list in which two rows of one category carry the same titles. *)
Definition sample_namesake_film : FilmRow :=
  {| film_CATEGORY := "World Cinema"; film_PROGRAMME_ID := "W003";
     film_INTERNATIONAL_TITLE := "First"; film_ORIGINAL_TITLE := "First";
     film_YEAR := 1999; film_RUNNING_TIME := 80 |}.

Definition sample_namesake_films : list FilmRow :=
  [sample_unscored_film; sample_scored_film; sample_namesake_film].

(** The sample store while the sheet service refuses every read, and a
    session that has cached nothing. *)
Definition sample_store_unreadable : Store :=
  sample_world (workbooks sample_store) [GetAllRecords].

(** A service whose reading makes numbers of numeric texts: its records are
    those of the sample service with every cell taken as typed input.  And a
    submission of a film in a category whose name is a number. *)
Definition numeric_records_read (g : grid) : result (list (gmap string value)) :=
  match sample_records_read g with
  | Ok records => Ok (map (fmap sample_user_entered) records)
  | Raise e => Raise e
  end.

Definition sample_store_numeric : Store :=
  {| workbooks := workbooks sample_store;
     records_read := numeric_records_read;
     user_entered := sample_user_entered;
     faults := [];
     log := [] |}.

Definition sample_numeric_data : gmap string value :=
  <["category" := VStr "1917"]> sample_film_data.

Definition sample_session (st : Store) : Session :=
  {| world := st; data_cache := ∅ |}.

(** A row of the films sheet as the views hand it to the cards, without a
    Letterboxd link. *)
Definition sample_movie : gmap string value :=
  {[ "IMAGE_URL" := VStr "https://i.ibb.co/x/p.jpg";
     "INTERNATIONAL_TITLE" := VStr "First";
     "ORIGINAL_TITLE" := VStr "First";
     "DIRECTOR" := VStr "A director";
     "YEAR" := VInt 2020;
     "RUNNING_TIME" := VInt 100;
     "LANGUAGE" := VStr "Malayalam";
     "COUNTRY" := VStr "India";
     "SYNOPSIS" := VStr "A synopsis" ]}.

(** * Properties *)

(** ** Decimal text of serial numbers *)

Lemma digit_value_pretty_char (x : N) : (x < 10)%N → digit_value (pretty_N_char x) = x.
Proof.
  intros Hx.
  assert (x = 0 ∨ x = 1 ∨ x = 2 ∨ x = 3 ∨ x = 4 ∨ x = 5 ∨ x = 6 ∨ x = 7
          ∨ x = 8 ∨ x = 9)%N as Hcases by lia.
  repeat (destruct Hcases as [-> | Hcases]; [reflexivity |]).
  subst x. reflexivity.
Qed.

Lemma pretty_char_not_sign (x : N) : is_sign (pretty_N_char x) = false.
Proof. unfold pretty_N_char. by repeat case_match. Qed.

Lemma string_value_pretty_go (x : N) (s : string) :
  string_value (pretty_N_go x s)
  = (x * 10 ^ N.of_nat (String.length s) + string_value s)%N.
Proof.
  revert s. induction (N.lt_wf_0 x) as [x _ IH]. intros s.
  destruct (decide (x = 0%N)) as [-> | Hx].
  - rewrite pretty_N_go_0. lia.
  - rewrite pretty_N_go_step by lia.
    rewrite IH by (apply N.div_lt; lia).
    cbn [string_value String.length].
    rewrite digit_value_pretty_char by (apply N.mod_lt; lia).
    rewrite Nat2N.inj_succ, N.pow_succ_r'.
    pose proof (N.div_mod x 10 ltac:(lia)) as Hdm.
    set (p := (10 ^ N.of_nat (String.length s))%N) in *.
    set (q := (x `div` 10)%N) in *. set (r := (x `mod` 10)%N) in *.
    clearbody p q r. rewrite Hdm. lia.
Qed.

Lemma length_pretty_go (x : N) (s : string) :
  (String.length s ≤ String.length (pretty_N_go x s))%nat.
Proof.
  revert s. induction (N.lt_wf_0 x) as [x _ IH]. intros s.
  destruct (decide (x = 0%N)) as [-> | Hx].
  - by rewrite pretty_N_go_0.
  - rewrite pretty_N_go_step by lia.
    etrans; [| apply IH, N.div_lt; lia]. simpl. lia.
Qed.

(** The text of a positive number starts with a digit, never with a sign. *)
Lemma pretty_go_head (x : N) (s : string) :
  pretty_N_go x s = s
  ∨ ∃ c r, pretty_N_go x s = String c r ∧ is_sign c = false.
Proof.
  revert s. induction (N.lt_wf_0 x) as [x _ IH]. intros s.
  destruct (decide (x = 0%N)) as [-> | Hx]; [by left |].
  right. rewrite pretty_N_go_step by lia.
  destruct (IH (x `div` 10)%N ltac:(apply N.div_lt; lia)
               (String (pretty_N_char (x `mod` 10)) s)) as [-> | Hhead].
  - eexists _, _. split; [done | apply pretty_char_not_sign].
  - done.
Qed.

Lemma py_str_int_pos (n : Z) :
  0 < n → py_str_int n = pretty_N_go (Z.to_N n) "".
Proof.
  intros Hn. destruct n as [| p | p]; try lia.
  unfold py_str_int, pretty, pretty_Z, pretty, pretty_positive, pretty, pretty_N.
  by rewrite decide_False.
Qed.

Lemma string_value_zeros (k : nat) (s : string) :
  string_value (zeros k +:+ s) = string_value s.
Proof.
  induction k as [| k IH]; [done |].
  change (zeros (S k) +:+ s) with (String "0" (zeros k +:+ s)).
  cbn [string_value]. change (digit_value "0") with 0%N. rewrite IH. lia.
Qed.

Lemma length_zeros_app (k : nat) (s : string) :
  String.length (zeros k +:+ s) = (k + String.length s)%nat.
Proof.
  induction k as [| k IH]; [done |].
  change (zeros (S k) +:+ s) with (String "0" (zeros k +:+ s)).
  simpl. by rewrite IH.
Qed.

Lemma zfill_pos (width : nat) (n : Z) :
  0 < n →
  zfill width (py_str_int n)
  = zeros (width - String.length (py_str_int n)) +:+ py_str_int n.
Proof.
  intros Hn. rewrite py_str_int_pos by done.
  destruct (pretty_go_head (Z.to_N n) "") as [Hempty | (c & r & Heq & Hsign)].
  - pose proof (string_value_pretty_go (Z.to_N n) "") as Hv.
    rewrite Hempty in Hv. simpl in Hv. lia.
  - rewrite Heq. unfold zfill. by rewrite Hsign.
Qed.

Lemma string_value_zfill (width : nat) (n : Z) :
  0 < n → string_value (zfill width (py_str_int n)) = Z.to_N n.
Proof.
  intros Hn. rewrite zfill_pos, string_value_zeros, py_str_int_pos by done.
  rewrite string_value_pretty_go. simpl. lia.
Qed.

Lemma string_app_inv_head (p s t : string) : p +:+ s = p +:+ t → s = t.
Proof. induction p as [| c p IH]; simpl; [done | intros [= H]; auto]. Qed.

Lemma length_py_str_int_small (n : Z) :
  0 < n < 10 → String.length (py_str_int n) = 1%nat.
Proof.
  intros Hn. rewrite py_str_int_pos by lia.
  rewrite pretty_N_go_step by lia.
  replace (Z.to_N n `div` 10)%N with 0%N
    by (symmetry; apply N.div_small; lia).
  by rewrite pretty_N_go_0.
Qed.

Lemma length_py_str_int_medium (n : Z) :
  10 ≤ n < 100 → String.length (py_str_int n) = 2%nat.
Proof.
  intros Hn. rewrite py_str_int_pos by lia.
  assert (0 < Z.to_N n `div` 10 < 10)%N as Hq.
  { split; [apply N.div_str_pos; lia | apply N.Div0.div_lt_upper_bound; lia]. }
  rewrite pretty_N_go_step by lia.
  rewrite pretty_N_go_step by lia.
  replace ((Z.to_N n `div` 10) `div` 10)%N with 0%N
    by (symmetry; apply N.div_small; lia).
  by rewrite pretty_N_go_0.
Qed.

Lemma length_py_str_int_large (n : Z) :
  100 ≤ n → (3 ≤ String.length (py_str_int n))%nat.
Proof.
  intros Hn. rewrite py_str_int_pos by lia.
  assert (10 ≤ Z.to_N n `div` 10)%N as Hq
    by (apply N.div_le_lower_bound; lia).
  assert (1 ≤ (Z.to_N n `div` 10) `div` 10)%N as Hq'
    by (apply N.div_le_lower_bound; lia).
  do 3 (rewrite pretty_N_go_step by lia).
  etrans; [| apply length_pretty_go]. simpl. lia.
Qed.

Lemma programme_id_of_pos (self : ProgrammeManager) (category : value) (n : Z) :
  0 < n →
  programme_id_of self category n
  = category_code self category
    +:+ zeros (3 - String.length (py_str_int n)) +:+ py_str_int n.
Proof. intros Hn. unfold programme_id_of. by rewrite zfill_pos. Qed.

Lemma programme_id_of_inj (self : ProgrammeManager) (category : value) (n1 n2 : Z) :
  0 < n1 → 0 < n2 →
  programme_id_of self category n1 = programme_id_of self category n2 → n1 = n2.
Proof.
  intros H1 H2 Heq. unfold programme_id_of in Heq.
  apply string_app_inv_head in Heq.
  apply (f_equal string_value) in Heq.
  rewrite !string_value_zfill in Heq by done. lia.
Qed.

(** Running [generate_programme_id]: one INFO record is logged and the
    identifier is returned; nothing else of the store changes. *)
Lemma generate_programme_id_run (self : ProgrammeManager) (category : value)
    (sl_no : Z) (st : Store) :
  generate_programme_id self category sl_no st
  = ({| workbooks := workbooks st; records_read := records_read st;
        user_entered := user_entered st; faults := faults st;
        log := log st ++
          [ {| log_level := INFO;
               log_message :=
                 [Lit "Generated Programme ID: ";
                  Val (VStr (programme_id_of self category sl_no));
                  Lit " for category '"; Val category; Lit "'"];
               log_exc_info := None |} ] |},
     Ok (programme_id_of self category sl_no)).
Proof. reflexivity. Qed.

(** C6: for a positive serial number, [generate_programme_id] returns the
    category's code from the table (or X when the category is not in it)
    followed by the serial number in decimal, padded with zeros on the left
    to three digits: the padding is [3 - length] zeros, so the serial part has
    at least three characters and still denotes the serial number.  The
    result does not depend on the store, of which only the log grows; code F
    with serial 7 gives F007 and an unknown category with serial 1 gives
    X001. *)
Theorem generate_programme_id_format (self : ProgrammeManager) (category : string)
    (sl_no : Z) (st : Store) :
  0 < sl_no →
  let code := default "X" (CATEGORY_CODES self !! category) in
  let digits := py_str_int sl_no in
  let padded := zeros (3 - String.length digits) +:+ digits in
  let out := generate_programme_id self (VStr category) sl_no st in
  out.2 = Ok (code +:+ padded)
  ∧ workbooks out.1 = workbooks st
  ∧ faults out.1 = faults st
  ∧ string_value digits = Z.to_N sl_no
  ∧ string_value padded = Z.to_N sl_no
  ∧ String.length padded = Nat.max 3 (String.length digits)
  ∧ (CATEGORY_CODES self !! category = Some "F" → sl_no = 7 →
     out.2 = Ok "F007")
  ∧ (CATEGORY_CODES self !! category = None → sl_no = 1 →
     out.2 = Ok "X001").
Proof.
  intros Hpos code digits padded out.
  assert (out.2 = Ok (code +:+ padded)) as Hout.
  { subst out. rewrite generate_programme_id_run. cbn [snd].
    by rewrite programme_id_of_pos. }
  assert (string_value digits = Z.to_N sl_no) as Hdigits.
  { subst digits. rewrite py_str_int_pos, string_value_pretty_go by done.
    simpl. lia. }
  split_and!; try done.
  - subst padded. by rewrite string_value_zeros.
  - subst padded. rewrite length_zeros_app. lia.
  - intros Hcode ->. rewrite Hout. subst code padded digits. by rewrite Hcode.
  - intros Hcode ->. rewrite Hout. subst code padded digits. by rewrite Hcode.
Qed.

Lemma generate_programme_id_format_witness :
  let self := {| CATEGORY_CODES := {[ "Feature Film" := "F" ]};
                 WORKBOOK_FILENAME := "IFFK 2025"; FILMS_LIST_SHEET := "Films";
                 TALKS_SHEET := "Talks & Conversations";
                 PROGRAMME_SELECTION_SHEET := "Programme Selection" |} in
  let st := sample_world ∅ [] in
  (generate_programme_id self (VStr "Feature Film") 7 st).2 = Ok "F007"
  ∧ (generate_programme_id self (VStr "Retrospective") 1 st).2 = Ok "X001".
Proof.
  intros self st. split.
  - apply (generate_programme_id_format self "Feature Film" 7 st); [lia | done | done].
  - apply (generate_programme_id_format self "Retrospective" 1 st); [lia | done | done].
Defined.

(** C10: within one category, two different positive serial numbers never
    get the same programme ID; a serial number of 1000 or more is written
    with all its digits, without padding or truncation. *)
Theorem generate_programme_id_injective (self : ProgrammeManager) (category : value)
    (n1 n2 : Z) (st1 st2 : Store) :
  0 < n1 → 0 < n2 → n1 ≠ n2 →
  (generate_programme_id self category n1 st1).2
  ≠ (generate_programme_id self category n2 st2).2
  ∧ (1000 ≤ n1 →
     (generate_programme_id self category n1 st1).2
     = Ok (category_code self category +:+ py_str_int n1)).
Proof.
  intros H1 H2 Hne. rewrite !generate_programme_id_run. cbn [snd]. split.
  - intros [= Heq]. by apply programme_id_of_inj in Heq.
  - intros Hbig. rewrite programme_id_of_pos by done.
    pose proof (length_py_str_int_large n1 ltac:(lia)) as Hlen.
    by replace (3 - String.length (py_str_int n1))%nat with 0%nat by lia.
Qed.

Lemma generate_programme_id_injective_witness :
  let self := {| CATEGORY_CODES := {[ "Feature Film" := "F" ]};
                 WORKBOOK_FILENAME := "IFFK 2025"; FILMS_LIST_SHEET := "Films";
                 TALKS_SHEET := "Talks & Conversations";
                 PROGRAMME_SELECTION_SHEET := "Programme Selection" |} in
  let st := sample_world ∅ [] in
  (generate_programme_id self (VStr "Feature Film") 1000 st).2
  ≠ (generate_programme_id self (VStr "Feature Film") 100 st).2
  ∧ (generate_programme_id self (VStr "Feature Film") 1000 st).2 = Ok "F1000".
Proof.
  intros self st.
  destruct (generate_programme_id_injective self (VStr "Feature Film") 1000 100 st st)
    as [Hne Hbig]; [lia | lia | lia |].
  split; [exact Hne | apply Hbig; lia].
Defined.

(** ** Serial numbers *)

Lemma same_category_rows_all (data : list (gmap string value)) (category : value) :
  Forall (λ row, py_eq (dict_get row "CATEGORY") category = true) data →
  same_category_rows data category = data.
Proof.
  unfold same_category_rows. induction 1 as [| row data Hrow _ IH]; [done |].
  rewrite filter_cons_True by done. by rewrite IH.
Qed.

Lemma same_category_rows_none (data : list (gmap string value)) (category : value) :
  Forall (λ row, py_eq (dict_get row "CATEGORY") category ≠ true) data →
  same_category_rows data category = [].
Proof.
  unfold same_category_rows. induction 1 as [| row data Hrow _ IH]; [done |].
  by rewrite filter_cons_False.
Qed.

(** The count ignores the rows of other categories and the order of rows. *)
Lemma sl_no_of_records_count (data same others : list (gmap string value))
    (category : value) :
  Forall (λ row, py_eq (dict_get row "CATEGORY") category = true) same →
  Forall (λ row, py_eq (dict_get row "CATEGORY") category ≠ true) others →
  data ≡ₚ same ++ others →
  sl_no_of_records data category = Z.of_nat (length same) + 1.
Proof.
  intros Hsame Hothers Hperm. unfold sl_no_of_records.
  assert (same_category_rows data category
          ≡ₚ same_category_rows (same ++ others) category) as Hfilter.
  { unfold same_category_rows. by rewrite Hperm. }
  rewrite Hfilter. unfold same_category_rows. rewrite filter_app.
  fold (same_category_rows same category) (same_category_rows others category).
  rewrite same_category_rows_all, same_category_rows_none by done.
  by rewrite app_nil_r.
Qed.

(** Running [generate_sl_no] on a sheet that can be read: with the records
    the library makes of it, and with the exception the library raises. *)
Lemma generate_sl_no_run (self : ProgrammeManager) (sheet : sheet_handle)
    (category : value) (st : Store) (g : grid) (data : list (gmap string value)) :
  GetAllRecords ∉ faults st →
  read_grid sheet st = (st, Ok g) →
  records_read st g = Ok data →
  generate_sl_no self sheet category st
  = ({| workbooks := workbooks st; records_read := records_read st;
        user_entered := user_entered st; faults := faults st;
        log := log st ++
          [ {| log_level := INFO;
               log_message :=
                 [Lit "Generated SL. No ";
                  Val (VInt (sl_no_of_records data category));
                  Lit " for category '"; Val category; Lit "'"];
               log_exc_info := None |} ] |},
     Ok (sl_no_of_records data category)).
Proof.
  intros Hfault Hread Hdata.
  unfold generate_sl_no, try_log_raise, get_all_records, records_of, mbind, M_bind,
    remote.
  rewrite bool_decide_eq_false_2 by done. by rewrite Hread, Hdata.
Qed.

Lemma generate_sl_no_raises (self : ProgrammeManager) (sheet : sheet_handle)
    (category : value) (st : Store) (g : grid) (e : exn) :
  GetAllRecords ∉ faults st →
  read_grid sheet st = (st, Ok g) →
  records_read st g = Raise e →
  generate_sl_no self sheet category st
  = ({| workbooks := workbooks st; records_read := records_read st;
        user_entered := user_entered st; faults := faults st;
        log := log st ++
          [ {| log_level := ERROR;
               log_message := [Lit "Failed to generate serial number"];
               log_exc_info := Some e |} ] |},
     Raise e).
Proof.
  intros Hfault Hread Hdata.
  unfold generate_sl_no, try_log_raise, get_all_records, records_of, mbind, M_bind,
    remote.
  rewrite bool_decide_eq_false_2 by done. by rewrite Hread, Hdata.
Qed.

(** C5: when the records that [get_all_records] returns for the sheet
    consist, in any order, of N rows of the target category and M rows of
    other categories, [generate_sl_no] returns N + 1.  When the library
    cannot make records of the sheet, as on a header row that repeats a
    name, there is no number: the exception is logged and raised. *)
Theorem generate_sl_no_counts_category (self : ProgrammeManager) (sheet : sheet_handle)
    (category : value) (st : Store) (g : grid) :
  let out := generate_sl_no self sheet category st in
  GetAllRecords ∉ faults st →
  read_grid sheet st = (st, Ok g) →
  (∀ data same others,
     records_read st g = Ok data →
     Forall (λ row, py_eq (dict_get row "CATEGORY") category = true) same →
     Forall (λ row, py_eq (dict_get row "CATEGORY") category ≠ true) others →
     data ≡ₚ same ++ others →
     out.2 = Ok (Z.of_nat (length same) + 1))
  ∧ (∀ e,
       records_read st g = Raise e →
       out.2 = Raise e
       ∧ last (log out.1)
         = Some {| log_level := ERROR;
                   log_message := [Lit "Failed to generate serial number"];
                   log_exc_info := Some e |}).
Proof.
  intros out Hfault Hread. subst out. split.
  - intros data same others Hdata Hsame Hothers Hperm.
    rewrite (generate_sl_no_run self sheet category st g data) by done. cbn [snd].
    f_equal. by apply sl_no_of_records_count with others.
  - intros e Hdata.
    rewrite (generate_sl_no_raises self sheet category st g e) by done.
    cbn [fst snd log]. split; [done | by rewrite last_snoc].
Qed.

Lemma generate_sl_no_counts_category_witness :
  (generate_sl_no sample_manager sample_films_sheet (VStr "World Cinema") sample_store).2
  = Ok 3.
Proof.
  assert (GetAllRecords ∉ faults sample_store) as Hfault by (vm_compute; inversion 1).
  destruct (generate_sl_no_counts_category sample_manager sample_films_sheet
              (VStr "World Cinema") sample_store sample_films_grid Hfault eq_refl)
    as [Hcount _].
  apply (Hcount
           [ sample_record sample_films_header
               (sample_film_cells "World Cinema" 1 "W001" "First");
             sample_record sample_films_header
               (sample_film_cells "Feature Film" 1 "F001" "Second");
             sample_record sample_films_header
               (sample_film_cells "World Cinema" 2 "W002" "Third") ]
           [ sample_record sample_films_header
               (sample_film_cells "World Cinema" 1 "W001" "First");
             sample_record sample_films_header
               (sample_film_cells "World Cinema" 2 "W002" "Third") ]
           [ sample_record sample_films_header
               (sample_film_cells "Feature Film" 1 "F001" "Second") ]).
  - reflexivity.
  - repeat constructor.
  - repeat constructor. vm_compute. discriminate.
  - simpl app. apply perm_skip, perm_swap.
Defined.

(** On a sheet whose header repeats a name the sample service raises, and so
    does [generate_sl_no]. *)
Example generate_sl_no_repeated_header :
  let g := [map VStr ["CATEGORY"; "TITLE"; "TITLE"];
            [VStr "World Cinema"; VStr "First"; VStr "First"]] in
  let st := sample_world {[ "IFFK 2025" := {[ "Films" := g ]} ]} [] in
  (generate_sl_no sample_manager sample_films_sheet (VStr "World Cinema") st).2
  = Raise GSpreadException.
Proof. vm_compute. reflexivity. Qed.

(** ** The average score *)










(** The two averages that the specification gives as examples: 5 and 3.5. *)
Example avg_score_single_rated : avg_score [0; 0; 0; 0; 5] = Ok (Qc_of_Z 5).
Proof. vm_compute. f_equal; try (apply Qc_is_canon; reflexivity). Qed.

Example avg_score_two_rated : avg_score [3; 4; 0; 0; 0] = Ok (Q2Qc (7 # 2)).
Proof. vm_compute. f_equal; try (apply Qc_is_canon; reflexivity). Qed.

(** ** Saving a score *)

Lemma upsert_score_unfold (selection_df : list ScoreRecord) (entry : ScoreRecord) :
  upsert_score selection_df entry
  = filter (λ r, sel_PROGRAMME_ID r ≠ sel_PROGRAMME_ID entry) selection_df ++ [entry].
Proof.
  unfold upsert_score. case_bool_decide as Hempty; simpl; [| done].
  by rewrite Hempty.
Qed.

Lemma filter_id_excluded (pid : string) (l : list ScoreRecord) :
  filter (λ r, sel_PROGRAMME_ID r = pid) (filter (λ r, sel_PROGRAMME_ID r ≠ pid) l) = [].
Proof.
  induction l as [| r l IH]; [done |].
  destruct (decide (sel_PROGRAMME_ID r = pid)) as [Heq | Hne].
  - by rewrite (filter_cons_False (λ r, sel_PROGRAMME_ID r ≠ pid)) by naive_solver.
  - rewrite (filter_cons_True (λ r, sel_PROGRAMME_ID r ≠ pid)) by done.
    by rewrite filter_cons_False.
Qed.

Lemma filter_id_other (pid other : string) (l : list ScoreRecord) :
  other ≠ pid →
  filter (λ r, sel_PROGRAMME_ID r = other) (filter (λ r, sel_PROGRAMME_ID r ≠ pid) l)
  = filter (λ r, sel_PROGRAMME_ID r = other) l.
Proof.
  intros Hother. induction l as [| r l IH]; [done |].
  destruct (decide (sel_PROGRAMME_ID r = pid)) as [Heq | Hne].
  - rewrite (filter_cons_False (λ r, sel_PROGRAMME_ID r ≠ pid)) by naive_solver.
    rewrite (filter_cons_False (λ r, sel_PROGRAMME_ID r = other)) by congruence.
    done.
  - rewrite (filter_cons_True (λ r, sel_PROGRAMME_ID r ≠ pid)) by done.
    destruct (decide (sel_PROGRAMME_ID r = other)) as [Ho | Ho].
    + rewrite !(filter_cons_True (λ r, sel_PROGRAMME_ID r = other)) by done.
      by rewrite IH.
    + rewrite !(filter_cons_False (λ r, sel_PROGRAMME_ID r = other)) by done.
      done.
Qed.

Lemma filter_id_idemp (pid : string) (l : list ScoreRecord) :
  filter (λ r, sel_PROGRAMME_ID r ≠ pid) (filter (λ r, sel_PROGRAMME_ID r ≠ pid) l)
  = filter (λ r, sel_PROGRAMME_ID r ≠ pid) l.
Proof.
  induction l as [| r l IH]; [done |].
  destruct (decide (sel_PROGRAMME_ID r = pid)) as [Heq | Hne].
  - by rewrite (filter_cons_False (λ r, sel_PROGRAMME_ID r ≠ pid) r l) by naive_solver.
  - rewrite (filter_cons_True (λ r, sel_PROGRAMME_ID r ≠ pid) r l) by done.
    rewrite filter_cons_True by done. by rewrite IH.
Qed.

Lemma NoDup_ids_filter (pid : string) (l : list ScoreRecord) :
  NoDup (sel_PROGRAMME_ID <$> l) →
  NoDup (sel_PROGRAMME_ID <$> filter (λ r, sel_PROGRAMME_ID r ≠ pid) l).
Proof.
  induction l as [| r l IH]; [done |].
  rewrite fmap_cons, NoDup_cons. intros [Hnotin Hnodup].
  destruct (decide (sel_PROGRAMME_ID r = pid)) as [Heq | Hne].
  - rewrite filter_cons_False by naive_solver. auto.
  - rewrite filter_cons_True by done. rewrite fmap_cons, NoDup_cons.
    split; [| auto].
    intros (r' & Hr' & [_ Hin]%list_elem_of_filter)%list_elem_of_fmap.
    apply Hnotin, list_elem_of_fmap. eauto.
Qed.

(** C3: saving an entry drops every record with the entry's programme ID and
    appends the entry.  The result therefore holds exactly one record with
    that ID, the entry itself; the records of other IDs are untouched; the
    result is the same when the old records of that ID had already been
    removed; a record set with at most one record for each ID stays so; and
    of two saves for the same ID the second one wins. *)
Theorem upsert_score_single_record (selection_df : list ScoreRecord)
    (entry : ScoreRecord) :
  let pid := sel_PROGRAMME_ID entry in
  let saved := upsert_score selection_df entry in
  saved = filter (λ r, sel_PROGRAMME_ID r ≠ pid) selection_df ++ [entry]
  ∧ filter (λ r, sel_PROGRAMME_ID r = pid) saved = [entry]
  ∧ (∀ other, other ≠ pid →
     filter (λ r, sel_PROGRAMME_ID r = other) saved
     = filter (λ r, sel_PROGRAMME_ID r = other) selection_df)
  ∧ upsert_score (filter (λ r, sel_PROGRAMME_ID r ≠ pid) selection_df) entry = saved
  ∧ (NoDup (sel_PROGRAMME_ID <$> selection_df) → NoDup (sel_PROGRAMME_ID <$> saved))
  ∧ (∀ second, sel_PROGRAMME_ID second = pid →
     upsert_score saved second = upsert_score selection_df second
     ∧ filter (λ r, sel_PROGRAMME_ID r = pid) (upsert_score saved second) = [second]).
Proof.
  intros pid saved.
  assert (saved = filter (λ r, sel_PROGRAMME_ID r ≠ pid) selection_df ++ [entry])
    as Hsaved by apply upsert_score_unfold.
  assert (∀ l e, sel_PROGRAMME_ID e = pid →
            filter (λ r, sel_PROGRAMME_ID r = pid)
                   (filter (λ r, sel_PROGRAMME_ID r ≠ pid) l ++ [e]) = [e]) as Hone.
  { intros l e He. rewrite filter_app, filter_id_excluded.
    by rewrite filter_cons_True. }
  split_and!.
  - done.
  - rewrite Hsaved. by apply Hone.
  - intros other Hother. rewrite Hsaved, filter_app, filter_id_other by done.
    rewrite filter_cons_False by (subst pid; congruence).
    by rewrite app_nil_r.
  - rewrite upsert_score_unfold, Hsaved. fold pid. by rewrite filter_id_idemp.
  - intros Hnodup. rewrite Hsaved, fmap_app. apply NoDup_app. split_and!.
    + by apply NoDup_ids_filter.
    + intros x (r & -> & [Hr _]%list_elem_of_filter)%list_elem_of_fmap Hin.
      apply list_elem_of_singleton in Hin. done.
    + apply NoDup_singleton.
  - intros second Hsecond.
    assert (upsert_score saved second = upsert_score selection_df second) as Htwice.
    { rewrite !upsert_score_unfold, Hsecond. fold pid. rewrite Hsaved.
      rewrite filter_app, filter_id_idemp.
      rewrite filter_cons_False by naive_solver. by rewrite app_nil_r. }
    split; [done |].
    rewrite Htwice, upsert_score_unfold, Hsecond. by apply Hone.
Qed.

Lemma upsert_score_single_record_witness :
  NoDup (sel_PROGRAMME_ID <$> upsert_score sample_selection sample_first_save)
  ∧ filter (λ r, sel_PROGRAMME_ID r = "W001")
      (upsert_score (upsert_score sample_selection sample_first_save)
                    sample_second_save)
    = [sample_second_save].
Proof.
  destruct (upsert_score_single_record sample_selection sample_first_save)
    as (_ & _ & _ & _ & Hnodup & Htwice).
  split.
  - apply Hnodup. apply (bool_decide_unpack _). vm_compute. exact I.
  - apply Htwice. reflexivity.
Defined.

(** ** Ranking the overview *)

Section comparison_laws.
Context {A : Type} (c : A → A → comparison) (Hc : comparison_laws c).

Lemma cmp_refl (a : A) : c a a = Eq.
Proof. pose proof (cmp_sym c Hc a a) as H. by destruct (c a a). Qed.

Lemma cmp_eq_r (a b d : A) : c a b = Eq → c d a = c d b.
Proof.
  intros Hab. rewrite (cmp_sym c Hc a d), (cmp_sym c Hc b d).
  by rewrite (cmp_eq_l c Hc a b d).
Qed.

Lemma cmp_gt_lt (a b : A) : c a b = Gt ↔ c b a = Lt.
Proof. rewrite (cmp_sym c Hc a b). destruct (c a b); simpl; naive_solver. Qed.

Lemma cmp_eq_sym (a b : A) : c a b = Eq ↔ c b a = Eq.
Proof. rewrite (cmp_sym c Hc a b). destruct (c a b); simpl; naive_solver. Qed.

Lemma cmp_le_trans (a b d : A) : c a b ≠ Gt → c b d ≠ Gt → c a d ≠ Gt.
Proof.
  intros Hab Hbd.
  destruct (c a b) eqn:Eab; [| | done].
  - by rewrite (cmp_eq_l c Hc a b d).
  - destruct (c b d) eqn:Ebd; [| | done].
    + by rewrite <- (cmp_eq_r b d a), Eab.
    + by rewrite (cmp_lt_trans c Hc a b d).
Qed.

Lemma cmp_le_total (a b : A) : c a b ≠ Gt ∨ c b a ≠ Gt.
Proof.
  destruct (c a b) eqn:Eab; [by left | by left |].
  right. apply cmp_gt_lt in Eab. by rewrite Eab.
Qed.
End comparison_laws.

Lemma Z_compare_laws : comparison_laws Z.compare.
Proof.
  split.
  - intros a b. apply Z.compare_antisym.
  - intros a b d. rewrite !Z.compare_lt_iff. lia.
  - by intros a b d ->%Z.compare_eq.
Qed.

Lemma Qc_compare_laws : comparison_laws Qccompare.
Proof.
  split.
  - intros a b. unfold Qccompare. symmetry. apply Qcompare_antisym.
  - intros a b d. rewrite <- !Qclt_alt. apply Qclt_trans.
  - by intros a b d ->%Qceq_alt.
Qed.

Lemma bool_compare_laws : comparison_laws bool_compare.
Proof. split; by intros [] [] ; try intros []. Qed.

Lemma string_compare_lt_trans (s1 s2 s3 : string) :
  String.compare s1 s2 = Lt → String.compare s2 s3 = Lt → String.compare s1 s3 = Lt.
Proof.
  revert s2 s3. induction s1 as [| c1 s1 IH]; intros [| c2 s2] [| c3 s3]; simpl; try done.
  unfold Ascii.compare.
  set (x1 := N_of_ascii c1). set (x2 := N_of_ascii c2). set (x3 := N_of_ascii c3).
  clearbody x1 x2 x3.
  destruct (x1 ?= x2)%N eqn:E12; [| | done];
    destruct (x2 ?= x3)%N eqn:E23; try done.
  - apply N.compare_eq in E12, E23.
    replace (x1 ?= x3)%N with Eq by (symmetry; apply N.compare_eq_iff; congruence).
    apply IH.
  - intros _ _. apply N.compare_eq in E12. rewrite N.compare_lt_iff in E23.
    replace (x1 ?= x3)%N with Lt; [done |]. symmetry. apply N.compare_lt_iff. lia.
  - intros _ _. apply N.compare_eq in E23. rewrite N.compare_lt_iff in E12.
    replace (x1 ?= x3)%N with Lt; [done |]. symmetry. apply N.compare_lt_iff. lia.
  - intros _ _. rewrite N.compare_lt_iff in E12, E23.
    replace (x1 ?= x3)%N with Lt; [done |]. symmetry. apply N.compare_lt_iff. lia.
Qed.

Lemma string_compare_laws : comparison_laws String.compare.
Proof.
  split.
  - intros a b. apply String.compare_antisym.
  - apply string_compare_lt_trans.
  - by intros a b d ->%String.compare_eq_iff.
Qed.

Lemma string_compare_eq (s t : string) : String.compare s t = Eq ↔ s = t.
Proof.
  split; [apply String.compare_eq_iff |].
  intros ->. apply (cmp_refl _ string_compare_laws).
Qed.

Lemma by_column_laws {A K : Type} (cmp : K → K → comparison) (col : A → option K)
    (ascending : bool) :
  comparison_laws cmp → comparison_laws (by_column cmp col ascending).
Proof.
  intros Hcmp. split.
  - intros a b. unfold by_column.
    destruct (col a), (col b), ascending; simpl; try done.
    + apply (cmp_sym cmp Hcmp).
    + apply (cmp_sym cmp Hcmp).
  - intros a b d. unfold by_column.
    destruct (col a), (col b), (col d), ascending; simpl; try done.
    + apply (cmp_lt_trans cmp Hcmp).
    + intros H1 H2. by apply (cmp_lt_trans cmp Hcmp) with k0.
  - intros a b d. unfold by_column.
    destruct (col a), (col b), (col d), ascending; simpl; try done.
    + apply (cmp_eq_l cmp Hcmp).
    + intros H. by apply cmp_eq_r, cmp_eq_sym.
Qed.

Lemma lexsort_compare_laws {A : Type} (keys : list (A → A → comparison)) :
  Forall comparison_laws keys → comparison_laws (lexsort_compare keys).
Proof.
  induction 1 as [| k keys Hk _ IH]; [by split |].
  split.
  - intros a b. simpl. rewrite (cmp_sym k Hk a b).
    destruct (k a b); simpl; [apply (cmp_sym _ IH) | done | done].
  - intros a b d. simpl.
    destruct (k a b) eqn:Eab; [| | done]; destruct (k b d) eqn:Ebd; try done.
    + rewrite (cmp_eq_l k Hk a b d Eab), Ebd. apply (cmp_lt_trans _ IH).
    + by rewrite (cmp_eq_l k Hk a b d Eab), Ebd.
    + by rewrite <- (cmp_eq_r k Hk b d a Ebd), Eab.
    + by rewrite (cmp_lt_trans k Hk a b d Eab Ebd).
  - intros a b d. simpl.
    destruct (k a b) eqn:Eab; [| done | done].
    intros Hrest. rewrite (cmp_eq_l k Hk a b d Eab).
    destruct (k b d); [apply (cmp_eq_l _ IH) | |]; done.
Qed.

Lemma ranking_keys_laws : Forall comparison_laws ranking_keys.
Proof.
  repeat constructor; apply by_column_laws;
    auto using bool_compare_laws, Qc_compare_laws, Z_compare_laws, string_compare_laws.
Qed.

(** Insertion sort: permutation, order and stability. *)
Section sort_values.
Context {A : Type} (c : A → A → comparison) (Hc : comparison_laws c).

Lemma insert_row_perm (x : A) (l : list A) : insert_row c x l ≡ₚ x :: l.
Proof.
  induction l as [| y l IH]; [done |]. simpl.
  destruct (c x y); [done | done |].
  rewrite IH. apply Permutation_swap.
Qed.

Lemma insert_row_sorted (x : A) (l : list A) :
  StronglySorted (λ a b, c a b ≠ Gt) l →
  StronglySorted (λ a b, c a b ≠ Gt) (insert_row c x l).
Proof.
  induction 1 as [| y l Hsorted IH Hy]; [repeat constructor |].
  simpl. destruct (c x y) eqn:Exy.
  - constructor; [by constructor |].
    constructor; [by rewrite Exy |].
    eapply Forall_impl; [exact Hy |]. intros z Hz.
    apply (cmp_le_trans c Hc x y z); [by rewrite Exy | done].
  - constructor; [by constructor |].
    constructor; [by rewrite Exy |].
    eapply Forall_impl; [exact Hy |]. intros z Hz.
    apply (cmp_le_trans c Hc x y z); [by rewrite Exy | done].
  - constructor; [done |].
    rewrite insert_row_perm. constructor; [| done].
    apply (cmp_gt_lt c Hc) in Exy. by rewrite Exy.
Qed.

Lemma insert_row_stable (r x : A) (l : list A) :
  filter (λ y, c y r = Eq) (insert_row c x l) = filter (λ y, c y r = Eq) (x :: l).
Proof.
  induction l as [| y l IH]; [done |]. simpl.
  destruct (c x y) eqn:Exy; [done | done |].
  destruct (decide (c y r = Eq)) as [Hy | Hy].
  - rewrite (filter_cons_True _ y) by done.
    assert (c x r ≠ Eq) as Hx.
    { intros Hx. rewrite (cmp_eq_l c Hc x r y Hx) in Exy.
      apply (cmp_eq_sym c Hc) in Hy. congruence. }
    rewrite IH. rewrite (filter_cons_False _ x) by done.
    rewrite (filter_cons_False _ x) by done.
    by rewrite (filter_cons_True _ y) by done.
  - rewrite (filter_cons_False _ y) by done. rewrite IH.
    destruct (decide (c x r = Eq)) as [Hx | Hx].
    + rewrite !(filter_cons_True _ x) by done.
      by rewrite (filter_cons_False _ y) by done.
    + rewrite !(filter_cons_False _ x) by done.
      by rewrite (filter_cons_False _ y) by done.
Qed.
End sort_values.

Lemma sort_values_perm {A : Type} (keys : list (A → A → comparison)) (l : list A) :
  sort_values keys l ≡ₚ l.
Proof.
  induction l as [| x l IH]; [done |].
  unfold sort_values in *. simpl. by rewrite insert_row_perm, IH.
Qed.

Lemma sort_values_sorted {A : Type} (keys : list (A → A → comparison)) (l : list A) :
  Forall comparison_laws keys →
  StronglySorted (λ a b, lexsort_compare keys a b ≠ Gt) (sort_values keys l).
Proof.
  intros Hkeys%lexsort_compare_laws.
  induction l as [| x l IH]; [constructor |].
  unfold sort_values in *. simpl. by apply insert_row_sorted.
Qed.

Lemma sort_values_stable {A : Type} (keys : list (A → A → comparison)) (r : A)
    (l : list A) :
  Forall comparison_laws keys →
  filter (λ y, lexsort_compare keys y r = Eq) (sort_values keys l)
  = filter (λ y, lexsort_compare keys y r = Eq) l.
Proof.
  intros Hkeys%lexsort_compare_laws.
  induction l as [| x l IH]; [done |].
  unfold sort_values in *. simpl.
  rewrite insert_row_stable by done.
  destruct (decide (lexsort_compare keys x r = Eq)) as [Hx | Hx].
  - rewrite !(filter_cons_True _ x) by done. by rewrite IH.
  - rewrite !(filter_cons_False _ x) by done. by rewrite IH.
Qed.

Lemma lex_step_Lt (x rest : comparison) :
  match x with Eq => rest | Lt => Lt | Gt => Gt end = Lt ↔ x = Lt ∨ (x = Eq ∧ rest = Lt).
Proof. destruct x; intuition (discriminate || congruence). Qed.

Lemma lex_step_Eq (x rest : comparison) :
  match x with Eq => rest | Lt => Lt | Gt => Gt end = Eq ↔ x = Eq ∧ rest = Eq.
Proof. destruct x; intuition (discriminate || congruence). Qed.

Lemma by_IS_SELECTED_Lt (a b : MergedRow) :
  by_column bool_compare col_IS_SELECTED false a b = Lt ↔ selected_before a b.
Proof.
  unfold by_column, selected_before.
  destruct (col_IS_SELECTED a) as [[] |], (col_IS_SELECTED b) as [[] |];
    simpl; intuition (discriminate || congruence).
Qed.

Lemma by_IS_SELECTED_Eq (a b : MergedRow) :
  by_column bool_compare col_IS_SELECTED false a b = Eq
  ↔ col_IS_SELECTED a = col_IS_SELECTED b.
Proof.
  unfold by_column.
  destruct (col_IS_SELECTED a) as [[] |], (col_IS_SELECTED b) as [[] |];
    simpl; intuition (discriminate || congruence).
Qed.

Lemma by_AVERAGE_SCORE_Lt (a b : MergedRow) :
  by_column Qccompare col_AVERAGE_SCORE false a b = Lt ↔ average_before a b.
Proof.
  unfold by_column, average_before.
  destruct (col_AVERAGE_SCORE a) as [x |], (col_AVERAGE_SCORE b) as [y |];
    [symmetry; apply Qclt_alt | ..]; intuition discriminate.
Qed.

Lemma by_AVERAGE_SCORE_Eq (a b : MergedRow) :
  by_column Qccompare col_AVERAGE_SCORE false a b = Eq
  ↔ col_AVERAGE_SCORE a = col_AVERAGE_SCORE b.
Proof.
  unfold by_column.
  destruct (col_AVERAGE_SCORE a) as [x |], (col_AVERAGE_SCORE b) as [y |];
    [rewrite <- Qceq_alt | ..]; intuition (discriminate || congruence).
Qed.

Lemma by_YEAR_Lt (a b : MergedRow) :
  by_column Z.compare col_YEAR false a b = Lt ↔ year_before a b.
Proof. unfold by_column, year_before. simpl. apply Z.compare_lt_iff. Qed.

Lemma by_YEAR_Eq (a b : MergedRow) :
  by_column Z.compare col_YEAR false a b = Eq
  ↔ film_YEAR (m_film a) = film_YEAR (m_film b).
Proof. unfold by_column. simpl. rewrite Z.compare_eq_iff. intuition congruence. Qed.

Lemma by_RUNNING_TIME_Lt (a b : MergedRow) :
  by_column Z.compare col_RUNNING_TIME true a b = Lt ↔ running_time_before a b.
Proof. unfold by_column, running_time_before. simpl. apply Z.compare_lt_iff. Qed.

Lemma by_RUNNING_TIME_Eq (a b : MergedRow) :
  by_column Z.compare col_RUNNING_TIME true a b = Eq
  ↔ film_RUNNING_TIME (m_film a) = film_RUNNING_TIME (m_film b).
Proof. unfold by_column. simpl. apply Z.compare_eq_iff. Qed.

Lemma by_PROGRAMME_ID_Eq (a b : MergedRow) :
  by_column String.compare col_PROGRAMME_ID true a b = Eq
  ↔ film_PROGRAMME_ID (m_film a) = film_PROGRAMME_ID (m_film b).
Proof. unfold by_column. simpl. apply string_compare_eq. Qed.

(** The comparison of the overview decides exactly the ranking spelled out
    by [ranks_before], and calls equal exactly the rows with the same keys. *)
Lemma ranking_compare_Lt (a b : MergedRow) :
  lexsort_compare ranking_keys a b = Lt ↔ ranks_before a b.
Proof.
  unfold ranking_keys, ranks_before. cbn [lexsort_compare].
  rewrite !lex_step_Lt.
  rewrite by_IS_SELECTED_Lt, by_IS_SELECTED_Eq, by_AVERAGE_SCORE_Lt,
    by_AVERAGE_SCORE_Eq, by_YEAR_Lt, by_YEAR_Eq, by_RUNNING_TIME_Lt,
    by_RUNNING_TIME_Eq.
  unfold programme_id_before, by_column at 1. simpl. intuition discriminate.
Qed.

Lemma ranking_compare_Eq (a b : MergedRow) :
  lexsort_compare ranking_keys a b = Eq ↔ same_keys a b.
Proof.
  unfold ranking_keys, same_keys. cbn [lexsort_compare].
  rewrite !lex_step_Eq.
  rewrite by_IS_SELECTED_Eq, by_AVERAGE_SCORE_Eq, by_YEAR_Eq, by_RUNNING_TIME_Eq,
    by_PROGRAMME_ID_Eq.
  intuition discriminate.
Qed.

Lemma ranking_compare_le (a b : MergedRow) :
  lexsort_compare ranking_keys a b ≠ Gt ↔ ranks_before a b ∨ same_keys a b.
Proof.
  rewrite <- ranking_compare_Lt, <- ranking_compare_Eq.
  destruct (lexsort_compare ranking_keys a b); intuition (discriminate || congruence).
Qed.

Lemma StronglySorted_weaken {A : Type} (R R' : A → A → Prop) (l : list A) :
  (∀ a b, R a b → R' a b) → StronglySorted R l → StronglySorted R' l.
Proof.
  intros HR. induction 1 as [| x l Hl IH Hx]; constructor; [done |].
  eapply Forall_impl; [exact Hx | auto].
Qed.

(** C2, as amended: on films and score records that are not empty, the
    overview is the merged rows rearranged so that every row is ranked
    before, or has the same keys as, each row after it, where ranking goes by
    selected first, then larger average, then later year, then shorter
    running time, then smaller programme ID, and where a row whose score
    columns are missing comes after every row that has them (it is not
    treated as average 0).  Any two rows are ranked one way or the other
    unless all five keys agree, and rows whose keys agree keep the order they
    had in the merged frame. *)
Theorem overview_rows_ranked (films : list FilmRow) (selection : list ScoreRecord)
    (selected_categories : list string) :
  films ≠ [] → selection ≠ [] →
  let merged :=
    merge_left (filter (λ f, film_CATEGORY f ∈ selected_categories) films) selection in
  ∃ rows,
    overview_rows films selection selected_categories = Ok rows
    ∧ rows ≡ₚ merged
    ∧ StronglySorted (λ a b, ranks_before a b ∨ same_keys a b) rows
    ∧ (∀ a b, ranks_before a b ∨ same_keys a b ∨ ranks_before b a)
    ∧ (∀ a b, ranks_before a b → ¬ ranks_before b a ∧ ¬ same_keys a b)
    ∧ (∀ a b, m_score a = None → ranks_before a b → m_score b = None)
    ∧ (∀ r, filter (λ x, same_keys x r) rows = filter (λ x, same_keys x r) merged).
Proof.
  intros Hfilms Hselection merged.
  pose proof ranking_keys_laws as Hkeys.
  pose proof (lexsort_compare_laws _ Hkeys) as Hlaws.
  exists (sort_values ranking_keys merged). split_and!.
  - unfold overview_rows. by rewrite !bool_decide_eq_false_2 by done.
  - apply sort_values_perm.
  - eapply StronglySorted_weaken; [| apply (sort_values_sorted ranking_keys merged Hkeys)].
    intros a b. by rewrite ranking_compare_le.
  - intros a b. rewrite <- !ranking_compare_Lt, <- ranking_compare_Eq.
    rewrite <- (cmp_gt_lt _ Hlaws a b).
    destruct (lexsort_compare ranking_keys a b); auto.
  - intros a b. rewrite <- !ranking_compare_Lt, <- ranking_compare_Eq.
    rewrite <- (cmp_gt_lt _ Hlaws a b). intros ->. split; discriminate.
  - intros a b Ha Hab. unfold ranks_before, selected_before, col_IS_SELECTED in Hab.
    rewrite Ha in Hab. simpl in Hab.
    destruct Hab as [[] | [Hsel _]]. by destruct (m_score b).
  - intros r.
    rewrite !(list_filter_iff (λ x, same_keys x r)
                (λ x, lexsort_compare ranking_keys x r = Eq))
      by (intros x; by rewrite ranking_compare_Eq).
    by apply sort_values_stable.
Qed.

Lemma overview_rows_ranked_witness :
  ∃ rows,
    overview_rows [sample_scored_film; sample_unscored_film] [sample_zero_score]
                  ["World Cinema"] = Ok rows
    ∧ StronglySorted (λ a b, ranks_before a b ∨ same_keys a b) rows.
Proof.
  destruct (overview_rows_ranked [sample_scored_film; sample_unscored_film]
              [sample_zero_score] ["World Cinema"])
    as (rows & Hrows & _ & Hsorted & _); [done | done |].
  exists rows. split; [exact Hrows | exact Hsorted].
Defined.

(** The two orderings that the specification gives as examples hold: a
    selected entry with average 2.0 is ranked before an unselected one with
    average 4.5, and of two entries with the same selection and average the
    one of 2022 is ranked before the one of 2020. *)
Example ranks_selected_first (a b : FilmRow) (sa sb : ScoreRecord) :
  sel_IS_SELECTED sa = true → sel_IS_SELECTED sb = false →
  ranks_before {| m_film := a; m_score := Some sa |} {| m_film := b; m_score := Some sb |}.
Proof. intros Ha Hb. left. unfold selected_before. simpl. by rewrite Ha, Hb. Qed.

Example ranks_later_year_first (a b : FilmRow) (s : ScoreRecord) :
  film_YEAR a = 2020 → film_YEAR b = 2022 →
  ranks_before {| m_film := b; m_score := Some s |} {| m_film := a; m_score := Some s |}.
Proof.
  intros Ha Hb. right. split; [done |]. right. split; [done |]. left.
  unfold year_before. simpl. lia.
Qed.

(** C2 as the specification words it does not hold: a film saved with every
    criterion at 0 and not selected (average 0) and a newer film that was
    never scored agree on "not selected" and on "average 0" once the missing
    average counts as 0, so the newer film should come first; the overview
    lists the scored film first. *)
Lemma overview_rows_missing_average_is_last :
  let scored := {| m_film := sample_scored_film; m_score := Some sample_zero_score |} in
  let unscored := {| m_film := sample_unscored_film; m_score := None |} in
  overview_rows [sample_scored_film; sample_unscored_film] [sample_zero_score]
                ["World Cinema"] = Ok [scored; unscored]
  ∧ display_IS_SELECTED scored = display_IS_SELECTED unscored
  ∧ display_AVERAGE_SCORE scored = display_AVERAGE_SCORE unscored
  ∧ film_YEAR (m_film scored) < film_YEAR (m_film unscored)
  ∧ lexsort_compare spec_ranking_keys scored unscored = Gt
  ∧ ¬ StronglySorted (λ a b, lexsort_compare spec_ranking_keys a b ≠ Gt)
        [scored; unscored].
Proof.
  intros scored unscored.
  assert (lexsort_compare spec_ranking_keys scored unscored = Gt) as Hgt
    by (vm_compute; reflexivity).
  split_and!.
  - vm_compute. reflexivity.
  - reflexivity.
  - reflexivity.
  - reflexivity.
  - exact Hgt.
  - intros Hsorted.
    apply StronglySorted_inv in Hsorted as [_ Hfirst].
    apply Forall_cons in Hfirst as [Hfirst _]. done.
Qed.

(** ** Handling the image host's response *)

(** A handler that logs and re-raises changes nothing about the outcome. *)
Lemma try_log_raise_outcome {A : Type} (msg : exn → list fragment) (body : M A)
    (st : Store) :
  (try_log_raise msg body st).2 = (body st).2.
Proof. unfold try_log_raise. by destruct (body st) as [st' [a | e]]. Qed.

(** A failure leaves an ERROR record that carries the exception as the last
    entry of the log. *)
Lemma try_log_raise_logged {A : Type} (msg : exn → list fragment) (body : M A)
    (st : Store) (e : exn) :
  (try_log_raise msg body st).2 = Raise e →
  last (log (try_log_raise msg body st).1)
  = Some {| log_level := ERROR; log_message := msg e; log_exc_info := Some e |}.
Proof.
  unfold try_log_raise. destruct (body st) as [st' [a | e']]; [done |].
  simpl. intros [= ->]. by rewrite last_snoc.
Qed.

(** C9: a response whose status is not 200, and so every response whose
    status is not a success status, makes [_handle_response] raise the
    upload failure with the response text; a response with status 200 whose
    JSON object has a missing or false [success] member makes it raise the
    API-reported failure; and a URL is returned exactly when the status is
    200, [success] is true and the object has a member [data] with a member
    [url], in which case that member is the result.  No failure is
    swallowed: it is logged and raised again. *)
Theorem handle_response_outcome (response : Response) (st : Store) :
  let out := _handle_response response st in
  (status_code response ≠ 200 → out.2 = Raise (UploadFailed (text response)))
  ∧ (¬ (200 ≤ status_code response < 300) →
     out.2 = Raise (UploadFailed (text response)))
  ∧ (∀ members,
       status_code response = 200 →
       json_body response = Some (JObj members) →
       truthy (default JNull (member "success" members)) = false →
       out.2 = Raise (ApiReportedError (JObj members)))
  ∧ (∀ url,
       out.2 = Ok url
       ↔ status_code response = 200
         ∧ ∃ members inner,
             json_body response = Some (JObj members)
             ∧ truthy (default JNull (member "success" members)) = true
             ∧ member "data" members = Some (JObj inner)
             ∧ member "url" inner = Some url)
  ∧ (∀ e, out.2 = Raise e →
       last (log out.1)
       = Some {| log_level := ERROR;
                 log_message := [Lit "Failed to process imgbb API response: "; Exc e];
                 log_exc_info := Some e |}).
Proof.
  intros out.
  assert (status_code response ≠ 200 → out.2 = Raise (UploadFailed (text response)))
    as Hstatus.
  { intros Hne. subst out. unfold _handle_response.
    rewrite try_log_raise_outcome. by rewrite bool_decide_eq_true_2. }
  split_and!.
  - done.
  - intros Hrange. apply Hstatus. lia.
  - intros members H200 Hbody Hflag. subst out. unfold _handle_response.
    rewrite try_log_raise_outcome.
    rewrite bool_decide_eq_false_2 by (intros Hne; by apply Hne).
    unfold mbind, M_bind, response_json. rewrite Hbody. simpl.
    by rewrite Hflag.
  - intros url. subst out. unfold _handle_response.
    rewrite try_log_raise_outcome.
    case_bool_decide as Hcode.
    { split; [done | by intros [? _]]. }
    assert (status_code response = 200) as H200
      by (destruct (decide (status_code response = 200)); [done | by destruct Hcode]).
    unfold mbind, M_bind, response_json.
    destruct (json_body response) as [[| b | q | s | items | members] |] eqn:Hbody;
      simpl; try by (split; [done | intros (_ & ? & ? & [=] & _)]).
    destruct (truthy (default JNull (member "success" members))) eqn:Hflag; simpl.
    + destruct (member "data" members) as [[| b | q | s | items | inner] |] eqn:Hdata;
        simpl;
        try by (split; [done | intros (_ & ? & ? & [= <-] & _ & Hd & _); congruence]).
      destruct (member "url" inner) as [u |] eqn:Hurl; simpl.
      * split.
        -- intros [= <-]. split; [done |]. by exists members, inner.
        -- intros (_ & ? & ? & [= <-] & _ & Hd & Hu).
           rewrite Hdata in Hd. injection Hd as <-. congruence.
      * split; [done |].
        intros (_ & ? & ? & [= <-] & _ & Hd & Hu).
        rewrite Hdata in Hd. injection Hd as <-. congruence.
    + split; [done |]. intros (_ & ? & ? & [= <-] & Ht & _). congruence.
  - intros e. apply try_log_raise_logged.
Qed.

Lemma handle_response_outcome_witness :
  (_handle_response
     {| status_code := 500; text := "Internal Server Error"; json_body := None |}
     sample_store).2
  = Raise (UploadFailed "Internal Server Error")
  ∧ (_handle_response
       {| status_code := 200; text := "";
          json_body := Some (JObj [("success", JBool false)]) |}
       sample_store).2
    = Raise (ApiReportedError (JObj [("success", JBool false)]))
  ∧ (_handle_response
       {| status_code := 200; text := "";
          json_body :=
            Some (JObj [("data", JObj [("url", JStr "https://i.ibb.co/x/p.jpg")]);
                        ("success", JBool true)]) |}
       sample_store).2
    = Ok (JStr "https://i.ibb.co/x/p.jpg").
Proof.
  split_and!.
  - apply (handle_response_outcome
             {| status_code := 500; text := "Internal Server Error"; json_body := None |}
             sample_store). simpl. lia.
  - apply (handle_response_outcome
             {| status_code := 200; text := "";
                json_body := Some (JObj [("success", JBool false)]) |}
             sample_store); reflexivity.
  - apply (handle_response_outcome
             {| status_code := 200; text := "";
                json_body :=
                  Some (JObj [("data", JObj [("url", JStr "https://i.ibb.co/x/p.jpg")]);
                              ("success", JBool true)]) |}
             sample_store).
    split; [reflexivity |].
    exists [("data", JObj [("url", JStr "https://i.ibb.co/x/p.jpg")]);
            ("success", JBool true)], [("url", JStr "https://i.ibb.co/x/p.jpg")].
    split_and!; reflexivity.
Defined.

(** ** Adding an entry *)

Lemma same_world_refl (st : Store) : same_world st st.
Proof. by split. Qed.

Lemma same_world_trans (st1 st2 st3 : Store) :
  same_world st1 st2 → same_world st2 st3 → same_world st1 st3.
Proof.
  intros (H1 & H2 & H3 & H4) (H5 & H6 & H7 & H8). split_and!; congruence.
Qed.

Lemma try_log_raise_spec {A : Type} (msg : exn → list fragment) (body : M A)
    (st : Store) :
  ∃ st', try_log_raise msg body st = (st', (body st).2) ∧ same_world (body st).1 st'.
Proof.
  unfold try_log_raise. destruct (body st) as [st1 [a | e]]; simpl.
  - eexists. split; [done | apply same_world_refl].
  - eexists. split; [done | by split].
Qed.

Lemma get_sheets_client_spec (self : ProgrammeManager) (st : Store) :
  ∃ st', get_sheets_client self st
         = (st', if bool_decide (Authorize ∈ faults st)
                 then Raise (APIError Authorize) else Ok tt)
         ∧ same_world st st'.
Proof.
  unfold get_sheets_client, try_log_raise, mbind, M_bind, remote.
  case_bool_decide; simpl; eexists; (split; [done | by split]).
Qed.

Lemma get_sheet_spec (self : ProgrammeManager) (sheet_name : string) (st : Store) :
  ∃ st', get_sheet self sheet_name st
         = (st', match sheet_access self sheet_name st with
                 | Ok _ => Ok {| sh_workbook := WORKBOOK_FILENAME self;
                                 sh_title := sheet_name |}
                 | Raise e => Raise e
                 end)
         ∧ same_world st st'.
Proof.
  unfold get_sheet, sheet_access.
  set (body := (get_sheets_client self ;; _)).
  destruct (try_log_raise_spec
              (λ _, [Lit "Failed to access sheet: "; Val (VStr sheet_name)]) body st)
    as (st' & -> & Hworld).
  exists st'.
  assert (∃ st1, body st
                 = (st1,
                    if bool_decide (Authorize ∈ faults st) then Raise (APIError Authorize)
                    else if bool_decide (OpenWorkbook ∈ faults st)
                         then Raise (APIError OpenWorkbook)
                         else match lookup_grid (workbooks st)
                                      {| sh_workbook := WORKBOOK_FILENAME self;
                                         sh_title := sheet_name |} with
                              | Ok _ => Ok {| sh_workbook := WORKBOOK_FILENAME self;
                                              sh_title := sheet_name |}
                              | Raise e => Raise e
                              end)
                 ∧ same_world st st1) as (st1 & Hbody & Hworld1).
  { subst body. unfold mbind, M_bind.
    destruct (get_sheets_client_spec self st) as (st0 & -> & (Hw0 & Hf0 & Hr0 & Hu0)).
    case_bool_decide as Hauth; [eexists; split; [done | by split] |].
    unfold remote, read_grid. rewrite Hf0.
    case_bool_decide as Hopen; [eexists; split; [done | by split] |].
    simpl. rewrite Hw0.
    destruct (lookup_grid (workbooks st) _) as [g | e]; simpl;
      eexists; (split; [done | by split]). }
  rewrite Hbody in Hworld |- *. simpl in *. split.
  - f_equal. repeat case_bool_decide; try done.
  - by apply same_world_trans with st1.
Qed.

Lemma generate_sl_no_spec (self : ProgrammeManager) (sheet : sheet_handle)
    (category : value) (st : Store) :
  ∃ st', generate_sl_no self sheet category st
         = (st', if bool_decide (GetAllRecords ∈ faults st)
                 then Raise (APIError GetAllRecords)
                 else match lookup_grid (workbooks st) sheet with
                      | Ok g =>
                          match records_read st g with
                          | Ok data => Ok (sl_no_of_records data category)
                          | Raise e => Raise e
                          end
                      | Raise e => Raise e
                      end)
         ∧ same_world st st'.
Proof.
  unfold generate_sl_no, try_log_raise, get_all_records, records_of, mbind, M_bind,
    remote, read_grid.
  case_bool_decide; simpl; [eexists; split; [done | by split] |].
  destruct (lookup_grid (workbooks st) sheet) as [g | e]; simpl;
    [| eexists; (split; [done | by split])].
  destruct (records_read st g) as [data | e]; simpl;
    eexists; (split; [done | by split]).
Qed.

Lemma subscripts_run (d : gmap string value) (ks : list string) (st : Store) :
  subscripts d ks st = (st, lookup_fields d ks).
Proof.
  induction ks as [| k ks IH]; [done |].
  simpl. unfold mbind, M_bind, subscript.
  destruct (d !! k) as [v |]; [| done]. simpl.
  rewrite IH. by destruct (lookup_fields d ks).
Qed.

Lemma append_row_spec (sheet : sheet_handle) (row : list value) (st : Store) (g : grid) :
  lookup_grid (workbooks st) sheet = Ok g →
  append_row sheet row st
  = if bool_decide (AppendRow ∈ faults st) then (st, Raise (APIError AppendRow))
    else ({| workbooks := with_row st sheet g row; records_read := records_read st;
            user_entered := user_entered st; faults := faults st; log := log st |},
          Ok tt).
Proof.
  intros Hgrid. unfold append_row, mbind, M_bind, remote, read_grid.
  case_bool_decide; [done |]. by rewrite Hgrid.
Qed.

Lemma sheet_access_grid (self : ProgrammeManager) (sheet_name : string) (st : Store)
    (g : grid) :
  sheet_access self sheet_name st = Ok g →
  lookup_grid (workbooks st)
    {| sh_workbook := WORKBOOK_FILENAME self; sh_title := sheet_name |} = Ok g.
Proof. unfold sheet_access. by repeat case_bool_decide. Qed.

(** [add_programme_entry] returns the programme ID of its plan and appends
    the plan's row, or raises the plan's failure and leaves the workbooks as
    they were. *)
Lemma add_programme_entry_plan (self : ProgrammeManager) (data : gmap string value)
    (st : Store) :
  ∃ st',
    add_programme_entry self data st
    = (st', match entry_plan self data st with
            | Ok (_, _, programme_id, _) => Ok programme_id
            | Raise e => Raise e
            end)
    ∧ faults st' = faults st
    ∧ workbooks st'
      = match entry_plan self data st with
        | Ok (sheet, g, _, row) => with_row st sheet g row
        | Raise _ => workbooks st
        end
    ∧ records_read st' = records_read st
    ∧ user_entered st' = user_entered st.
Proof.
  unfold add_programme_entry.
  set (body := (subscript data "category" ≫= _)).
  destruct (try_log_raise_spec
              (λ e, [Lit "Failed to add entry to sheet: "; Exc e]) body st)
    as (st' & -> & (Hw' & Hf' & Hr' & Hu')).
  exists st'.
  assert (∃ st1,
            body st
            = (st1, match entry_plan self data st with
                    | Ok (_, _, programme_id, _) => Ok programme_id
                    | Raise e => Raise e
                    end)
            ∧ faults st1 = faults st
            ∧ workbooks st1
              = match entry_plan self data st with
                | Ok (sheet, g, _, row) => with_row st sheet g row
                | Raise _ => workbooks st
                end
            ∧ records_read st1 = records_read st
            ∧ user_entered st1 = user_entered st)
    as (st1 & Hbody & Hf1 & Hw1 & Hr1 & Hu1);
    [| rewrite Hbody in Hw', Hf', Hr', Hu' |- *; simpl in *; split_and!; congruence].
  clear st' Hw' Hf' Hr' Hu'.
  subst body. unfold entry_plan, mbind, M_bind, subscript.
  destruct (data !! "category") as [category |]; [| by eexists].
  simpl. fold (target_sheet self category).
  destruct (get_sheet_spec self (target_sheet self category) st)
    as (st1 & -> & (Hw1 & Hf1 & Hr1 & Hu1)).
  destruct (sheet_access self (target_sheet self category) st) as [g | e] eqn:Haccess;
    [| by eexists].
  apply sheet_access_grid in Haccess.
  set (sheet := {| sh_workbook := WORKBOOK_FILENAME self;
                   sh_title := target_sheet self category |}) in *.
  destruct (generate_sl_no_spec self sheet category st1)
    as (st2 & -> & (Hw2 & Hf2 & Hr2 & Hu2)).
  rewrite Hf1, Hw1, Hr1, Haccess.
  case_bool_decide as Hread; [by eexists; split_and!; [done | congruence..] |].
  destruct (records_read st g) as [records | e];
    [| by eexists; split_and!; [done | congruence..]].
  rewrite subscripts_run.
  destruct (lookup_fields data (row_fields category)) as [fields | e];
    [| by eexists; split_and!; [done | simpl; congruence..]].
  erewrite append_row_spec by (simpl; by rewrite Hw2, Hw1).
  simpl. rewrite Hf2, Hf1.
  case_bool_decide as Happend.
  - eexists. split_and!; [done | simpl; congruence..].
  - eexists. split_and!; [done | done | | simpl; congruence..]. simpl.
    unfold with_row. simpl. by rewrite Hw2, Hw1.
Qed.

Lemma lookup_fields_Ok (d : gmap string value) (ks : list string) (vs : list value) :
  lookup_fields d ks = Ok vs ↔ Forall2 (λ k v, d !! k = Some v) ks vs.
Proof.
  revert vs. induction ks as [| k ks IH]; intros vs; simpl.
  - split; [by intros [= <-] | by intros ->%Forall2_nil_inv_l].
  - destruct (d !! k) as [v |] eqn:Hk.
    + destruct (lookup_fields d ks) as [vs' | e].
      * split.
        -- intros [= <-]. constructor; [done | by apply IH].
        -- intros (v' & vs'' & Hv & Hvs & ->)%Forall2_cons_inv_l.
           apply IH in Hvs. congruence.
      * split; [done |].
        intros (v' & vs'' & Hv & Hvs & ->)%Forall2_cons_inv_l.
        by apply IH in Hvs.
    + split; [done |].
      intros (v' & vs'' & Hv & Hvs & ->)%Forall2_cons_inv_l. congruence.
Qed.

Lemma lookup_fields_Raise (d : gmap string value) (ks : list string) (e : exn) :
  lookup_fields d ks = Raise e → ∃ k, e = KeyError k ∧ k ∈ ks ∧ d !! k = None.
Proof.
  induction ks as [| k ks IH]; simpl; [done |].
  destruct (d !! k) as [v |] eqn:Hk.
  - destruct (lookup_fields d ks) as [vs | e']; [done |].
    intros [= <-]. destruct IH as (k' & -> & Hin & Hnone); [done |].
    exists k'. split_and!; [done | by right | done].
  - intros [= <-]. exists k. split_and!; [done | by left | done].
Qed.

Lemma lookup_fields_present (d : gmap string value) (ks : list string) :
  (∀ k, k ∈ ks → is_Some (d !! k)) ↔ ∃ vs, lookup_fields d ks = Ok vs.
Proof.
  split.
  - intros Hall. destruct (lookup_fields d ks) as [vs | e] eqn:Hfields; [by exists vs |].
    apply lookup_fields_Raise in Hfields as (k & _ & Hin & Hnone).
    destruct (Hall k Hin) as [v Hv]. congruence.
  - intros [vs Hvs%lookup_fields_Ok] k Hin.
    induction Hvs as [| k' v ks vs Hk _ IH]; [by apply not_elem_of_nil in Hin |].
    apply elem_of_cons in Hin as [-> | Hin]; [by exists v | auto].
Qed.

(** C7: for a submission that has its category and every field of the
    category's row, on a store whose sheet can be reached, read into records
    and appended to, [add_programme_entry] goes to the talks sheet when the
    category is the talks category and to the films sheet otherwise, takes
    the serial number from the records that [get_all_records] returns for
    that sheet at that moment, derives the programme ID from it, appends
    below the used rows the row made of the category, the serial number, the
    programme ID and the field values in the fixed order of the variant, and
    returns the programme ID. *)
Theorem add_programme_entry_appends_row (self : ProgrammeManager)
    (data : gmap string value) (st : Store) (category : value) (fields : list value)
    (g : grid) (records : list (gmap string value)) :
  let sheet_name :=
    if py_eq category talks_category then TALKS_SHEET self else FILMS_LIST_SHEET self in
  let sheet := {| sh_workbook := WORKBOOK_FILENAME self; sh_title := sheet_name |} in
  let field_names :=
    if py_eq category talks_category then ["topic"; "duration"; "image_url"]
    else ["international_title"; "original_title"; "year"; "runtime"; "language";
          "country"; "director"; "synopsis"; "image_url"; "letterboxd_url"] in
  let sl_no := Z.of_nat (length (same_category_rows records category)) + 1 in
  let programme_id := programme_id_of self category sl_no in
  let row := [category; VInt sl_no; VStr programme_id] ++ fields in
  let out := add_programme_entry self data st in
  data !! "category" = Some category →
  Forall2 (λ k v, data !! k = Some v) field_names fields →
  Authorize ∉ faults st → OpenWorkbook ∉ faults st →
  GetAllRecords ∉ faults st → AppendRow ∉ faults st →
  lookup_grid (workbooks st) sheet = Ok g →
  records_read st g = Ok records →
  out.2 = Ok programme_id
  ∧ lookup_grid (workbooks out.1) sheet = Ok (used_rows g ++ [row])
  ∧ workbooks out.1
    = alter (insert sheet_name (used_rows g ++ [row])) (WORKBOOK_FILENAME self)
            (workbooks st)
  ∧ faults out.1 = faults st.
Proof.
  intros sheet_name sheet field_names sl_no programme_id row out
    Hcategory Hfields Hauth Hopen Hread Happend Hgrid Hrecords.
  destruct (add_programme_entry_plan self data st) as (st' & Hrun & Hf & Hw & _).
  assert (entry_plan self data st = Ok (sheet, g, programme_id, row)) as Hplan.
  { subst sheet_name sheet field_names row programme_id sl_no.
    unfold entry_plan. rewrite Hcategory. cbn zeta.
    unfold sheet_access, target_sheet. rewrite !bool_decide_eq_false_2 by done.
    rewrite Hgrid, Hrecords.
    apply lookup_fields_Ok in Hfields. unfold row_fields, talks_fields, films_fields.
    by rewrite Hfields. }
  rewrite Hplan in Hrun, Hw. subst out. rewrite Hrun. cbn [fst snd].
  split_and!; [done | | done | done].
  rewrite Hw. unfold with_row, lookup_grid in *.
  rewrite lookup_alter_eq.
  destruct (workbooks st !! sh_workbook sheet) as [wb |]; [| done].
  simpl. by rewrite lookup_insert_eq.
Qed.

Lemma add_programme_entry_appends_row_witness :
  (add_programme_entry sample_manager sample_film_data sample_store).2 = Ok "W003".
Proof.
  assert (∀ call, call ∉ faults sample_store) as Hhealthy
    by (intros call; apply not_elem_of_nil).
  assert (records_read sample_store sample_films_grid
          = Ok [ sample_record sample_films_header
                   (sample_film_cells "World Cinema" 1 "W001" "First");
                 sample_record sample_films_header
                   (sample_film_cells "Feature Film" 1 "F001" "Second");
                 sample_record sample_films_header
                   (sample_film_cells "World Cinema" 2 "W002" "Third") ]) as Hrecords
    by reflexivity.
  destruct (add_programme_entry_appends_row sample_manager sample_film_data sample_store
              (VStr "World Cinema")
              [VStr "Fourth"; VStr "Fourth"; VInt 2025; VInt 120; VStr "Malayalam";
               VStr "India"; VStr "A director"; VStr "A synopsis";
               VStr "https://img.example/q.jpg"; VStr "https://letterboxd.com/film/y/"]
              sample_films_grid _ eq_refl ltac:(repeat constructor)
              (Hhealthy _) (Hhealthy _) (Hhealthy _) (Hhealthy _) eq_refl Hrecords)
    as [Hout _].
  rewrite Hout. vm_compute. reflexivity.
Defined.

(** C8, as amended: the failures of [add_programme_entry] come in a fixed
    order.  A failure to reach the sheet, a refused read and an exception of
    the library while it makes records of the sheet each are raised as they
    are, whatever fields are absent.  So the append's error is raised exactly
    when the category and every field of the row are present, the sheet is
    reached and read into records, and the append is refused; and a
    [KeyError] is raised exactly when the category is absent, or the sheet
    has been reached and read into records and a field of the row is absent
    (leaving aside a library that would itself raise one of the two while
    reading).  Every failure is logged with the exception and raised to the
    caller, the workbooks unchanged. *)
Theorem add_programme_entry_failures (self : ProgrammeManager)
    (data : gmap string value) (st : Store) :
  let out := add_programme_entry self data st in
  (out.2 = Raise (APIError AppendRow)
   ↔ ∃ category g,
       data !! "category" = Some category
       ∧ sheet_access self (target_sheet self category) st = Ok g
       ∧ (GetAllRecords ∉ faults st)
       ∧ ((∃ records,
             records_read st g = Ok records
             ∧ (∀ k, k ∈ row_fields category → is_Some (data !! k))
             ∧ AppendRow ∈ faults st)
          ∨ records_read st g = Raise (APIError AppendRow)))
  ∧ ((∃ k, out.2 = Raise (KeyError k))
     ↔ data !! "category" = None
       ∨ ∃ category g,
           data !! "category" = Some category
           ∧ sheet_access self (target_sheet self category) st = Ok g
           ∧ (GetAllRecords ∉ faults st)
           ∧ ((∃ records,
                 records_read st g = Ok records
                 ∧ ∃ k, k ∈ row_fields category ∧ data !! k = None)
              ∨ ∃ k, records_read st g = Raise (KeyError k)))
  ∧ (∀ category e,
       data !! "category" = Some category →
       sheet_access self (target_sheet self category) st = Raise e →
       out.2 = Raise e)
  ∧ (∀ category g,
       data !! "category" = Some category →
       sheet_access self (target_sheet self category) st = Ok g →
       (GetAllRecords ∈ faults st → out.2 = Raise (APIError GetAllRecords))
       ∧ (∀ e, GetAllRecords ∉ faults st → records_read st g = Raise e →
            out.2 = Raise e))
  ∧ (∀ e, out.2 = Raise e →
       workbooks out.1 = workbooks st
       ∧ last (log out.1)
         = Some {| log_level := ERROR;
                   log_message := [Lit "Failed to add entry to sheet: "; Exc e];
                   log_exc_info := Some e |}).
Proof.
  intros out.
  destruct (add_programme_entry_plan self data st) as (st' & Hrun & Hf & Hw & _).
  assert (out.2 = match entry_plan self data st with
                  | Ok (_, _, programme_id, _) => Ok programme_id
                  | Raise e => Raise e
                  end) as Hout by (subst out; by rewrite Hrun).
  assert (∀ category e, sheet_access self (target_sheet self category) st = Raise e →
            e ≠ APIError AppendRow ∧ ∀ k, e ≠ KeyError k) as Haccess_exn.
  { intros category e. unfold sheet_access, lookup_grid.
    repeat case_bool_decide; repeat case_match; intros [= <-]; done. }
  split_and!.
  - rewrite Hout. unfold entry_plan. split.
    + destruct (data !! "category") as [category |]; [| done].
      cbn zeta.
      destruct (sheet_access self (target_sheet self category) st) as [g | e] eqn:Hacc.
      2: { intros [= ->]. by destruct (Haccess_exn category _ Hacc). }
      case_bool_decide as Hread; [done |].
      destruct (records_read st g) as [records | e] eqn:Hrecords.
      2: { intros [= ->]. exists category, g. split_and!; try done. by right. }
      destruct (lookup_fields data (row_fields category)) as [fields | e] eqn:Hfields.
      2: { intros [= ->]. by apply lookup_fields_Raise in Hfields as (? & ? & _). }
      case_bool_decide as Happend; [| by destruct fields].
      intros _. exists category, g. split_and!; try done.
      left. exists records. split_and!; try done.
      apply lookup_fields_present. by exists fields.
    + intros (category & g & -> & -> & Hread
              & [(records & -> & Hall & Happend) | ->]).
      * cbn zeta. rewrite bool_decide_eq_false_2 by done.
        apply lookup_fields_present in Hall as [fields ->].
        by rewrite bool_decide_eq_true_2.
      * cbn zeta. by rewrite bool_decide_eq_false_2.
  - rewrite Hout. unfold entry_plan. split.
    + intros [k Hk].
      destruct (data !! "category") as [category |]; [| by left].
      right. cbn zeta in Hk.
      destruct (sheet_access self (target_sheet self category) st) as [g | e] eqn:Hacc.
      2: { injection Hk as ->. destruct (Haccess_exn category _ Hacc) as [_ H].
           by destruct (H k). }
      case_bool_decide as Hread; [done |].
      destruct (records_read st g) as [records | e] eqn:Hrecords.
      2: { injection Hk as ->. exists category, g. split_and!; try done.
           right. by exists k. }
      destruct (lookup_fields data (row_fields category)) as [fields | e] eqn:Hfields.
      { case_bool_decide; [done | by destruct fields]. }
      apply lookup_fields_Raise in Hfields as (k' & _ & Hin & Hnone).
      exists category, g. split_and!; try done.
      left. exists records. split; [done |]. by exists k'.
    + intros [-> | (category & g & -> & -> & Hread
                    & [(records & -> & k & Hin & Hnone) | [k ->]])];
        [by exists "category" | |].
      * cbn zeta. rewrite bool_decide_eq_false_2 by done.
        destruct (lookup_fields data (row_fields category)) as [fields | e] eqn:Hfields.
        -- assert (is_Some (data !! k)) as [v Hv]
             by (eapply lookup_fields_present; [by exists fields | done]).
           congruence.
        -- apply lookup_fields_Raise in Hfields as (k' & -> & _). by exists k'.
      * cbn zeta. rewrite bool_decide_eq_false_2 by done. by exists k.
  - intros category e Hcategory Hacc. rewrite Hout. unfold entry_plan.
    by rewrite Hcategory, Hacc.
  - intros category g Hcategory Hacc. rewrite Hout. unfold entry_plan.
    rewrite Hcategory, Hacc. cbn zeta. split.
    + intros Hread. by rewrite bool_decide_eq_true_2.
    + intros e Hread Hrecords. rewrite bool_decide_eq_false_2 by done.
      by rewrite Hrecords.
  - intros e He. split.
    + subst out. rewrite Hrun in He |- *. cbn [fst snd] in *.
      rewrite Hw. by destruct (entry_plan self data st) as [[[[? ?] ?] ?] | ?].
    + subst out. unfold add_programme_entry in *.
      by apply (try_log_raise_logged
                  (λ e, [Lit "Failed to add entry to sheet: "; Exc e])).
Qed.

(** C8 as the specification words it does not hold: with the topic absent
    from a talk submission and the sheet service refusing the authorization,
    the failure raised is the service's, not a [KeyError]. *)
Lemma add_programme_entry_missing_field_not_key_error :
  let out :=
    add_programme_entry sample_manager sample_talk_data_without_topic
                        sample_store_unauthorized in
  sample_talk_data_without_topic !! "category" = Some talks_category
  ∧ "topic" ∈ row_fields talks_category
  ∧ sample_talk_data_without_topic !! "topic" = None
  ∧ out.2 = Raise (APIError Authorize)
  ∧ ¬ ∃ k, out.2 = Raise (KeyError k).
Proof.
  intros out.
  assert (out.2 = Raise (APIError Authorize)) as Hout by (vm_compute; reflexivity).
  split_and!; try done.
  - vm_compute. by left.
  - rewrite Hout. by intros [k ?].
Qed.

Lemma add_programme_entry_failures_witness :
  (add_programme_entry sample_manager sample_film_data sample_store_append_refused).2
  = Raise (APIError AppendRow).
Proof.
  apply (add_programme_entry_failures sample_manager sample_film_data
           sample_store_append_refused).
  exists (VStr "World Cinema"), sample_films_grid.
  split_and!.
  - reflexivity.
  - reflexivity.
  - apply (bool_decide_unpack _). vm_compute. exact I.
  - left. eexists. split_and!.
    + reflexivity.
    + apply lookup_fields_present. eexists. reflexivity.
    + vm_compute. by left.
Defined.

(** ** Replacing the data of a sheet *)

Lemma used_rows_all_blank (g : grid) :
  Forall (λ r, row_blank r = true) g → used_rows g = [].
Proof.
  induction 1 as [| r g Hr _ IH]; [done |]. simpl. by rewrite IH, Hr.
Qed.

Lemma row_blank_replicate (n : nat) : row_blank (replicate n blank) = true.
Proof. induction n as [| n IH]; [done |]. simpl. by rewrite IH. Qed.

Lemma clear_A_to_Z_narrow (r : list value) :
  (length r ≤ 26)%nat → clear_A_to_Z r = replicate (length r) blank.
Proof.
  intros Hlen. unfold clear_A_to_Z.
  rewrite drop_ge by done. rewrite app_nil_r. f_equal. lia.
Qed.

(** The header row is outside the cleared range. *)
Lemma clear_A2_Z1000_header (g : grid) : head (clear_A2_Z1000 g) = head g.
Proof. by destruct g. Qed.

(** On a sheet that lies within [A1:Z1000] the clearing leaves no data row. *)
Lemma clear_A2_Z1000_in_range (g : grid) :
  (length g ≤ 1000)%nat →
  Forall (λ r, (length r ≤ 26)%nat) g →
  data_rows (clear_A2_Z1000 g) = [].
Proof.
  intros Hrows Hcols. destruct g as [| header g]; [done |].
  unfold clear_A2_Z1000, data_rows. simpl in Hrows.
  change (take 1 (header :: g)) with [header].
  change (drop 1 (header :: g)) with g.
  change (drop 1000 (header :: g)) with (drop 999 g).
  rewrite take_ge, (drop_ge g) by lia. rewrite app_nil_r. simpl.
  apply Forall_cons in Hcols as [_ Hcols].
  rewrite used_rows_all_blank; [by destruct (row_blank header) |].
  apply Forall_fmap. eapply Forall_impl; [exact Hcols |].
  intros r Hr. simpl. rewrite clear_A_to_Z_narrow by done.
  apply row_blank_replicate.
Qed.

(** Clearing twice is clearing once. *)
Lemma clear_A_to_Z_idemp (r : list value) : clear_A_to_Z (clear_A_to_Z r) = clear_A_to_Z r.
Proof.
  destruct (decide (length r ≤ 26)%nat) as [Hle | Hgt].
  - rewrite (clear_A_to_Z_narrow r) by done.
    rewrite clear_A_to_Z_narrow by (by rewrite length_replicate).
    by rewrite length_replicate.
  - unfold clear_A_to_Z.
    replace (Nat.min 26 (length r)) with 26%nat by lia.
    rewrite drop_app_length' by (by rewrite length_replicate).
    rewrite length_app, length_replicate, length_drop.
    by replace (Nat.min 26 (26 + (length r - 26))) with 26%nat by lia.
Qed.

Lemma clear_A2_Z1000_idemp (g : grid) :
  clear_A2_Z1000 (clear_A2_Z1000 g) = clear_A2_Z1000 g.
Proof.
  destruct g as [| header g]; [done |].
  unfold clear_A2_Z1000.
  change (take 1 (header :: g)) with [header].
  change (drop 1 (header :: g)) with g.
  change (drop 1000 (header :: g)) with (drop 999 g).
  change (take 1 ([header] ++ ?l)) with [header].
  cbn [app take drop]. rewrite !drop_0.
  destruct (decide (length g ≤ 999)%nat) as [Hle | Hgt].
  - rewrite (take_ge g), (drop_ge g) by lia. rewrite !app_nil_r.
    rewrite take_ge by (rewrite length_map; lia).
    rewrite drop_ge by (rewrite length_map; lia).
    rewrite app_nil_r. f_equal.
    rewrite <- list_fmap_compose. apply list_fmap_ext. intros _ r _. simpl.
    apply clear_A_to_Z_idemp.
  - rewrite take_app_length' by (rewrite length_map, length_take; lia).
    rewrite drop_app_length' by (rewrite length_map, length_take; lia).
    f_equal. f_equal.
    rewrite <- list_fmap_compose. apply list_fmap_ext. intros _ r _. simpl.
    apply clear_A_to_Z_idemp.
Qed.

Lemma lookup_grid_written (books : gmap string (gmap string grid)) (sheet : sheet_handle)
    (g g' : grid) :
  lookup_grid books sheet = Ok g →
  lookup_grid (alter (insert (sh_title sheet) g') (sh_workbook sheet) books) sheet = Ok g'.
Proof.
  unfold lookup_grid. rewrite lookup_alter_eq.
  destruct (books !! sh_workbook sheet) as [wb |]; [| done].
  simpl. by rewrite lookup_insert_eq.
Qed.

Lemma write_twice (books : gmap string (gmap string grid)) (w t : string) (g1 g2 : grid) :
  alter (insert t g2) w (alter (insert t g1) w books) = alter (insert t g2) w books.
Proof.
  apply map_eq. intros w'. destruct (decide (w = w')) as [<- | Hne].
  - rewrite !lookup_alter_eq. destruct (books !! w) as [wb |]; [| done].
    simpl. by rewrite insert_insert_eq.
  - by rewrite !lookup_alter_ne.
Qed.

Lemma batch_clear_spec (sheet : sheet_handle) (st : Store) (g : grid) :
  lookup_grid (workbooks st) sheet = Ok g →
  BatchClear ∉ faults st →
  batch_clear_A2_Z1000 sheet st
  = ({| workbooks :=
          alter (insert (sh_title sheet) (clear_A2_Z1000 g)) (sh_workbook sheet)
                (workbooks st);
        records_read := records_read st; user_entered := user_entered st;
        faults := faults st; log := log st |}, Ok tt).
Proof.
  intros Hgrid Hfault. unfold batch_clear_A2_Z1000, mbind, M_bind, remote, read_grid.
  rewrite bool_decide_eq_false_2 by done. by rewrite Hgrid.
Qed.

Lemma append_rows_spec (sheet : sheet_handle) (rows : list (list value)) (st : Store)
    (g : grid) :
  lookup_grid (workbooks st) sheet = Ok g →
  AppendRows ∉ faults st →
  append_rows sheet rows st
  = ({| workbooks :=
          alter (insert (sh_title sheet) (grid_append g (map (map (user_entered st)) rows)))
                (sh_workbook sheet) (workbooks st);
        records_read := records_read st; user_entered := user_entered st;
        faults := faults st; log := log st |}, Ok tt).
Proof.
  intros Hgrid Hfault. unfold append_rows, mbind, M_bind, remote, read_grid, typed_in.
  rewrite bool_decide_eq_false_2 by done. by rewrite Hgrid.
Qed.

(** Running [replace_sheet_data] on a sheet that can be reached, cleared and
    appended to: the sheet ends as its cleared grid when the frame is empty,
    with a warning as the last log record, and otherwise as the used rows of
    the cleared grid followed by the frame's rows as strings. *)
Lemma replace_sheet_data_run (na_kept : bool) (float_repr : Qc → string)
    (self : ProgrammeManager) (sheet_name : string) (df : DataFrame) (st : Store)
    (g : grid) :
  let sheet := {| sh_workbook := WORKBOOK_FILENAME self; sh_title := sheet_name |} in
  let new_grid :=
    if df_empty df then clear_A2_Z1000 g
    else used_rows (clear_A2_Z1000 g)
         ++ map (map (user_entered st)) (astype_str_rows na_kept float_repr df) in
  let out := replace_sheet_data na_kept float_repr self sheet_name df st in
  Authorize ∉ faults st → OpenWorkbook ∉ faults st → BatchClear ∉ faults st →
  AppendRows ∉ faults st →
  lookup_grid (workbooks st) sheet = Ok g →
  out.2 = Ok tt
  ∧ faults out.1 = faults st
  ∧ workbooks out.1
    = alter (insert sheet_name new_grid) (WORKBOOK_FILENAME self) (workbooks st)
  ∧ lookup_grid (workbooks out.1) sheet = Ok new_grid
  ∧ (df_empty df = true →
     last (log out.1)
     = Some {| log_level := WARNING;
               log_message := [Lit "DataFrame is empty. Nothing to append to sheet: ";
                               Val (VStr sheet_name)];
               log_exc_info := None |})
  ∧ records_read out.1 = records_read st
  ∧ user_entered out.1 = user_entered st.
Proof.
  intros sheet new_grid out Hauth Hopen Hclear Happend Hgrid.
  assert (∃ st', replace_sheet_data na_kept float_repr self sheet_name df st = (st', Ok tt)
                 ∧ faults st' = faults st
                 ∧ workbooks st'
                   = alter (insert sheet_name new_grid) (WORKBOOK_FILENAME self)
                           (workbooks st)
                 ∧ (df_empty df = true →
                    last (log st')
                    = Some {| log_level := WARNING;
                              log_message :=
                                [Lit "DataFrame is empty. Nothing to append to sheet: ";
                                 Val (VStr sheet_name)];
                              log_exc_info := None |})
                 ∧ records_read st' = records_read st
                 ∧ user_entered st' = user_entered st)
    as (st' & Hrun & Hf & Hw & Hlog & Hr & Hu).
  { unfold replace_sheet_data, try_log_raise, mbind, M_bind.
    destruct (get_sheet_spec self sheet_name st) as (st1 & -> & (Hw1 & Hf1 & Hr1 & Hu1)).
    unfold sheet_access. rewrite !bool_decide_eq_false_2 by done.
    fold sheet. rewrite Hgrid.
    rewrite (batch_clear_spec sheet st1 g) by congruence.
    cbn [fst snd]. unfold logging_info, logging_warning, emit.
    cbn [workbooks faults log records_read user_entered].
    subst new_grid. destruct (df_empty df) eqn:Hempty.
    - eexists. split_and!; [done | done | cbn; by rewrite Hw1 | | done | done].
      intros _. cbn. by rewrite last_snoc.
    - erewrite append_rows_spec;
        [| cbn; apply lookup_grid_written with g; by rewrite Hw1 | cbn; congruence].
      eexists. split_and!; [done | cbn; congruence | | done | done | done].
      cbn. rewrite Hw1, Hu1. apply write_twice. }
  subst out. rewrite Hrun. cbn [fst snd]. split_and!; try done.
  rewrite Hw. by apply lookup_grid_written with g.
Qed.

Lemma used_rows_cons (h : list value) (g : grid) :
  row_blank h = false →
  used_rows (h :: g) = [h] ∨ ∃ r t, used_rows (h :: g) = h :: r :: t.
Proof.
  intros Hh. cbn [used_rows]. destruct (used_rows g) as [| r t].
  - left. by rewrite Hh.
  - right. by exists r, t.
Qed.

Lemma used_rows_cons_one (h : list value) (g : grid) :
  used_rows (h :: g) = [h] → used_rows g = [].
Proof.
  cbn [used_rows]. destruct (used_rows g) as [| r t]; [done | by intros [=]].
Qed.

Lemma used_rows_cons_more (h r : list value) (g t : grid) :
  used_rows (h :: g) = h :: r :: t → used_rows g = r :: t.
Proof.
  cbn [used_rows]. destruct (used_rows g) as [| r' t']; [| by intros [= -> ->]].
  by destruct (row_blank h).
Qed.

(** On a sheet within [A1:Z1000] whose header row is not blank, replacing
    keeps the header and leaves exactly the frame's rows, as strings, below
    it: none when the frame is empty, in which case a second call changes
    nothing. *)
Lemma replace_sheet_data_in_range (na_kept : bool) (float_repr : Qc → string)
    (self : ProgrammeManager) (sheet_name : string) (df : DataFrame) (st : Store)
    (header : list value) (rest : grid) :
  let sheet := {| sh_workbook := WORKBOOK_FILENAME self; sh_title := sheet_name |} in
  let out := replace_sheet_data na_kept float_repr self sheet_name df st in
  Authorize ∉ faults st → OpenWorkbook ∉ faults st → BatchClear ∉ faults st →
  AppendRows ∉ faults st →
  lookup_grid (workbooks st) sheet = Ok (header :: rest) →
  (length (header :: rest) ≤ 1000)%nat →
  Forall (λ r, (length r ≤ 26)%nat) (header :: rest) →
  row_blank header = false →
  ∃ after,
    lookup_grid (workbooks out.1) sheet = Ok after
    ∧ used_rows after
      = header :: (if df_empty df then []
                   else used_rows (map (map (user_entered st))
                                       (astype_str_rows na_kept float_repr df)))
    ∧ (df_empty df = true →
       data_rows after = []
       ∧ workbooks (replace_sheet_data na_kept float_repr self sheet_name df out.1).1
         = workbooks out.1).
Proof.
  intros sheet out Hauth Hopen Hclear Happend Hgrid Hrows Hcols Hheader.
  destruct (replace_sheet_data_run na_kept float_repr self sheet_name df st
              (header :: rest))
    as (Hok & Hf & Hw & Hafter & Hlog & _); try done.
  fold sheet out in Hok, Hf, Hw, Hafter, Hlog.
  pose proof (clear_A2_Z1000_in_range (header :: rest) Hrows Hcols) as Hdata.
  assert (used_rows (clear_A2_Z1000 (header :: rest)) = [header]) as Hused.
  { unfold data_rows, clear_A2_Z1000 in Hdata |- *.
    change (take 1 (header :: rest)) with [header] in Hdata |- *.
    cbn [app] in Hdata |- *.
    set (tail := map clear_A_to_Z _ ++ _) in Hdata |- *.
    destruct (used_rows_cons header tail Hheader) as [Hone | (r & t & Hmore)];
      [exact Hone |].
    rewrite Hmore in Hdata. done. }
  eexists. split; [exact Hafter |]. split.
  - destruct (df_empty df); [done |].
    rewrite Hused. cbn [app].
    destruct (used_rows_cons header
                (map (map (user_entered st)) (astype_str_rows na_kept float_repr df))
                Hheader)
      as [Hone | (r & t & Hmore)].
    + rewrite Hone. f_equal. symmetry. by eapply used_rows_cons_one.
    + rewrite Hmore. f_equal. symmetry. by eapply used_rows_cons_more.
  - intros Hempty. rewrite Hempty in Hafter. split; [by rewrite Hempty |].
    destruct (replace_sheet_data_run na_kept float_repr self sheet_name df out.1
                (clear_A2_Z1000 (header :: rest)))
      as (_ & _ & Hw2 & _); try (rewrite Hf; done); [exact Hafter |].
    rewrite Hw2, Hempty, clear_A2_Z1000_idemp, Hw, Hempty. apply write_twice.
Qed.

(** C4 at a sheet that has outgrown the cleared range: the selection sheet
    holds 1000 score rows, the last of them in row 1001 of the sheet.
    Replacing its data by an empty frame succeeds and logs the warning, but
    row 1001 is still there afterwards: the sheet is not left with zero data
    rows, it still has 1000 rows below the header.  Replacing its data by a
    frame of one record leaves the old row 1001 in the sheet as well.  This
    holds whatever pandas makes of a missing cell. *)
Theorem replace_sheet_data_leaves_row_1001 (na_kept : bool) (float_repr : Qc → string) :
  let out :=
    replace_sheet_data na_kept float_repr sample_manager "Programme Selection"
                       empty_frame sample_store_full in
  let out1 :=
    replace_sheet_data na_kept float_repr sample_manager "Programme Selection"
                       sample_one_row_frame sample_store_full in
  length (data_rows sample_full_selection_grid) = 1000%nat
  ∧ out.2 = Ok tt
  ∧ (∃ after,
       lookup_grid (workbooks out.1) sample_selection_sheet = Ok after
       ∧ after = clear_A2_Z1000 sample_full_selection_grid
       ∧ after !! 1000%nat = Some sample_score_cells
       ∧ last (data_rows after) = Some sample_score_cells
       ∧ length (data_rows after) = 1000%nat
       ∧ data_rows after ≠ [])
  ∧ out1.2 = Ok tt
  ∧ (∃ after,
       lookup_grid (workbooks out1.1) sample_selection_sheet = Ok after
       ∧ after !! 1000%nat = Some sample_score_cells
       ∧ length (data_rows after) = 1001%nat).
Proof.
  intros out out1.
  destruct (replace_sheet_data_run na_kept float_repr sample_manager
              "Programme Selection" empty_frame sample_store_full
              sample_full_selection_grid)
    as (Hok & _ & _ & Hafter & _);
    try (apply (bool_decide_unpack _); vm_compute; exact I); [reflexivity |].
  destruct (replace_sheet_data_run na_kept float_repr sample_manager
              "Programme Selection" sample_one_row_frame sample_store_full
              sample_full_selection_grid)
    as (Hok1 & _ & _ & Hafter1 & _);
    try (apply (bool_decide_unpack _); vm_compute; exact I); [reflexivity |].
  fold out in Hok, Hafter. fold out1 in Hok1, Hafter1.
  assert (length (data_rows (clear_A2_Z1000 sample_full_selection_grid)) = 1000%nat)
    as Hlen by (vm_compute; reflexivity).
  split_and!.
  - by vm_compute.
  - done.
  - eexists. split; [exact Hafter |].
    change (df_empty empty_frame) with true. cbv iota.
    split_and!; try (vm_compute; reflexivity).
    intros Hnil. by rewrite Hnil in Hlen.
  - done.
  - eexists. split; [exact Hafter1 |].
    change (df_empty sample_one_row_frame) with false. cbv iota.
    split; vm_compute; reflexivity.
Qed.

(** * Further properties of the code *)

(** ** Programme IDs across categories *)

Lemma string_app_inv_length (p1 p2 s1 s2 : string) :
  String.length p1 = String.length p2 → p1 +:+ s1 = p2 +:+ s2 → p1 = p2 ∧ s1 = s2.
Proof.
  revert p2. induction p1 as [| c p1 IH]; intros [| c' p2]; simpl; try done.
  intros [= Hlen] [= -> Happ]. destruct (IH p2 Hlen Happ) as [-> ->]. done.
Qed.

(** X1: programme IDs are unique across categories whose codes have the same
    length: if two calls of [generate_programme_id] with positive serial
    numbers return the same ID and the two categories' codes are equally
    long, then the codes are the same and so are the serial numbers. *)
Theorem generate_programme_id_unique_across_categories (self : ProgrammeManager)
    (category1 category2 : value) (n1 n2 : Z) (st1 st2 : Store) :
  0 < n1 → 0 < n2 →
  String.length (category_code self category1)
  = String.length (category_code self category2) →
  (generate_programme_id self category1 n1 st1).2
  = (generate_programme_id self category2 n2 st2).2 →
  category_code self category1 = category_code self category2 ∧ n1 = n2.
Proof.
  intros H1 H2 Hlen. rewrite !generate_programme_id_run. cbn [snd].
  intros [= Heq]. unfold programme_id_of in Heq.
  apply string_app_inv_length in Heq as [Hcode Hpad]; [| done].
  split; [done |].
  apply (f_equal string_value) in Hpad.
  rewrite !string_value_zfill in Hpad by done. lia.
Qed.

Lemma generate_programme_id_unique_across_categories_witness :
  category_code sample_manager (VStr "World Cinema")
  = category_code sample_manager (VStr "World Cinema") ∧ 12 = 12.
Proof.
  apply (generate_programme_id_unique_across_categories sample_manager
           (VStr "World Cinema") (VStr "World Cinema") 12 12 sample_store sample_store);
    [lia | lia | reflexivity | reflexivity].
Defined.

(** Without the condition on the lengths the IDs can collide: code F with
    serial 1001 and code F1 with serial 1 both give F1001. *)
Example programme_id_collision :
  let self := {| CATEGORY_CODES := {[ "Features" := "F"; "Focus" := "F1" ]};
                 WORKBOOK_FILENAME := "IFFK 2025"; FILMS_LIST_SHEET := "Films";
                 TALKS_SHEET := "Talks & Conversations";
                 PROGRAMME_SELECTION_SHEET := "Programme Selection" |} in
  programme_id_of self (VStr "Features") 1001 = programme_id_of self (VStr "Focus") 1.
Proof. vm_compute. reflexivity. Qed.

(** ** Reaching a sheet *)

(** X2: [get_sheet] never changes a workbook.  It returns the handle of the
    sheet exactly when the authorization and the opening of the workbook are
    accepted and the workbook has a sheet of that name; a missing sheet raises
    [WorksheetNotFound]; and a refused authorization is raised as it is and
    logged twice, once by [get_sheets_client] and once by [get_sheet]. *)
Theorem get_sheet_outcome (self : ProgrammeManager) (sheet_name : string) (st : Store) :
  let out := get_sheet self sheet_name st in
  let sheet := {| sh_workbook := WORKBOOK_FILENAME self; sh_title := sheet_name |} in
  workbooks out.1 = workbooks st
  ∧ faults out.1 = faults st
  ∧ (out.2 = Ok sheet
     ↔ (Authorize ∉ faults st) ∧ (OpenWorkbook ∉ faults st)
       ∧ ∃ wb g, workbooks st !! WORKBOOK_FILENAME self = Some wb
                 ∧ wb !! sheet_name = Some g)
  ∧ (∀ wb, Authorize ∉ faults st → OpenWorkbook ∉ faults st →
       workbooks st !! WORKBOOK_FILENAME self = Some wb → wb !! sheet_name = None →
       out.2 = Raise (WorksheetNotFound sheet_name))
  ∧ (Authorize ∈ faults st →
     out.2 = Raise (APIError Authorize)
     ∧ log out.1
       = log st ++
         [ {| log_level := ERROR;
              log_message := [Lit "Failed to create Google Sheets client"];
              log_exc_info := Some (APIError Authorize) |};
           {| log_level := ERROR;
              log_message := [Lit "Failed to access sheet: "; Val (VStr sheet_name)];
              log_exc_info := Some (APIError Authorize) |} ]).
Proof.
  intros out sheet.
  destruct (get_sheet_spec self sheet_name st) as (st' & Hrun & Hw & Hf & _).
  assert (out.2 = match sheet_access self sheet_name st with
                  | Ok _ => Ok sheet
                  | Raise e => Raise e
                  end) as Hout by (subst out; by rewrite Hrun).
  split_and!.
  - subst out. by rewrite Hrun.
  - subst out. by rewrite Hrun.
  - rewrite Hout. unfold sheet_access, lookup_grid. cbn [sh_workbook sh_title].
    split.
    + repeat case_bool_decide; try done.
      destruct (workbooks st !! WORKBOOK_FILENAME self) as [wb |]; [| done].
      destruct (wb !! sheet_name) as [g |] eqn:Hg; [| done].
      intros _. split_and!; try done. by exists wb, g.
    + intros (Hauth & Hopen & wb & g & Hwb & Hg).
      rewrite !bool_decide_eq_false_2 by done. by rewrite Hwb, Hg.
  - intros wb Hauth Hopen Hwb Hnone. rewrite Hout.
    unfold sheet_access, lookup_grid. cbn [sh_workbook sh_title].
    rewrite !bool_decide_eq_false_2 by done. by rewrite Hwb, Hnone.
  - intros Hauth. subst out.
    unfold get_sheet, get_sheets_client, try_log_raise, mbind, M_bind, remote.
    rewrite bool_decide_eq_true_2 by done. cbn.
    split; [done |]. by rewrite <- app_assoc.
Qed.

Lemma get_sheet_outcome_witness :
  (get_sheet sample_manager "Films" sample_store).2 = Ok sample_films_sheet
  ∧ (get_sheet sample_manager "Awards" sample_store).2
    = Raise (WorksheetNotFound "Awards")
  ∧ (get_sheet sample_manager "Films" sample_store_unauthorized).2
    = Raise (APIError Authorize).
Proof.
  split_and!.
  - apply (get_sheet_outcome sample_manager "Films" sample_store).
    split_and!; try (apply (bool_decide_unpack _); vm_compute; exact I).
    eexists _, _. split; reflexivity.
  - destruct (get_sheet_outcome sample_manager "Awards" sample_store)
      as (_ & _ & _ & Hmissing & _).
    eapply Hmissing.
    + apply (bool_decide_unpack _). vm_compute. exact I.
    + apply (bool_decide_unpack _). vm_compute. exact I.
    + reflexivity.
    + vm_compute. reflexivity.
  - apply (get_sheet_outcome sample_manager "Films" sample_store_unauthorized).
    apply (bool_decide_unpack _). vm_compute. exact I.
Defined.

(** ** Consecutive entries *)

Lemma sl_no_of_records_snoc (data : list (gmap string value)) (record : gmap string value)
    (category : value) :
  py_eq (dict_get record "CATEGORY") category = true →
  sl_no_of_records (data ++ [record]) category = sl_no_of_records data category + 1.
Proof.
  intros Hmatch. unfold sl_no_of_records, same_category_rows.
  rewrite filter_app, filter_cons_True by done.
  rewrite length_app. simpl. lia.
Qed.

(** The plan of a submission that has its category and all fields, on a
    store that accepts every call and whose sheet is read into records. *)
Lemma entry_plan_healthy (self : ProgrammeManager) (data : gmap string value)
    (st : Store) (category : value) (fields : list value) (g : grid)
    (records : list (gmap string value)) :
  data !! "category" = Some category →
  Forall2 (λ k v, data !! k = Some v) (row_fields category) fields →
  Authorize ∉ faults st → OpenWorkbook ∉ faults st →
  GetAllRecords ∉ faults st → AppendRow ∉ faults st →
  lookup_grid (workbooks st)
    {| sh_workbook := WORKBOOK_FILENAME self;
       sh_title := target_sheet self category |} = Ok g →
  records_read st g = Ok records →
  entry_plan self data st
  = Ok ({| sh_workbook := WORKBOOK_FILENAME self;
           sh_title := target_sheet self category |}, g,
        programme_id_of self category (sl_no_of_records records category),
        [category; VInt (sl_no_of_records records category);
         VStr (programme_id_of self category (sl_no_of_records records category))]
        ++ fields).
Proof.
  intros Hcategory Hfields Hauth Hopen Hread Happend Hgrid Hrecords.
  unfold entry_plan. rewrite Hcategory. cbn zeta.
  unfold sheet_access. rewrite !bool_decide_eq_false_2 by done.
  rewrite Hgrid, Hrecords. apply lookup_fields_Ok in Hfields. by rewrite Hfields.
Qed.

(** X3: two entries of one category added one after the other get
    consecutive serial numbers and different programme IDs, on a store that
    accepts every call, when the sheet is read into records and the read
    after the first append gives the same records followed by one whose
    CATEGORY compares equal to the category submitted. *)
Theorem add_programme_entry_consecutive (self : ProgrammeManager)
    (data1 data2 : gmap string value) (st : Store) (category : string)
    (fields1 fields2 : list value) (g : grid)
    (records : list (gmap string value)) (record : gmap string value) :
  let sheet := {| sh_workbook := WORKBOOK_FILENAME self;
                  sh_title := target_sheet self (VStr category) |} in
  let out1 := add_programme_entry self data1 st in
  let out2 := add_programme_entry self data2 out1.1 in
  let sl_no := sl_no_of_records records (VStr category) in
  let row1 := [VStr category; VInt sl_no;
               VStr (programme_id_of self (VStr category) sl_no)] ++ fields1 in
  data1 !! "category" = Some (VStr category) →
  data2 !! "category" = Some (VStr category) →
  Forall2 (λ k v, data1 !! k = Some v) (row_fields (VStr category)) fields1 →
  Forall2 (λ k v, data2 !! k = Some v) (row_fields (VStr category)) fields2 →
  Authorize ∉ faults st → OpenWorkbook ∉ faults st →
  GetAllRecords ∉ faults st → AppendRow ∉ faults st →
  lookup_grid (workbooks st) sheet = Ok g →
  records_read st g = Ok records →
  records_read st (grid_append g [row1]) = Ok (records ++ [record]) →
  py_eq (dict_get record "CATEGORY") (VStr category) = true →
  0 < sl_no
  ∧ out1.2 = Ok (programme_id_of self (VStr category) sl_no)
  ∧ out2.2 = Ok (programme_id_of self (VStr category) (sl_no + 1))
  ∧ out1.2 ≠ out2.2.
Proof.
  intros sheet out1 out2 sl_no row1 Hcat1 Hcat2 Hfields1 Hfields2 Hauth Hopen Hread
    Happend Hgrid Hrecords Hrecords1 Hrecord.
  destruct (add_programme_entry_plan self data1 st)
    as (st1 & Hrun1 & Hf1 & Hw1 & Hr1 & _).
  rewrite (entry_plan_healthy self data1 st (VStr category) fields1 g records)
    in Hrun1, Hw1 by done.
  fold sl_no sheet row1 in Hrun1, Hw1.
  assert (out1 = (st1, Ok (programme_id_of self (VStr category) sl_no))) as Hout1
    by done.
  assert (lookup_grid (workbooks st1) sheet = Ok (grid_append g [row1])) as Hgrid1.
  { rewrite Hw1. unfold with_row. by apply lookup_grid_written with g. }
  destruct (add_programme_entry_plan self data2 st1) as (st2 & Hrun2 & _).
  rewrite (entry_plan_healthy self data2 st1 (VStr category) fields2
             (grid_append g [row1]) (records ++ [record])) in Hrun2
    by (rewrite ?Hf1, ?Hr1; done).
  rewrite sl_no_of_records_snoc in Hrun2 by done.
  fold sl_no in Hrun2.
  assert (0 < sl_no) as Hpos by (unfold sl_no, sl_no_of_records; lia).
  subst out2. rewrite Hout1. cbn [fst snd]. rewrite Hrun2. cbn [snd].
  split_and!; try done.
  intros [= Heq]. apply programme_id_of_inj in Heq; lia.
Qed.

Lemma add_programme_entry_consecutive_witness :
  (add_programme_entry sample_manager sample_film_data sample_store).2 = Ok "W003"
  ∧ (add_programme_entry sample_manager sample_film_data
       (add_programme_entry sample_manager sample_film_data sample_store).1).2
    = Ok "W004".
Proof.
  pose (fields := [VStr "Fourth"; VStr "Fourth"; VInt 2025; VInt 120; VStr "Malayalam";
                   VStr "India"; VStr "A director"; VStr "A synopsis";
                   VStr "https://img.example/q.jpg";
                   VStr "https://letterboxd.com/film/y/"]).
  pose (row := [VStr "World Cinema"; VInt 3; VStr "W003"] ++ fields).
  pose (records := map (sample_record sample_films_header) (tail sample_films_grid)).
  assert (records_read sample_store sample_films_grid = Ok records) as Hrecords
    by reflexivity.
  assert (records_read sample_store (grid_append sample_films_grid [row])
          = Ok (records ++ [sample_record sample_films_header row])) as Hrecords1
    by reflexivity.
  assert (Forall2 (λ k v, sample_film_data !! k = Some v)
            (row_fields (VStr "World Cinema")) fields) as Hfields
    by repeat constructor.
  assert (∀ call, bool_decide (call ∉ faults sample_store) = true →
                  call ∉ faults sample_store) as Hhealthy
    by (intros call; apply bool_decide_eq_true_1).
  destruct (add_programme_entry_consecutive sample_manager sample_film_data
              sample_film_data sample_store "World Cinema" fields fields
              sample_films_grid records (sample_record sample_films_header row)
              eq_refl eq_refl Hfields Hfields
              (Hhealthy _ eq_refl) (Hhealthy _ eq_refl) (Hhealthy _ eq_refl)
              (Hhealthy _ eq_refl) eq_refl Hrecords Hrecords1 eq_refl)
    as (_ & Hout1 & Hout2 & _).
  split; [rewrite Hout1 | rewrite Hout2]; vm_compute; reflexivity.
Defined.

(** Without that the serial number repeats: when the library reads the
    category of the row just appended back as a number, the second entry of
    the category gets the programme ID of the first. *)
Example add_programme_entry_numeric_category :
  let out1 := add_programme_entry sample_manager sample_numeric_data sample_store_numeric in
  let out2 := add_programme_entry sample_manager sample_numeric_data out1.1 in
  out1.2 = out2.2 ∧ ∃ programme_id, out2.2 = Ok programme_id.
Proof. split; [| eexists]; vm_compute; reflexivity. Qed.

(** ** What adding an entry leaves alone *)

Lemma used_rows_prefix (g : grid) : used_rows g `prefix_of` g.
Proof.
  induction g as [| r g IH]; [done |]. cbn [used_rows].
  destruct (used_rows g) as [| r' t] eqn:Hused.
  - destruct (row_blank r); [apply prefix_nil | apply prefix_cons, prefix_nil].
  - by apply prefix_cons.
Qed.

Lemma lookup_grid_other (books : gmap string (gmap string grid)) (sheet other : sheet_handle)
    (g : grid) :
  other ≠ sheet →
  lookup_grid (alter (insert (sh_title sheet) g) (sh_workbook sheet) books) other
  = lookup_grid books other.
Proof.
  intros Hne. unfold lookup_grid.
  destruct (decide (sh_workbook sheet = sh_workbook other)) as [Hwb | Hwb].
  - rewrite <- Hwb, lookup_alter_eq.
    destruct (books !! sh_workbook sheet) as [wb |]; [| done]. simpl.
    rewrite lookup_insert_ne; [done |].
    intros Htitle. apply Hne. destruct sheet, other. simpl in *. congruence.
  - by rewrite lookup_alter_ne.
Qed.

Lemma entry_plan_Ok_inv (self : ProgrammeManager) (data : gmap string value) (st : Store)
    (sheet : sheet_handle) (g : grid) (programme_id : string) (row : list value) :
  entry_plan self data st = Ok (sheet, g, programme_id, row) →
  lookup_grid (workbooks st) sheet = Ok g.
Proof.
  unfold entry_plan.
  destruct (data !! "category") as [category |]; [| done]. cbn zeta.
  destruct (sheet_access self (target_sheet self category) st) as [g' | e] eqn:Hacc;
    [| done].
  apply sheet_access_grid in Hacc.
  case_bool_decide; [done |].
  destruct (records_read st g') as [records | e]; [| done].
  destruct (lookup_fields data (row_fields category)) as [fields | e]; [| done].
  case_bool_decide; [done |]. by intros [= <- <- _ _].
Qed.

(** X4: [add_programme_entry] only ever appends.  Whatever the submission
    and whatever the outcome, every sheet of the store still holds its used
    rows in place afterwards and has grown by at most one row; when the call
    fails no sheet has changed at all. *)
Theorem add_programme_entry_append_only (self : ProgrammeManager)
    (data : gmap string value) (st : Store) (sheet : sheet_handle) (before : grid) :
  let out := add_programme_entry self data st in
  lookup_grid (workbooks st) sheet = Ok before →
  ∃ after,
    lookup_grid (workbooks out.1) sheet = Ok after
    ∧ used_rows before `prefix_of` after
    ∧ (length after ≤ length before + 1)%nat
    ∧ (∀ e, out.2 = Raise e → workbooks out.1 = workbooks st ∧ after = before).
Proof.
  intros out Hbefore.
  destruct (add_programme_entry_plan self data st) as (st' & Hrun & _ & Hw & _).
  subst out. rewrite Hrun. cbn [fst snd]. rewrite Hw.
  destruct (entry_plan self data st) as [[[[target g] programme_id] row] | e] eqn:Hplan.
  - apply entry_plan_Ok_inv in Hplan. unfold with_row.
    assert ({sheet = target} + {sheet ≠ target}) as [-> | Hne]
      by (decide equality; apply String.string_dec).
    + exists (grid_append g [row]). rewrite Hbefore in Hplan. injection Hplan as <-.
      split_and!.
      * by apply lookup_grid_written with before.
      * by apply prefix_app_r.
      * unfold grid_append. rewrite length_app. simpl.
        pose proof (prefix_length _ _ (used_rows_prefix before)). lia.
      * done.
    + exists before. split_and!.
      * by rewrite lookup_grid_other.
      * apply used_rows_prefix.
      * lia.
      * done.
  - exists before. split_and!; [done | apply used_rows_prefix | lia |].
    by intros e' _.
Qed.

Lemma add_programme_entry_append_only_witness :
  ∃ after,
    lookup_grid
      (workbooks (add_programme_entry sample_manager sample_film_data sample_store).1)
      sample_selection_sheet = Ok after
    ∧ used_rows sample_selection_grid `prefix_of` after.
Proof.
  destruct (add_programme_entry_append_only sample_manager sample_film_data sample_store
              sample_selection_sheet sample_selection_grid)
    as (after & Hafter & Hprefix & _); [reflexivity |].
  exists after. split; [exact Hafter | exact Hprefix].
Defined.

(** ** Replacing is not atomic *)

(** X5: [replace_sheet_data] has no rollback.  On a sheet that can be
    reached: when the clearing is refused the call raises that failure and
    the workbooks are unchanged; when the clearing is accepted, the frame is
    not empty and the append is refused, the call raises the append's failure
    and leaves the sheet cleared, so that a sheet within [A1:Z1000] has lost
    all its data rows. *)
Theorem replace_sheet_data_not_atomic (na_kept : bool) (float_repr : Qc → string)
    (self : ProgrammeManager) (sheet_name : string) (df : DataFrame) (st : Store)
    (g : grid) :
  let sheet := {| sh_workbook := WORKBOOK_FILENAME self; sh_title := sheet_name |} in
  let out := replace_sheet_data na_kept float_repr self sheet_name df st in
  Authorize ∉ faults st → OpenWorkbook ∉ faults st →
  lookup_grid (workbooks st) sheet = Ok g →
  (BatchClear ∈ faults st →
   out.2 = Raise (APIError BatchClear) ∧ workbooks out.1 = workbooks st)
  ∧ (BatchClear ∉ faults st → df_empty df = false → AppendRows ∈ faults st →
     out.2 = Raise (APIError AppendRows)
     ∧ lookup_grid (workbooks out.1) sheet = Ok (clear_A2_Z1000 g)
     ∧ ((length g ≤ 1000)%nat → Forall (λ r, (length r ≤ 26)%nat) g →
        data_rows (clear_A2_Z1000 g) = [])).
Proof.
  intros sheet out Hauth Hopen Hgrid.
  assert (∃ st1, get_sheet self sheet_name st = (st1, Ok sheet)
                 ∧ workbooks st1 = workbooks st ∧ faults st1 = faults st)
    as (st1 & Hsheet & Hw1 & Hf1).
  { destruct (get_sheet_spec self sheet_name st) as (st1 & Hrun & Hw & Hf & _).
    exists st1. split_and!; [| done | done]. rewrite Hrun. f_equal.
    unfold sheet_access. rewrite !bool_decide_eq_false_2 by done.
    fold sheet. by rewrite Hgrid. }
  split.
  - intros Hclear. subst out.
    unfold replace_sheet_data, try_log_raise, mbind, M_bind. rewrite Hsheet.
    unfold batch_clear_A2_Z1000, mbind, M_bind, remote.
    rewrite bool_decide_eq_true_2 by congruence. cbn. done.
  - intros Hclear Hempty Happend. subst out.
    unfold replace_sheet_data, try_log_raise, mbind, M_bind. rewrite Hsheet.
    rewrite (batch_clear_spec sheet st1 g) by congruence.
    rewrite Hempty. cbn [fst snd].
    unfold logging_info, emit, append_rows, mbind, M_bind, remote.
    cbn [workbooks faults log]. rewrite bool_decide_eq_true_2 by congruence.
    cbn. split_and!.
    + done.
    + rewrite Hw1. by apply lookup_grid_written with g.
    + apply clear_A2_Z1000_in_range.
Qed.

Lemma replace_sheet_data_not_atomic_witness :
  let st := sample_world (workbooks sample_store) [AppendRows] in
  let out :=
    replace_sheet_data false (λ _, "") sample_manager "Programme Selection"
                       sample_one_row_frame st in
  out.2 = Raise (APIError AppendRows)
  ∧ lookup_grid (workbooks out.1) sample_selection_sheet
    = Ok (clear_A2_Z1000 sample_selection_grid)
  ∧ data_rows (clear_A2_Z1000 sample_selection_grid) = [].
Proof.
  intros st out.
  assert (Authorize ∉ faults st) as Hauth
    by (apply (bool_decide_unpack _); vm_compute; exact I).
  assert (OpenWorkbook ∉ faults st) as Hopen
    by (apply (bool_decide_unpack _); vm_compute; exact I).
  assert (BatchClear ∉ faults st) as Hclear
    by (apply (bool_decide_unpack _); vm_compute; exact I).
  assert (AppendRows ∈ faults st) as Happend
    by (apply (bool_decide_unpack _); vm_compute; exact I).
  destruct (replace_sheet_data_not_atomic false (λ _, "") sample_manager
              "Programme Selection" sample_one_row_frame st sample_selection_grid
              Hauth Hopen eq_refl)
    as [_ Hrefused].
  destruct (Hrefused Hclear eq_refl Happend) as (Hout & Hgrid & Hdata).
  split_and!; [exact Hout | exact Hgrid |].
  apply Hdata; [simpl; lia | repeat constructor; simpl; lia].
Defined.

(** ** Replacing, then reading *)

Lemma used_rows_cleared_in_range (header : list value) (rest : grid) :
  (length (header :: rest) ≤ 1000)%nat →
  Forall (λ r, (length r ≤ 26)%nat) (header :: rest) →
  row_blank header = false →
  used_rows (clear_A2_Z1000 (header :: rest)) = [header].
Proof.
  intros Hrows Hcols Hheader.
  pose proof (clear_A2_Z1000_in_range (header :: rest) Hrows Hcols) as Hdata.
  unfold data_rows, clear_A2_Z1000 in Hdata |- *.
  change (take 1 (header :: rest)) with [header] in Hdata |- *.
  cbn [app] in Hdata |- *.
  set (tail := map clear_A_to_Z _ ++ _) in Hdata |- *.
  destruct (used_rows_cons header tail Hheader) as [Hone | (r & t & Hmore)];
    [exact Hone |].
  rewrite Hmore in Hdata. done.
Qed.

(** X6: on a sheet within [A1:Z1000] with a header row that is not blank,
    and a store that accepts every call, replacing the data by a frame that
    is not empty leaves the sheet as its header followed by one row for each
    row of the frame, in order: every cell made a string by pandas and then
    taken by the sheet as typed input, so that the sheet need not hold the
    strings that were sent.  Reading all records afterwards gives what the
    library makes of that grid. *)
Theorem replace_sheet_data_then_read (na_kept : bool) (float_repr : Qc → string)
    (self : ProgrammeManager) (sheet_name : string) (df : DataFrame) (st : Store)
    (header : list value) (rest : grid) :
  let sheet := {| sh_workbook := WORKBOOK_FILENAME self; sh_title := sheet_name |} in
  let out := replace_sheet_data na_kept float_repr self sheet_name df st in
  let entered := map (map (user_entered st)) (astype_str_rows na_kept float_repr df) in
  Authorize ∉ faults st → OpenWorkbook ∉ faults st → BatchClear ∉ faults st →
  AppendRows ∉ faults st → GetAllRecords ∉ faults st →
  lookup_grid (workbooks st) sheet = Ok (header :: rest) →
  (length (header :: rest) ≤ 1000)%nat →
  Forall (λ r, (length r ≤ 26)%nat) (header :: rest) →
  row_blank header = false →
  df_empty df = false →
  out.2 = Ok tt
  ∧ lookup_grid (workbooks out.1) sheet = Ok (header :: entered)
  ∧ (get_all_records sheet out.1).2 = records_read st (header :: entered).
Proof.
  intros sheet out entered Hauth Hopen Hclear Happend Hread Hgrid Hrows Hcols Hheader
    Hempty.
  destruct (replace_sheet_data_run na_kept float_repr self sheet_name df st
              (header :: rest))
    as (Hok & Hf & _ & Hafter & _ & Hr & _); try done.
  fold sheet out in Hok, Hf, Hafter, Hr.
  rewrite Hempty, used_rows_cleared_in_range in Hafter by done.
  split_and!; [done | done |].
  unfold get_all_records, records_of, mbind, M_bind, remote, read_grid.
  rewrite bool_decide_eq_false_2 by (by rewrite Hf).
  cbn. rewrite Hafter. cbn. by rewrite Hr.
Qed.

Lemma replace_sheet_data_then_read_witness :
  let out :=
    replace_sheet_data false (λ _, "") sample_manager "Programme Selection"
                       sample_one_row_frame sample_store in
  lookup_grid (workbooks out.1) sample_selection_sheet
  = Ok [ map VStr ["PROGRAMME_ID"; "SYNOPSIS"; "TRAILER"; "DIRECTOR_PROFILE";
                   "WRITER_PROFILE"; "LETTERBOXD_REVIEWS"; "AVERAGE_SCORE";
                   "IS_SELECTED"];
         [VStr "F001"; VInt 5; VInt 0; VInt 0; VInt 0; VInt 0; VInt 5; VBool true] ].
Proof.
  intros out.
  assert (∀ call, bool_decide (call ∉ faults sample_store) = true →
                  call ∉ faults sample_store) as Hhealthy
    by (intros call; apply bool_decide_eq_true_1).
  destruct (replace_sheet_data_then_read false (λ _, "") sample_manager
              "Programme Selection" sample_one_row_frame sample_store
              (map VStr ["PROGRAMME_ID"; "SYNOPSIS"; "TRAILER"; "DIRECTOR_PROFILE";
                         "WRITER_PROFILE"; "LETTERBOXD_REVIEWS"; "AVERAGE_SCORE";
                         "IS_SELECTED"])
              [[VStr "W001"; VInt 3; VInt 4; VInt 0; VInt 0; VInt 0;
                VFloat (Q2Qc (7 # 2)); VBool true]]
              (Hhealthy _ eq_refl) (Hhealthy _ eq_refl) (Hhealthy _ eq_refl)
              (Hhealthy _ eq_refl) (Hhealthy _ eq_refl) eq_refl)
    as (_ & Hgrid & _).
  - simpl. lia.
  - repeat constructor; simpl; lia.
  - reflexivity.
  - reflexivity.
  - exact Hgrid.
Defined.

(** ** Malformed answers of the image host *)

Lemma handle_response_same_world (response : Response) (st : Store) :
  same_world st (_handle_response response st).1.
Proof.
  unfold _handle_response.
  set (body := if bool_decide (status_code response ≠ 200) then _ else _).
  destruct (try_log_raise_spec
              (λ e, [Lit "Failed to process imgbb API response: "; Exc e]) body st)
    as (st' & -> & (Hw & Hf & Hr & Hu)).
  assert (same_world st (body st).1) as (Hw0 & Hf0 & Hr0 & Hu0).
  { subst body.
    unfold mbind, M_bind, response_json, json_get, json_subscript, logging_error,
      logging_info, emit, raise, mret, M_ret.
    case_bool_decide; [by split |].
    destruct (json_body response) as [[| b | q | s | items | members] |];
      try (by split).
    simpl. destruct (truthy _); simpl; [| by split].
    destruct (member "data" members) as [[| b | q | s | items | inner] |];
      try (by split).
    simpl. destruct (member "url" inner); by split. }
  split_and!; simpl; congruence.
Qed.

(** X7: with status 200, [_handle_response] tells the malformed answers
    apart by the exception it lets through: a body that is not JSON raises
    [JSONDecodeError]; a JSON document that is not an object raises
    [AttributeError]; an object with a true [success] but no [data] member
    raises [KeyError] for [data]; a [data] member that is not an object
    raises [TypeError]; and a [data] object without [url] raises [KeyError]
    for [url].  In no case does the method touch a workbook. *)
Theorem handle_response_malformed (response : Response) (st : Store) :
  let out := _handle_response response st in
  status_code response = 200 →
  (json_body response = None → out.2 = Raise JSONDecodeError)
  ∧ (∀ data, json_body response = Some data → (∀ members, data ≠ JObj members) →
       out.2 = Raise AttributeError)
  ∧ (∀ members,
       json_body response = Some (JObj members) →
       truthy (default JNull (member "success" members)) = true →
       (member "data" members = None → out.2 = Raise (KeyError "data"))
       ∧ (∀ inner, member "data" members = Some inner →
            (∀ inner_members, inner ≠ JObj inner_members) →
            out.2 = Raise TypeError)
       ∧ (∀ inner_members, member "data" members = Some (JObj inner_members) →
            member "url" inner_members = None →
            out.2 = Raise (KeyError "url")))
  ∧ workbooks out.1 = workbooks st
  ∧ faults out.1 = faults st.
Proof.
  intros out H200.
  assert (out.2
          = ((data ← response_json response;
              success ← json_get data "success";
              if negb (truthy success) then
                logging_error [Lit "imgbb API error: "; Js data] ;;
                raise (ApiReportedError data)
              else
                inner ← json_subscript data "data";
                url ← json_subscript inner "url";
                logging_info [Lit "Image uploaded successfully: "; Js url] ;;
                mret url) st).2) as Hout.
  { subst out. unfold _handle_response. rewrite try_log_raise_outcome.
    by rewrite bool_decide_eq_false_2 by (intros Hne; by apply Hne). }
  split_and!.
  - intros Hbody. rewrite Hout. unfold mbind, M_bind, response_json.
    by rewrite Hbody.
  - intros data Hbody Hshape. rewrite Hout. unfold mbind, M_bind, response_json.
    rewrite Hbody. destruct data as [| b | q | s | items | members]; try done.
    by destruct (Hshape members).
  - intros members Hbody Hflag. split_and!.
    + intros Hdata. rewrite Hout. unfold mbind, M_bind, response_json.
      rewrite Hbody. simpl. by rewrite Hflag, Hdata.
    + intros inner Hdata Hshape. rewrite Hout. unfold mbind, M_bind, response_json.
      rewrite Hbody. simpl. rewrite Hflag, Hdata. simpl.
      destruct inner as [| b | q | s | items | inner_members]; try done.
      by destruct (Hshape inner_members).
    + intros inner_members Hdata Hurl. rewrite Hout.
      unfold mbind, M_bind, response_json.
      rewrite Hbody. simpl. rewrite Hflag, Hdata. simpl. by rewrite Hurl.
  - apply handle_response_same_world.
  - apply handle_response_same_world.
Qed.

Lemma handle_response_malformed_witness :
  (_handle_response {| status_code := 200; text := "<html>"; json_body := None |}
     sample_store).2 = Raise JSONDecodeError
  ∧ (_handle_response
       {| status_code := 200; text := "";
          json_body := Some (JObj [("success", JBool true)]) |} sample_store).2
    = Raise (KeyError "data")
  ∧ (_handle_response
       {| status_code := 200; text := "";
          json_body := Some (JObj [("success", JBool true); ("data", JNull)]) |}
       sample_store).2
    = Raise TypeError.
Proof.
  split_and!.
  - destruct (handle_response_malformed
                {| status_code := 200; text := "<html>"; json_body := None |}
                sample_store eq_refl) as (Hbody & _).
    apply Hbody. reflexivity.
  - destruct (handle_response_malformed
                {| status_code := 200; text := "";
                   json_body := Some (JObj [("success", JBool true)]) |}
                sample_store eq_refl) as (_ & _ & Hmembers & _).
    destruct (Hmembers [("success", JBool true)] eq_refl eq_refl) as (Hdata & _).
    apply Hdata. reflexivity.
  - destruct (handle_response_malformed
                {| status_code := 200; text := "";
                   json_body := Some (JObj [("success", JBool true); ("data", JNull)]) |}
                sample_store eq_refl) as (_ & _ & Hmembers & _).
    destruct (Hmembers [("success", JBool true); ("data", JNull)] eq_refl eq_refl)
      as (_ & Hinner & _).
    apply (Hinner JNull); [reflexivity | done].
Defined.

(** ** Uploading bytes *)

Lemma handle_response_Ok_iff (response : Response) (st : Store) (url : json) :
  (_handle_response response st).2 = Ok url
  ↔ status_code response = 200
    ∧ ∃ members inner,
        json_body response = Some (JObj members)
        ∧ truthy (default JNull (member "success" members)) = true
        ∧ member "data" members = Some (JObj inner)
        ∧ member "url" inner = Some url.
Proof.
  unfold _handle_response. rewrite try_log_raise_outcome.
  case_bool_decide as Hcode.
  { split; [done | by intros [? _]]. }
  assert (status_code response = 200) as H200
    by (destruct (decide (status_code response = 200)); [done | by destruct Hcode]).
  unfold mbind, M_bind, response_json.
  destruct (json_body response) as [[| b | q | s | items | members] |] eqn:Hbody;
    simpl; try by (split; [done | intros (_ & ? & ? & [=] & _)]).
  destruct (truthy (default JNull (member "success" members))) eqn:Hflag; simpl.
  - destruct (member "data" members) as [[| b | q | s | items | inner] |] eqn:Hdata;
      simpl;
      try by (split; [done | intros (_ & ? & ? & [= <-] & _ & Hd & _); congruence]).
    destruct (member "url" inner) as [u |] eqn:Hurl; simpl.
    + split.
      * intros [= <-]. split; [done |]. by exists members, inner.
      * intros (_ & ? & ? & [= <-] & _ & Hd & Hu).
        rewrite Hdata in Hd. injection Hd as <-. congruence.
    + split; [done |].
      intros (_ & ? & ? & [= <-] & _ & Hd & Hu).
      rewrite Hdata in Hd. injection Hd as <-. congruence.
  - split; [done |]. intros (_ & ? & ? & [= <-] & Ht & _). congruence.
Qed.

(** X8: [upload_bytes] returns a URL exactly when the post is answered and
    the answer has status 200, a true [success] and a [data.url], which is
    then the result.  A failure of the post itself is raised unchanged; a
    rejected answer is raised as [_handle_response] raises it and is logged
    by both methods, the record of [upload_bytes] last. *)
Theorem upload_bytes_outcome (self : ImageUploader)
    (post : string → string → string → list Byte.byte → M Response)
    (file_bytes : list Byte.byte) (file_name : string) (st : Store) :
  let started :=
    (logging_info [Lit "Uploading image bytes: "; Val (VStr file_name)] st).1 in
  let posted := post (upload_url self) (api_key self) file_name file_bytes started in
  let out := upload_bytes self post file_bytes file_name st in
  let outer e :=
    {| log_level := ERROR;
       log_message := [Lit "Error uploading image bytes ("; Val (VStr file_name);
                       Lit "): "; Exc e];
       log_exc_info := Some e |} in
  let inner e :=
    {| log_level := ERROR;
       log_message := [Lit "Failed to process imgbb API response: "; Exc e];
       log_exc_info := Some e |} in
  (∀ e, posted.2 = Raise e →
     out.2 = Raise e ∧ log out.1 = log posted.1 ++ [outer e])
  ∧ (∀ response, posted.2 = Ok response →
       (∀ url,
          out.2 = Ok url
          ↔ status_code response = 200
            ∧ ∃ members inner_members,
                json_body response = Some (JObj members)
                ∧ truthy (default JNull (member "success" members)) = true
                ∧ member "data" members = Some (JObj inner_members)
                ∧ member "url" inner_members = Some url)
       ∧ (∀ e, out.2 = Raise e →
            (_handle_response response posted.1).2 = Raise e
            ∧ ∃ earlier, log out.1 = earlier ++ [inner e; outer e])).
Proof.
  intros started posted out outer inner.
  assert (out = match posted with
                | (st1, Ok response) =>
                    try_log_raise
                      (λ e, [Lit "Error uploading image bytes ("; Val (VStr file_name);
                             Lit "): "; Exc e])
                      (_handle_response response) st1
                | (st1, Raise e) =>
                    ({| workbooks := workbooks st1;
                        records_read := records_read st1;
                        user_entered := user_entered st1;
                        faults := faults st1;
                        log := log st1 ++ [outer e] |}, Raise e)
                end) as Hout.
  { subst out posted started outer.
    unfold upload_bytes, try_log_raise, mbind, M_bind, logging_info, emit. simpl.
    by destruct (post _ _ _ _ _) as [st1 [response | e]]. }
  clearbody out. subst out. split.
  - intros e Hposted. destruct posted as [st1 r]. simpl in Hposted. by subst r.
  - intros response Hposted. destruct posted as [st1 r]. simpl in Hposted. subst r.
    cbn [fst]. split.
    + intros url. rewrite try_log_raise_outcome. apply handle_response_Ok_iff.
    + intros e He. rewrite try_log_raise_outcome in He. split; [done |].
      pose proof (try_log_raise_logged
                    (λ e, [Lit "Failed to process imgbb API response: "; Exc e])
                    _ st1 e He) as Hlast.
      fold (_handle_response response) in Hlast.
      unfold try_log_raise at 1.
      destruct (_handle_response response st1) as [st2 [a | e']] eqn:Hrun;
        simpl in He; [done |]. injection He as ->.
      simpl in Hlast. unfold mbind, M_bind, emit, raise. cbn [fst snd log].
      apply last_Some in Hlast as [earlier Hlog]. exists earlier.
      rewrite Hlog. by rewrite <- app_assoc.
Qed.

Lemma upload_bytes_outcome_witness :
  (upload_bytes sample_uploader sample_post [] "poster.jpg" sample_store).2
  = Ok (JStr "https://i.ibb.co/x/p.jpg").
Proof.
  destruct (upload_bytes_outcome sample_uploader sample_post [] "poster.jpg"
              sample_store) as [_ Hanswered].
  destruct (Hanswered sample_accepted eq_refl) as [Hurl _].
  apply Hurl. split; [reflexivity |].
  exists [("data", JObj [("url", JStr "https://i.ibb.co/x/p.jpg")]);
          ("success", JBool true)], [("url", JStr "https://i.ibb.co/x/p.jpg")].
  split_and!; reflexivity.
Defined.

(** ** The dictionary of the Add Entry view *)

Lemma sheet_access_not_key_error (self : ProgrammeManager) (sheet_name : string)
    (st : Store) (k : string) :
  sheet_access self sheet_name st ≠ Raise (KeyError k).
Proof.
  unfold sheet_access, lookup_grid.
  repeat case_bool_decide; repeat case_match; done.
Qed.

Lemma entry_data_fields (category : string) (talk : TalkForm) (film : FilmForm)
    (image_url : value) :
  entry_data category talk film image_url !! "category" = Some (VStr category)
  ∧ ∀ k, k ∈ row_fields (VStr category) →
         is_Some (entry_data category talk film image_url !! k).
Proof.
  unfold entry_data, row_fields, talks_category, py_eq.
  case_bool_decide as Htalks; (split; [done |]); intros k Hk.
  - unfold talks_fields in Hk.
    repeat (apply elem_of_cons in Hk as [-> | Hk]; [by eexists |]).
    by apply not_elem_of_nil in Hk.
  - unfold films_fields in Hk.
    repeat (apply elem_of_cons in Hk as [-> | Hk]; [by eexists |]).
    by apply not_elem_of_nil in Hk.
Qed.

(** X9: the dictionary that the Add Entry view builds has the category and
    every field that [add_programme_entry] reads for that category, for the
    talk and for the film variant alike, even when language and country were
    left unchosen.  So the call raises no [KeyError] for a missing field: one
    can only be what the library raised while reading the sheet.  On a store
    that accepts the calls and has the category's sheet the call returns the
    programme ID counted from the records the library reads, and raises what
    the library raises when it cannot make records of the sheet. *)
Theorem add_programme_entry_from_view (self : ProgrammeManager) (category : string)
    (talk : TalkForm) (film : FilmForm) (image_url : value) (st : Store) :
  let data := entry_data category talk film image_url in
  let out := add_programme_entry self data st in
  (∀ k, k ∈ "category" :: row_fields (VStr category) → is_Some (data !! k))
  ∧ (∀ k, out.2 = Raise (KeyError k) →
       ∃ g, sheet_access self (target_sheet self (VStr category)) st = Ok g
            ∧ records_read st g = Raise (KeyError k))
  ∧ (∀ g, Authorize ∉ faults st → OpenWorkbook ∉ faults st →
       GetAllRecords ∉ faults st → AppendRow ∉ faults st →
       lookup_grid (workbooks st)
         {| sh_workbook := WORKBOOK_FILENAME self;
            sh_title := target_sheet self (VStr category) |} = Ok g →
       (∀ records, records_read st g = Ok records →
          out.2 = Ok (programme_id_of self (VStr category)
                        (sl_no_of_records records (VStr category))))
       ∧ (∀ e, records_read st g = Raise e → out.2 = Raise e)).
Proof.
  intros data out.
  destruct (entry_data_fields category talk film image_url) as [Hcategory Hfields].
  fold data in Hcategory, Hfields.
  destruct (add_programme_entry_plan self data st) as (st' & Hrun & _).
  assert (out.2 = match entry_plan self data st with
                  | Ok (_, _, programme_id, _) => Ok programme_id
                  | Raise e => Raise e
                  end) as Hout by (subst out; by rewrite Hrun).
  apply lookup_fields_present in Hfields as Hvalues. destruct Hvalues as [fields Hvalues].
  split_and!.
  - intros k [-> | Hk]%elem_of_cons; [by eexists | auto].
  - intros k. rewrite Hout. unfold entry_plan. rewrite Hcategory. cbn zeta.
    destruct (sheet_access self (target_sheet self (VStr category)) st) as [g | e]
      eqn:Haccess.
    + case_bool_decide; [done |].
      destruct (records_read st g) as [records | e] eqn:Hrecords.
      * rewrite Hvalues. by case_bool_decide.
      * intros [= ->]. by exists g.
    + intros [= ->]. by apply sheet_access_not_key_error in Haccess.
  - intros g Hauth Hopen Hread Happend Hgrid. split.
    + intros records Hrecords. rewrite Hout.
      apply lookup_fields_Ok in Hvalues.
      by rewrite (entry_plan_healthy self data st (VStr category) fields g records).
    + intros e Hrecords. rewrite Hout. unfold entry_plan. rewrite Hcategory.
      cbn zeta. unfold sheet_access. rewrite !bool_decide_eq_false_2 by done.
      by rewrite Hgrid, Hrecords.
Qed.

Lemma add_programme_entry_from_view_witness :
  (add_programme_entry sample_manager
     (entry_data "World Cinema" {| form_topic := ""; form_duration := 60 |}
        {| form_intl_title := "Fourth"; form_orig_title := ""; form_year := 2025;
           form_run_time := 120; form_language := None; form_country := None;
           form_director := ""; form_synopsis := ""; form_letterboxd_url := "" |}
        (VStr "https://i.ibb.co/x/p.jpg"))
     sample_store).2
  = Ok "W003".
Proof.
  destruct (add_programme_entry_from_view sample_manager "World Cinema"
              {| form_topic := ""; form_duration := 60 |}
              {| form_intl_title := "Fourth"; form_orig_title := ""; form_year := 2025;
                 form_run_time := 120; form_language := None; form_country := None;
                 form_director := ""; form_synopsis := ""; form_letterboxd_url := "" |}
              (VStr "https://i.ibb.co/x/p.jpg") sample_store) as (_ & _ & Hrun).
  assert (∀ call, call ∉ faults sample_store) as Hhealthy
    by (intros call; apply not_elem_of_nil).
  destruct (Hrun sample_films_grid (Hhealthy _) (Hhealthy _) (Hhealthy _) (Hhealthy _)
              eq_refl) as [Hread _].
  assert (records_read sample_store sample_films_grid
          = Ok (map (sample_record sample_films_header) (tail sample_films_grid)))
    as Hrecords by reflexivity.
  rewrite (Hread _ Hrecords).
  vm_compute. reflexivity.
Defined.

(** ** Which films the overview lists *)

Lemma merge_rows_of_film (f : FilmRow) (selection : list ScoreRecord) (r : MergedRow) :
  r ∈ match filter (λ s, sel_PROGRAMME_ID s = film_PROGRAMME_ID f) selection with
      | [] => [ {| m_film := f; m_score := None |} ]
      | matches => map (λ s, {| m_film := f; m_score := Some s |}) matches
      end
  ↔ m_film r = f
    ∧ match m_score r with
      | Some s => s ∈ selection ∧ sel_PROGRAMME_ID s = film_PROGRAMME_ID f
      | None => ∀ s, s ∈ selection → sel_PROGRAMME_ID s ≠ film_PROGRAMME_ID f
      end.
Proof.
  set (matches := filter _ selection).
  assert (∀ s, s ∈ matches ↔ sel_PROGRAMME_ID s = film_PROGRAMME_ID f ∧ s ∈ selection)
    as Hmatches
    by (intros s; apply (list_elem_of_filter
                           (λ s, sel_PROGRAMME_ID s = film_PROGRAMME_ID f))).
  clearbody matches. destruct matches as [| s0 matches].
  - split.
    + intros ->%list_elem_of_singleton. simpl. split; [done |].
      intros s Hs Hid. apply (not_elem_of_nil s), Hmatches. done.
    + intros [<- Hscore]. destruct r as [f' [s |]]; cbn [m_film m_score] in *.
      * exfalso. apply (not_elem_of_nil s), Hmatches. tauto.
      * by apply list_elem_of_singleton.
  - rewrite list_elem_of_In, in_map_iff. split.
    + intros (s & <- & Hs). apply list_elem_of_In, Hmatches in Hs. simpl. tauto.
    + intros [<- Hscore]. destruct r as [f' [s |]]; cbn [m_film m_score] in *.
      * exists s. split; [done |]. apply list_elem_of_In, Hmatches. tauto.
      * exfalso. assert (s0 ∈ s0 :: matches) as Hs0 by (by left).
        apply Hmatches in Hs0 as [Hid Hin]. by apply (Hscore s0).
Qed.

Lemma merge_left_rows (films : list FilmRow) (selection : list ScoreRecord)
    (r : MergedRow) :
  r ∈ merge_left films selection
  ↔ m_film r ∈ films
    ∧ match m_score r with
      | Some s => s ∈ selection ∧ sel_PROGRAMME_ID s = film_PROGRAMME_ID (m_film r)
      | None => ∀ s, s ∈ selection → sel_PROGRAMME_ID s ≠ film_PROGRAMME_ID (m_film r)
      end.
Proof.
  unfold merge_left. rewrite list_elem_of_In, in_flat_map. split.
  - intros (f & Hf & Hr). apply list_elem_of_In in Hf, Hr.
    apply merge_rows_of_film in Hr as [<- Hscore]. done.
  - intros [Hf Hscore]. exists (m_film r). split; [by apply list_elem_of_In |].
    apply list_elem_of_In, merge_rows_of_film. done.
Qed.

Lemma merge_left_films (films : list FilmRow) (selection : list ScoreRecord)
    (f : FilmRow) :
  f ∈ m_film <$> merge_left films selection ↔ f ∈ films.
Proof.
  rewrite list_elem_of_fmap. split.
  - intros (r & -> & Hr). by apply merge_left_rows in Hr as [? _].
  - intros Hf.
    destruct (filter (λ s, sel_PROGRAMME_ID s = film_PROGRAMME_ID f) selection)
      as [| s matches] eqn:Hmatches.
    + exists {| m_film := f; m_score := None |}. split; [done |].
      apply merge_left_rows. simpl. split; [done |]. intros s Hs Hid.
      assert (s ∈ filter (λ s, sel_PROGRAMME_ID s = film_PROGRAMME_ID f) selection)
        as Hin by (by apply list_elem_of_filter).
      rewrite Hmatches in Hin. by apply not_elem_of_nil in Hin.
    + exists {| m_film := f; m_score := Some s |}. split; [done |].
      apply merge_left_rows. simpl. split; [done |].
      assert (s ∈ filter (λ s, sel_PROGRAMME_ID s = film_PROGRAMME_ID f) selection)
        as Hin by (rewrite Hmatches; by left).
      apply list_elem_of_filter in Hin as [Hid Hin]. done.
Qed.

Lemma overview_rows_Ok_inv (films : list FilmRow) (selection : list ScoreRecord)
    (selected_categories : list string) (rows : list MergedRow) :
  overview_rows films selection selected_categories = Ok rows →
  rows ≡ₚ merge_left (filter (λ f, film_CATEGORY f ∈ selected_categories) films)
                      selection.
Proof.
  unfold overview_rows. repeat case_bool_decide; try done.
  intros [= <-]. apply sort_values_perm.
Qed.

Lemma all_categories_elem (self : ProgrammeManager) (category : string) :
  category ∈ all_categories self ↔ is_Some (CATEGORY_CODES self !! category).
Proof.
  unfold all_categories. rewrite list_elem_of_fmap. split.
  - intros ([k code] & -> & Hin). apply elem_of_map_to_list in Hin. by exists code.
  - intros [code Hcode]. exists (category, code). split; [done |].
    by apply elem_of_map_to_list.
Qed.

(** X10: with "All" among the chosen categories the overview lists a film
    exactly when the film's category is a name of the category table,
    whatever else is chosen; a film stored under a category that is not in
    the table is never listed. *)
Theorem overview_view_all_categories (self : ProgrammeManager) (films : list FilmRow)
    (selection : list ScoreRecord) (selected_categories : list string)
    (rows : list MergedRow) :
  "All" ∈ selected_categories →
  overview_view self films selection selected_categories = Ok rows →
  ∀ f, f ∈ m_film <$> rows
       ↔ f ∈ films ∧ is_Some (CATEGORY_CODES self !! film_CATEGORY f).
Proof.
  intros Hall Hrows f. unfold overview_view, effective_categories in Hrows.
  rewrite bool_decide_eq_true_2 in Hrows by done.
  apply overview_rows_Ok_inv in Hrows. rewrite Hrows.
  rewrite merge_left_films, list_elem_of_filter, all_categories_elem. tauto.
Qed.

Lemma overview_view_all_categories_witness :
  ∃ rows,
    overview_view sample_manager sample_overview_films sample_selection
      ["World Cinema"; "All"] = Ok rows
    ∧ ∀ f, f ∈ m_film <$> rows
           ↔ f ∈ sample_overview_films
             ∧ is_Some (CATEGORY_CODES sample_manager !! film_CATEGORY f).
Proof.
  eexists. split; [vm_compute; reflexivity |].
  apply (overview_view_all_categories sample_manager sample_overview_films
           sample_selection ["World Cinema"; "All"]).
  - apply (bool_decide_unpack _). vm_compute. exact I.
  - vm_compute. reflexivity.
Defined.

(** ** One overview row per film *)

Lemma filter_key_NoDup {A : Type} (key : A → string) (k : string) (l : list A) :
  NoDup (key <$> l) →
  filter (λ x, key x = k) l = [] ∨ ∃ x, filter (λ x, key x = k) l = [x].
Proof.
  induction l as [| a l IH]; intros Hnd; [by left |].
  rewrite fmap_cons in Hnd. apply NoDup_cons in Hnd as [Hfresh Hnd].
  rewrite filter_cons. destruct (decide (key a = k)) as [Ha | Ha]; [| by apply IH].
  right. exists a. f_equal.
  destruct (filter (λ x, key x = k) l) as [| b matches] eqn:Hmatches; [done |].
  exfalso. apply Hfresh.
  assert (b ∈ filter (λ x, key x = k) l) as Hb by (rewrite Hmatches; by left).
  apply list_elem_of_filter in Hb as [Hkey Hin].
  apply list_elem_of_fmap. exists b. split; [congruence | done].
Qed.

Lemma merge_left_unique_ids (films : list FilmRow) (selection : list ScoreRecord) :
  NoDup (sel_PROGRAMME_ID <$> selection) →
  merge_left films selection
  = (λ f, {| m_film := f;
             m_score := head (filter (λ s, sel_PROGRAMME_ID s = film_PROGRAMME_ID f)
                                     selection) |}) <$> films.
Proof.
  intros Hnd. unfold merge_left.
  induction films as [| f films IH]; [done |].
  cbn [flat_map]. rewrite fmap_cons, IH. clear IH.
  destruct (filter_key_NoDup sel_PROGRAMME_ID (film_PROGRAMME_ID f) selection Hnd)
    as [-> | [s ->]]; done.
Qed.

(** X11: when no two score records carry the same programme ID, the overview
    has exactly one row for each film of the chosen categories, and the row
    carries the record of the film's programme ID, or no record when the
    film has not been scored. *)
Theorem overview_rows_one_row_per_film (films : list FilmRow)
    (selection : list ScoreRecord) (selected_categories : list string)
    (rows : list MergedRow) :
  NoDup (sel_PROGRAMME_ID <$> selection) →
  overview_rows films selection selected_categories = Ok rows →
  m_film <$> rows ≡ₚ filter (λ f, film_CATEGORY f ∈ selected_categories) films
  ∧ ∀ r, r ∈ rows →
         m_score r
         = head (filter (λ s, sel_PROGRAMME_ID s = film_PROGRAMME_ID (m_film r))
                        selection).
Proof.
  intros Hnd Hrows. apply overview_rows_Ok_inv in Hrows.
  rewrite merge_left_unique_ids in Hrows by done. split.
  - rewrite Hrows, <- list_fmap_compose. simpl.
    by rewrite list_fmap_id.
  - intros r Hr. rewrite Hrows in Hr.
    apply list_elem_of_fmap in Hr as (f & -> & _). done.
Qed.

Lemma overview_rows_one_row_per_film_witness :
  ∃ rows,
    overview_rows sample_overview_films sample_selection ["World Cinema"] = Ok rows
    ∧ m_film <$> rows
      ≡ₚ filter (λ f, film_CATEGORY f ∈ ["World Cinema"]) sample_overview_films
    ∧ ∀ r, r ∈ rows →
           m_score r
           = head (filter (λ s, sel_PROGRAMME_ID s = film_PROGRAMME_ID (m_film r))
                          sample_selection).
Proof.
  eexists. split; [vm_compute; reflexivity |].
  apply (overview_rows_one_row_per_film sample_overview_films sample_selection
           ["World Cinema"]).
  - apply (bool_decide_unpack _). vm_compute. exact I.
  - vm_compute. reflexivity.
Defined.

(** A programme ID that two score records share gives its film two rows. *)
Example overview_rows_repeated_record :
  ∃ rows,
    overview_rows [sample_scored_film] [sample_zero_score; sample_zero_score]
      ["World Cinema"] = Ok rows
    ∧ m_film <$> rows = [sample_scored_film; sample_scored_film].
Proof. eexists. split; vm_compute; reflexivity. Qed.

(** ** The film a chosen title stands for *)

Lemma head_filter_first {A : Type} (P : A → Prop) `{!∀ x, Decision (P x)}
    (l : list A) (x : A) :
  head (filter P l) = Some x
  ↔ ∃ before after, l = before ++ x :: after ∧ P x ∧ ∀ y, y ∈ before → ¬ P y.
Proof.
  induction l as [| a l IH].
  - split; [done |]. intros (before & after & Heq & _). by destruct before.
  - rewrite filter_cons. destruct (decide (P a)) as [Ha | Ha].
    + simpl. split.
      * intros [= ->]. exists [], l. split_and!; [done | done |].
        intros y Hy. by apply not_elem_of_nil in Hy.
      * intros (before & after & Heq & Hx & Hbefore).
        destruct before as [| b before]; simplify_eq/=; [done |].
        destruct (Hbefore b); [by left | done].
    + rewrite IH. split.
      * intros (before & after & -> & Hx & Hbefore).
        exists (a :: before), after. split_and!; [done | done |].
        intros y [-> | Hy]%elem_of_cons; [done | by apply Hbefore].
      * intros (before & after & Heq & Hx & Hbefore).
        destruct before as [| b before]; simplify_eq/=; [done |].
        exists before, after. split_and!; [done | done |].
        intros y Hy. apply Hbefore. by right.
Qed.

(** X12: in the scoring view a title stands for a film exactly when the
    select box offers it, and the film is then the first row of the film list
    with the chosen category and that title.  So when programme IDs are
    unique, a row that shares its category and both titles with an earlier
    row can be reached by no choice: its programme ID is never the one that
    gets scored. *)
Theorem chosen_film_first_match (films : list FilmRow) (category film_choice : string) :
  (film_choice ∈ film_titles films category
   ↔ is_Some (chosen_film films category film_choice))
  ∧ (∀ f, chosen_film films category film_choice = Some f
          ↔ ∃ before after,
              films = before ++ f :: after
              ∧ film_CATEGORY f = category ∧ TEMP_TITLE f = film_choice
              ∧ ∀ g, g ∈ before →
                     ¬ (film_CATEGORY g = category ∧ TEMP_TITLE g = film_choice))
  ∧ (NoDup (film_PROGRAMME_ID <$> films) →
     ∀ before f after g rest,
       films = before ++ f :: after ++ g :: rest →
       film_CATEGORY f = film_CATEGORY g → TEMP_TITLE f = TEMP_TITLE g →
       ∀ c t f', chosen_film films c t = Some f' →
                 film_PROGRAMME_ID f' ≠ film_PROGRAMME_ID g).
Proof.
  assert (∀ c t, filter (λ f, TEMP_TITLE f = t) (films_of_category films c)
                 = filter (λ f, film_CATEGORY f = c ∧ TEMP_TITLE f = t) films)
    as Hfilter.
  { intros c t. unfold films_of_category. rewrite list_filter_filter.
    apply list_filter_iff. intros f. tauto. }
  split_and!.
  - unfold film_titles, chosen_film.
    rewrite list_elem_of_fmap. split.
    + intros (f & -> & Hf).
      destruct (filter _ (films_of_category films category)) as [| g l] eqn:Hl;
        [| by eexists].
      assert (f ∈ filter (λ g, TEMP_TITLE g = TEMP_TITLE f)
                         (films_of_category films category)) as Hin
        by (by apply list_elem_of_filter).
      rewrite Hl in Hin. by apply not_elem_of_nil in Hin.
    + intros [f Hf].
      destruct (filter _ (films_of_category films category)) as [| g l] eqn:Hl;
        [done |].
      assert (g ∈ filter (λ g, TEMP_TITLE g = film_choice)
                         (films_of_category films category)) as Hin
        by (rewrite Hl; by left).
      apply list_elem_of_filter in Hin as [Htitle Hin]. by exists g.
  - intros f. unfold chosen_film. rewrite Hfilter, head_filter_first.
    split; intros (before & after & Heq & H); exists before, after; tauto.
  - intros Hnd before f after g rest Heq Hcat Htitle c t f' Hchosen Hid.
    unfold chosen_film in Hchosen. rewrite Hfilter in Hchosen.
    apply head_filter_first in Hchosen
      as (before' & after' & Heq' & [Hc Ht] & Hbefore').
    assert (films !! length before = Some f) as Hf
      by (rewrite Heq; by apply list_lookup_middle).
    assert (films !! (length before + S (length after))%nat = Some g) as Hg.
    { rewrite Heq, lookup_app_r by lia.
      replace (length before + S (length after) - length before)%nat
        with (S (length after)) by lia.
      simpl. by apply list_lookup_middle. }
    assert (films !! length before' = Some f') as Hf'
      by (rewrite Heq'; by apply list_lookup_middle).
    assert (length before' = (length before + S (length after))%nat) as Hlen.
    { apply (NoDup_lookup _ _ _ (film_PROGRAMME_ID g) Hnd);
        rewrite list_lookup_fmap; [rewrite Hf', <- Hid | rewrite Hg]; done. }
    assert (f' = g) as -> by (rewrite Hlen in Hf'; congruence).
    assert (f ∈ before') as Hin.
    { rewrite Heq', lookup_app_l in Hf by lia. by apply list_elem_of_lookup_2 in Hf. }
    apply (Hbefore' f Hin). split; congruence.
Qed.

Lemma chosen_film_first_match_witness :
  chosen_film sample_namesake_films "World Cinema" "First (First)"
  = Some sample_scored_film
  ∧ film_PROGRAMME_ID sample_scored_film ≠ film_PROGRAMME_ID sample_namesake_film.
Proof.
  split; [vm_compute; reflexivity |].
  destruct (chosen_film_first_match sample_namesake_films "" "") as (_ & _ & Hlater).
  apply (Hlater ltac:(apply (bool_decide_unpack _); vm_compute; exact I)
           [sample_unscored_film] sample_scored_film [] sample_namesake_film []
           eq_refl eq_refl eq_refl "World Cinema" "First (First)").
  vm_compute. reflexivity.
Defined.

(** ** Loading a sheet *)

Lemma get_all_records_spec (sheet : sheet_handle) (st : Store) :
  get_all_records sheet st
  = (st, if bool_decide (GetAllRecords ∈ faults st) then Raise (APIError GetAllRecords)
         else match lookup_grid (workbooks st) sheet with
              | Ok g => records_read st g
              | Raise e => Raise e
              end).
Proof.
  unfold get_all_records, records_of, mbind, M_bind, remote, read_grid.
  case_bool_decide; [done |]. by destruct (lookup_grid (workbooks st) sheet).
Qed.

Lemma load_data_without_cache_run (self : ProgrammeManager) (sheet_name : string)
    (st : Store) :
  ∃ st', same_world st st'
         ∧ load_data_without_cache self sheet_name st
           = match sheet_records self sheet_name st with
             | Ok records => (st', records)
             | Raise e =>
                 ({| workbooks := workbooks st;
                     records_read := records_read st;
                     user_entered := user_entered st;
                     faults := faults st;
                     log := log st' ++
                            [ {| log_level := ERROR;
                                 log_message :=
                                   [Lit "Error loading Google Sheets (";
                                    Val (VStr sheet_name); Lit "): "; Exc e];
                                 log_exc_info := None |} ] |}, [])
             end.
Proof.
  unfold load_data_without_cache, sheet_records, mbind, M_bind.
  destruct (get_sheet_spec self sheet_name st) as (st1 & -> & (Hw & Hf & Hr & Hu)).
  exists st1. split; [by split_and! |].
  destruct (sheet_access self sheet_name st) as [g | e] eqn:Haccess.
  2: { unfold logging_error, emit. simpl. by rewrite Hw, Hf, Hr, Hu. }
  apply sheet_access_grid in Haccess.
  rewrite get_all_records_spec. unfold logging_error, emit. cbn [fst].
  rewrite Hf, Hw, Hr, Hu, Haccess. case_bool_decide; [done |].
  by destruct (records_read st g).
Qed.

(** X13: [load_data_without_cache] never raises and never changes a
    workbook.  It returns the records that the library reads from the sheet
    when the sheet can be reached and read; on every failure, that of the
    library while it makes records of the sheet included, it returns the
    empty frame, as for an empty sheet, and the last record of the log is an
    ERROR that names the sheet and the failure. *)
Theorem load_data_without_cache_outcome (self : ProgrammeManager) (sheet_name : string)
    (st : Store) :
  let out := load_data_without_cache self sheet_name st in
  workbooks out.1 = workbooks st
  ∧ faults out.1 = faults st
  ∧ match sheet_records self sheet_name st with
    | Ok records => out.2 = records
    | Raise e =>
        out.2 = []
        ∧ last (log out.1)
          = Some {| log_level := ERROR;
                    log_message := [Lit "Error loading Google Sheets (";
                                    Val (VStr sheet_name); Lit "): "; Exc e];
                    log_exc_info := None |}
    end
  ∧ (∀ e, sheet_access self sheet_name st = Raise e →
       sheet_records self sheet_name st = Raise e)
  ∧ (∀ g, sheet_access self sheet_name st = Ok g →
       (GetAllRecords ∈ faults st →
        sheet_records self sheet_name st = Raise (APIError GetAllRecords))
       ∧ (GetAllRecords ∉ faults st →
          sheet_records self sheet_name st = records_read st g)).
Proof.
  intros out. subst out.
  destruct (load_data_without_cache_run self sheet_name st)
    as (st' & (Hw & Hf & _) & ->).
  split_and!.
  - by destruct (sheet_records self sheet_name st).
  - by destruct (sheet_records self sheet_name st).
  - destruct (sheet_records self sheet_name st) as [records | e]; simpl; [done |].
    split; [done |]. by rewrite last_snoc.
  - intros e Haccess. unfold sheet_records. by rewrite Haccess.
  - intros g Haccess. unfold sheet_records. rewrite Haccess. split; intros Hread.
    + by rewrite bool_decide_eq_true_2.
    + by rewrite bool_decide_eq_false_2.
Qed.

(** On a sheet whose header repeats a name the sample service raises, and
    the loader returns the empty frame and logs the failure. *)
Example load_data_without_cache_repeated_header :
  let g := [map VStr ["CATEGORY"; "TITLE"; "TITLE"];
            [VStr "World Cinema"; VStr "First"; VStr "First"]] in
  let st := sample_world {[ "IFFK 2025" := {[ "Films" := g ]} ]} [] in
  let out := load_data_without_cache sample_manager "Films" st in
  out.2 = []
  ∧ last (log out.1)
    = Some {| log_level := ERROR;
              log_message := [Lit "Error loading Google Sheets ("; Val (VStr "Films");
                              Lit "): "; Exc GSpreadException];
              log_exc_info := None |}.
Proof. split; vm_compute; reflexivity. Qed.

(** X14: [load_data_with_cache] loads a sheet once.  The first call for a
    sheet name is the uncached load.  From then on every call for that name
    returns the frame of the first call and does nothing else, no remote call
    and no log record, whatever has happened to the sheet in between and
    whatever else has been cached.  In particular a first call that failed
    keeps returning the empty frame after the service has recovered. *)
Theorem load_data_with_cache_frozen (self : ProgrammeManager) (sheet_name : string)
    (s : Session) :
  let out := load_data_with_cache self sheet_name s in
  (data_cache s !! sheet_name = None →
   (world out.1, out.2) = load_data_without_cache self sheet_name (world s))
  ∧ (∀ later, data_cache out.1 ⊆ data_cache later →
       load_data_with_cache self sheet_name later = (later, out.2))
  ∧ (∀ e later,
       data_cache s !! sheet_name = None →
       sheet_records self sheet_name (world s) = Raise e →
       data_cache out.1 ⊆ data_cache later →
       load_data_with_cache self sheet_name later = (later, [])).
Proof.
  intros out.
  assert (data_cache out.1 !! sheet_name = Some out.2) as Hcached.
  { subst out. unfold load_data_with_cache.
    destruct (data_cache s !! sheet_name) as [df |] eqn:Hlook; [done |].
    destruct (load_data_without_cache self sheet_name (world s)) as [st' df].
    simpl. apply lookup_insert_eq. }
  assert (∀ later, data_cache out.1 ⊆ data_cache later →
            load_data_with_cache self sheet_name later = (later, out.2)) as Hfrozen.
  { intros later Hsub. unfold load_data_with_cache at 1.
    by rewrite (lookup_weaken _ _ _ _ Hcached Hsub). }
  split_and!.
  - intros Hnone. subst out. unfold load_data_with_cache. rewrite Hnone.
    by destruct (load_data_without_cache self sheet_name (world s)).
  - done.
  - intros e later Hnone Hfailed Hsub. rewrite (Hfrozen later Hsub). f_equal.
    subst out. unfold load_data_with_cache. rewrite Hnone.
    destruct (load_data_without_cache_run self sheet_name (world s))
      as (st' & _ & ->).
    by rewrite Hfailed.
Qed.

Lemma load_data_with_cache_frozen_witness :
  let out := load_data_with_cache sample_manager "Films"
               (sample_session sample_store_unreadable) in
  load_data_with_cache sample_manager "Films"
    {| world := sample_store; data_cache := data_cache out.1 |}
  = ({| world := sample_store; data_cache := data_cache out.1 |}, []).
Proof.
  intros out.
  destruct (load_data_with_cache_frozen sample_manager "Films"
              (sample_session sample_store_unreadable)) as (_ & _ & Hfailed).
  apply (Hfailed (APIError GetAllRecords)); [reflexivity | reflexivity | done].
Defined.

(** ** Replacing by an empty frame *)

(** X15: [replace_sheet_data] with an empty frame erases the sheet and
    reports success.  On a sheet that can be reached and cleared the call
    returns normally, makes no append call (so a refused append does not
    matter), leaves the sheet cleared and ends the log with a WARNING; on a
    sheet within [A1:Z1000] no data row is left below the header. *)
Theorem replace_sheet_data_empty_frame (na_kept : bool) (float_repr : Qc → string)
    (self : ProgrammeManager) (sheet_name : string) (df : DataFrame) (st : Store)
    (g : grid) :
  let sheet := {| sh_workbook := WORKBOOK_FILENAME self; sh_title := sheet_name |} in
  let out := replace_sheet_data na_kept float_repr self sheet_name df st in
  Authorize ∉ faults st → OpenWorkbook ∉ faults st → BatchClear ∉ faults st →
  lookup_grid (workbooks st) sheet = Ok g →
  df_empty df = true →
  out.2 = Ok tt
  ∧ lookup_grid (workbooks out.1) sheet = Ok (clear_A2_Z1000 g)
  ∧ last (log out.1)
    = Some {| log_level := WARNING;
              log_message := [Lit "DataFrame is empty. Nothing to append to sheet: ";
                              Val (VStr sheet_name)];
              log_exc_info := None |}
  ∧ ((length g ≤ 1000)%nat → Forall (λ r, (length r ≤ 26)%nat) g →
     data_rows (clear_A2_Z1000 g) = []).
Proof.
  intros sheet out Hauth Hopen Hclear Hgrid Hempty.
  assert (∃ st1, get_sheet self sheet_name st = (st1, Ok sheet)
                 ∧ workbooks st1 = workbooks st ∧ faults st1 = faults st)
    as (st1 & Hsheet & Hw1 & Hf1).
  { destruct (get_sheet_spec self sheet_name st) as (st1 & Hrun & Hw & Hf & _).
    exists st1. split_and!; [| done | done]. rewrite Hrun. f_equal.
    unfold sheet_access. rewrite !bool_decide_eq_false_2 by done.
    fold sheet. by rewrite Hgrid. }
  assert (out
          = ({| workbooks :=
                  alter (insert (sh_title sheet) (clear_A2_Z1000 g)) (sh_workbook sheet)
                        (workbooks st1);
                records_read := records_read st1;
                user_entered := user_entered st1;
                faults := faults st1;
                log := (log st1 ++
                        [ {| log_level := INFO;
                             log_message := [Lit "Cleared old rows except header in sheet: ";
                                             Val (VStr sheet_name)];
                             log_exc_info := None |} ]) ++
                       [ {| log_level := WARNING;
                            log_message :=
                              [Lit "DataFrame is empty. Nothing to append to sheet: ";
                               Val (VStr sheet_name)];
                            log_exc_info := None |} ] |}, Ok tt)) as ->.
  { subst out. unfold replace_sheet_data, try_log_raise, mbind, M_bind.
    rewrite Hsheet.
    rewrite (batch_clear_spec sheet st1 g) by congruence.
    by rewrite Hempty. }
  cbn [fst snd workbooks log]. split_and!.
  - done.
  - rewrite Hw1. by apply lookup_grid_written with g.
  - by rewrite last_snoc.
  - apply clear_A2_Z1000_in_range.
Qed.

Lemma replace_sheet_data_empty_frame_witness :
  let st := sample_world (workbooks sample_store) [AppendRows] in
  let out :=
    replace_sheet_data false (λ _, "") sample_manager "Programme Selection"
                       empty_frame st in
  out.2 = Ok tt
  ∧ lookup_grid (workbooks out.1) sample_selection_sheet
    = Ok (clear_A2_Z1000 sample_selection_grid)
  ∧ data_rows (clear_A2_Z1000 sample_selection_grid) = [].
Proof.
  intros st out.
  assert (Authorize ∉ faults st) as Hauth
    by (apply (bool_decide_unpack _); vm_compute; exact I).
  assert (OpenWorkbook ∉ faults st) as Hopen
    by (apply (bool_decide_unpack _); vm_compute; exact I).
  assert (BatchClear ∉ faults st) as Hclear
    by (apply (bool_decide_unpack _); vm_compute; exact I).
  destruct (replace_sheet_data_empty_frame false (λ _, "") sample_manager
              "Programme Selection" empty_frame st sample_selection_grid
              Hauth Hopen Hclear eq_refl eq_refl)
    as (Hout & Hgrid & _ & Hrecords).
  split_and!; [exact Hout | exact Hgrid |].
  apply Hrecords; [simpl; lia | repeat constructor; simpl; lia].
Defined.

(** ** The cards of [MarkdownHandler] *)

Lemma string_app_assoc (a b c : string) : (a +:+ b) +:+ c = a +:+ b +:+ c.
Proof.
  induction a as [| x a IH]; [done |].
  change (String x ((a +:+ b) +:+ c) = String x (a +:+ b +:+ c)). by rewrite IH.
Qed.

Ltac in_list := repeat (first [apply list_elem_of_here | apply list_elem_of_further]).

Section Cards.
Import MarkdownHandler.
Variable float_repr : Qc → string.
Variable int_of_str : string → option Z.

Lemma format_app (movie : gmap string value) (t1 t2 : list piece) :
  format float_repr int_of_str movie (t1 ++ t2)
  = match format float_repr int_of_str movie t1 with
    | Return a =>
        match format float_repr int_of_str movie t2 with
        | Return b => Return (a +:+ b)
        | Raised e => Raised e
        end
    | Raised e => Raised e
    end.
Proof.
  induction t1 as [| [s | f] t1 IH]; cbn [app format].
  - by destruct (format float_repr int_of_str movie t2).
  - rewrite IH. destruct (format float_repr int_of_str movie t1); [| done].
    destruct (format float_repr int_of_str movie t2); [| done].
    by rewrite string_app_assoc.
  - destruct (field_text float_repr int_of_str movie f); [| done].
    rewrite IH. destruct (format float_repr int_of_str movie t1); [| done].
    destruct (format float_repr int_of_str movie t2); [| done].
    by rewrite string_app_assoc.
Qed.

Lemma format_returns (movie : gmap string value) (t : list piece) :
  returns (format float_repr int_of_str movie t)
  ↔ Forall (λ f, returns (field_text float_repr int_of_str movie f)) (fields t).
Proof.
  unfold returns, fields.
  induction t as [| [s | f] t IH]; cbn [format].
  - split; [constructor | by eexists].
  - change (omap ?g (Text s :: t)) with (omap g t). rewrite <- IH.
    destruct (format float_repr int_of_str movie t) as [r | e];
      split; intros [x Hx]; by eexists.
  - change (omap ?g (Field f :: t)) with (f :: omap g t).
    rewrite Forall_cons, <- IH.
    destruct (field_text float_repr int_of_str movie f) as [x | e];
      [| split; [by intros [? ?] | by intros [[? ?] _]]].
    destruct (format float_repr int_of_str movie t) as [r | e]; split.
    + intros _. split; by eexists.
    + intros _. by eexists.
    + by intros [? ?].
    + by intros [_ [? ?]].
Qed.

Lemma format_raised (movie : gmap string value) (t : list piece) (e : exn) :
  format float_repr int_of_str movie t = Raised e →
  ∃ f, f ∈ fields t ∧ field_text float_repr int_of_str movie f = Raised e.
Proof.
  unfold fields.
  induction t as [| [s | f] t IH]; cbn [format]; [done | |].
  - change (omap ?g (Text s :: t)) with (omap g t).
    destruct (format float_repr int_of_str movie t) as [r | e']; [done |].
    intros [= <-]. by apply IH.
  - change (omap ?g (Field f :: t)) with (f :: omap g t).
    destruct (field_text float_repr int_of_str movie f) as [x | e'] eqn:Hf.
    + destruct (format float_repr int_of_str movie t) as [r | e'']; [done |].
      intros [= <-].
      destruct IH as (f' & Hin & Hf'); [done |]. exists f'. split; [by right | done].
    + intros [= <-]. exists f. split; [by left | done].
Qed.

Lemma format_ext (movie1 movie2 : gmap string value) (t : list piece) :
  Forall (λ f, field_text float_repr int_of_str movie1 f
               = field_text float_repr int_of_str movie2 f) (fields t) →
  format float_repr int_of_str movie1 t = format float_repr int_of_str movie2 t.
Proof.
  unfold fields.
  induction t as [| [s | f] t IH]; cbn [format]; [done | |].
  - change (omap ?g (Text s :: t)) with (omap g t). intros H. by rewrite IH.
  - change (omap ?g (Field f :: t)) with (f :: omap g t).
    intros [Hf H]%Forall_cons. by rewrite Hf, IH.
Qed.

Lemma field_text_Item_returns (movie : gmap string value) (k : string) :
  returns (field_text float_repr int_of_str movie (Item k)) ↔ is_Some (movie !! k).
Proof.
  unfold returns, field_text, item.
  destruct (movie !! k) as [v |]; split.
  - intros _. by eexists.
  - intros _. by eexists.
  - by intros [? ?].
  - by intros [? ?].
Qed.

Lemma field_text_time_returns (movie : gmap string value) (k : string) :
  (returns (field_text float_repr int_of_str movie (HoursOf k))
   ↔ ∃ v z, movie !! k = Some v ∧ py_int int_of_str v = Return z)
  ∧ (returns (field_text float_repr int_of_str movie (MinutesOf k))
     ↔ ∃ v z, movie !! k = Some v ∧ py_int int_of_str v = Return z).
Proof.
  unfold returns, field_text, item.
  destruct (movie !! k) as [v |].
  - destruct (py_int int_of_str v) as [z | e] eqn:Hint; split; split.
    + intros _. by exists v, z.
    + intros _. by eexists.
    + intros _. by exists v, z.
    + intros _. by eexists.
    + by intros [? ?].
    + intros (v' & z & [= <-] & Hz). congruence.
    + by intros [? ?].
    + intros (v' & z & [= <-] & Hz). congruence.
  - split; split; try (by intros [? ?]); by intros (? & ? & ? & _).
Qed.

Lemma details_fields :
  fields programme_details_template
  = [Get "LETTERBOXD_URL"; Item "IMAGE_URL"; Item "INTERNATIONAL_TITLE";
     Item "ORIGINAL_TITLE"; Item "DIRECTOR"; Item "YEAR"; HoursOf "RUNNING_TIME";
     MinutesOf "RUNNING_TIME"; Item "LANGUAGE"; Item "COUNTRY"; Item "SYNOPSIS"].
Proof. reflexivity. Qed.

Lemma image_fields :
  fields programme_image_template = [Get "LETTERBOXD_URL"; Item "IMAGE_URL"].
Proof. reflexivity. Qed.

(** X16: [render_programme_details] returns a card exactly when the movie
    has the nine keys it reads by subscript and its running time converts
    with [int].  A failure is the [KeyError] of one of these keys that is
    absent, or what [int] raises for the running time; a movie without
    IMAGE_URL always fails with that key's [KeyError].  The Letterboxd link is
    optional: a movie without the key renders as one with an empty link. *)
Theorem render_programme_details_outcome (movie : gmap string value) :
  let out := render_programme_details float_repr int_of_str movie in
  (returns out
   ↔ (∀ k, k ∈ details_keys → is_Some (movie !! k))
     ∧ ∃ v z, movie !! "RUNNING_TIME" = Some v ∧ py_int int_of_str v = Return z)
  ∧ (∀ e, out = Raised e →
       (∃ k, k ∈ details_keys ∧ movie !! k = None ∧ e = KeyError k)
       ∨ (∃ v, movie !! "RUNNING_TIME" = Some v ∧ py_int int_of_str v = Raised e))
  ∧ (movie !! "IMAGE_URL" = None → out = Raised (KeyError "IMAGE_URL"))
  ∧ render_programme_details float_repr int_of_str (delete "LETTERBOXD_URL" movie)
    = render_programme_details float_repr int_of_str
        (<["LETTERBOXD_URL" := VStr ""]> movie).
Proof.
  intros out. subst out. unfold render_programme_details. split_and!.
  - rewrite format_returns, details_fields.
    rewrite !Forall_cons, Forall_nil, !field_text_Item_returns.
    destruct (field_text_time_returns movie "RUNNING_TIME") as [-> ->].
    unfold details_keys. split.
    + intros (_ & H1 & H2 & H3 & H4 & H5 & Hh & _ & H6 & H7 & H8 & _).
      split; [| done].
      assert (is_Some (movie !! "RUNNING_TIME")) as Htime
        by (destruct Hh as (v & z & -> & _); by eexists).
      intros k Hk. repeat (apply elem_of_cons in Hk as [-> | Hk]; [done |]).
      by apply not_elem_of_nil in Hk.
    + intros [Hkeys Htime].
      split_and!; try done; try (apply Hkeys; in_list).
      by eexists.
  - intros e Hraised. apply format_raised in Hraised as (f & Hin & Hf).
    rewrite details_fields in Hin. unfold details_keys.
    assert (∀ k, field_text float_repr int_of_str movie (Item k) = Raised e →
                 movie !! k = None ∧ e = KeyError k) as Hitem.
    { intros k. unfold field_text, item.
      destruct (movie !! k); [done |]. by intros [= <-]. }
    assert (∀ f' k, (f' = HoursOf k ∨ f' = MinutesOf k) →
               field_text float_repr int_of_str movie f' = Raised e →
               (movie !! k = None ∧ e = KeyError k)
               ∨ ∃ v, movie !! k = Some v ∧ py_int int_of_str v = Raised e) as Htime.
    { intros f' k [-> | ->]; unfold field_text, item;
        (destruct (movie !! k) as [v |]; [| intros [= <-]; by left]);
        (destruct (py_int int_of_str v) as [z | e'] eqn:Hint; [done |]);
        intros [= <-]; right; by exists v. }
    repeat (apply elem_of_cons in Hin as [-> | Hin]).
    + done.
    + apply Hitem in Hf as [? ?]. left. eexists. split; [| done]. in_list.
    + apply Hitem in Hf as [? ?]. left. eexists. split; [| done]. in_list.
    + apply Hitem in Hf as [? ?]. left. eexists. split; [| done]. in_list.
    + apply Hitem in Hf as [? ?]. left. eexists. split; [| done]. in_list.
    + apply Hitem in Hf as [? ?]. left. eexists. split; [| done]. in_list.
    + apply (Htime _ "RUNNING_TIME") in Hf as [[? ?] | ?]; [| by right | by left].
      left. eexists. split; [| done]. in_list.
    + apply (Htime _ "RUNNING_TIME") in Hf as [[? ?] | ?]; [| by right | by right].
      left. eexists. split; [| done]. in_list.
    + apply Hitem in Hf as [? ?]. left. eexists. split; [| done]. in_list.
    + apply Hitem in Hf as [? ?]. left. eexists. split; [| done]. in_list.
    + apply Hitem in Hf as [? ?]. left. eexists. split; [| done]. in_list.
    + by apply not_elem_of_nil in Hin.
  - intros Himage. unfold programme_details_template.
    cbn [format field_text]. unfold item at 1. by rewrite Himage.
  - apply format_ext. rewrite details_fields.
    rewrite !Forall_cons, Forall_nil. unfold field_text, item.
    rewrite lookup_delete_eq, lookup_insert_eq.
    by rewrite !lookup_delete_ne, !lookup_insert_ne by done.
Qed.

(** X17: on a card that renders, the year is followed by the running time
    split into hours and minutes: the two numbers shown give back the
    converted running time as 60 times the hours plus the minutes, and the
    minutes lie between 0 and 59, also for a negative running time. *)
Theorem render_programme_details_running_time (movie : gmap string value)
    (year v : value) (z : Z) (html : string) :
  movie !! "YEAR" = Some year →
  movie !! "RUNNING_TIME" = Some v →
  py_int int_of_str v = Return z →
  render_programme_details float_repr int_of_str movie = Return html →
  ∃ hours minutes before after,
    html = before +:+ py_str float_repr year +:+ " | " +:+ py_str_int hours +:+ " Hr "
           +:+ py_str_int minutes +:+ " Min" +:+ after
    ∧ z = 60 * hours + minutes
    ∧ 0 ≤ minutes < 60.
Proof.
  intros Hyear Htime Hint Hhtml. unfold render_programme_details in Hhtml.
  set (shown := lines [ "            </p>"; "";
                        "            <p style=" +:+ dq
                          +:+ "margin:0 0 16px 0; font-size:15px; color:#bbb;"
                          +:+ dq +:+ ">";
                        "                " ]).
  assert (programme_details_template
          = take 11 programme_details_template
            ++ [Field (Item "YEAR"); Text " | "; Field (HoursOf "RUNNING_TIME");
                Text " Hr "; Field (MinutesOf "RUNNING_TIME");
                Text (" Min" +:+ nl +:+ shown)]
            ++ drop 17 programme_details_template) as Hsplit by reflexivity.
  rewrite Hsplit, format_app in Hhtml.
  destruct (format float_repr int_of_str movie (take 11 programme_details_template))
    as [before |]; [| done].
  rewrite format_app in Hhtml.
  cbn [format field_text] in Hhtml. unfold item in Hhtml.
  rewrite Hyear, Htime, Hint in Hhtml.
  destruct (format float_repr int_of_str movie (drop 17 programme_details_template))
    as [after |]; [| done].
  injection Hhtml as <-.
  exists (z / 60), (z mod 60), before, (nl +:+ shown +:+ after).
  split_and!.
  - rewrite !string_app_assoc. done.
  - apply Z.div_mod. lia.
  - apply Z.mod_pos_bound. lia.
  - apply Z.mod_pos_bound. lia.
Qed.

(** X18: [render_programme_image] needs IMAGE_URL only: without the key it
    raises that key's [KeyError], with it the card is returned, whatever the
    rest of the movie holds.  Whenever the details card of a movie renders,
    the image card renders too and opens with the same text, up to the end of
    the link around the image, before the block is closed. *)
Theorem render_programme_image_outcome (movie : gmap string value) :
  let out := render_programme_image float_repr int_of_str movie in
  (movie !! "IMAGE_URL" = None → out = Raised (KeyError "IMAGE_URL"))
  ∧ (is_Some (movie !! "IMAGE_URL") → returns out)
  ∧ (∀ details,
       render_programme_details float_repr int_of_str movie = Return details →
       ∃ opening rest,
         details = opening +:+ rest
         ∧ out = Return (opening +:+ lines [""; "        </div>"; "        "])).
Proof.
  intros out. subst out. unfold render_programme_image. split_and!.
  - intros Himage. unfold programme_image_template.
    cbn [format field_text]. unfold item. by rewrite Himage.
  - intros Himage. rewrite format_returns, image_fields.
    rewrite !Forall_cons, Forall_nil, field_text_Item_returns.
    split_and!; try done; by eexists.
  - intros details Hdetails. unfold render_programme_details in Hdetails.
    set (link := lines [ dq +:+ " style=" +:+ dq;
                         "                    width:100%;";
                         "                    border-radius:12px;";
                         "                    margin-bottom:15px;";
                         "                " +:+ dq +:+ ">";
                         "            </a>" ] +:+ nl).
    set (heading :=
           lines [ "";
                   "            <h2 style=" +:+ dq
                   +:+ "margin:0; padding:0; font-size:24px; font-weight:700; color:white;"
                   +:+ dq +:+ ">";
                   "                " ]).
    assert (programme_details_template
            = take 4 programme_image_template
              ++ [Text (link +:+ heading)]
              ++ drop 5 programme_details_template) as Hsplit by reflexivity.
    assert (programme_image_template
            = take 4 programme_image_template
              ++ [Text (link +:+ lines [""; "        </div>"; "        "])])
      as Hsplit' by reflexivity.
    rewrite Hsplit, format_app in Hdetails. rewrite Hsplit', format_app.
    destruct (format float_repr int_of_str movie (take 4 programme_image_template))
      as [start |]; [| done].
    rewrite format_app in Hdetails. cbn [format] in Hdetails |- *.
    destruct (format float_repr int_of_str movie (drop 5 programme_details_template))
      as [rest |]; [| done].
    injection Hdetails as <-.
    exists (start +:+ link), (heading +:+ rest). split.
    + by rewrite !string_app_assoc.
    + f_equal. by rewrite !string_app_assoc.
Qed.

End Cards.

Lemma render_programme_details_running_time_witness :
  ∃ hours minutes before after,
    MarkdownHandler.render_programme_details (λ _, "") (λ _, None) sample_movie
    = MarkdownHandler.Return
        (before +:+ "2020" +:+ " | " +:+ py_str_int hours +:+ " Hr "
         +:+ py_str_int minutes +:+ " Min" +:+ after)
    ∧ 100 = 60 * hours + minutes
    ∧ 0 ≤ minutes < 60.
Proof.
  destruct (MarkdownHandler.format (λ _, "") (λ _, None) sample_movie
              MarkdownHandler.programme_details_template) as [html |] eqn:Hhtml;
    [| by vm_compute in Hhtml].
  destruct (render_programme_details_running_time (λ _, "") (λ _, None) sample_movie
              (VInt 2020) (VInt 100) 100 html eq_refl eq_refl eq_refl Hhtml)
    as (hours & minutes & before & after & -> & Hsum & Hrange).
  exists hours, minutes, before, after. split_and!; [exact Hhtml | exact Hsum | |]; lia.
Defined.

Lemma render_programme_image_outcome_witness :
  MarkdownHandler.render_programme_image (λ _, "") (λ _, None)
    (delete "IMAGE_URL" sample_movie)
  = MarkdownHandler.Raised (MarkdownHandler.KeyError "IMAGE_URL")
  ∧ MarkdownHandler.returns
      (MarkdownHandler.render_programme_image (λ _, "") (λ _, None) sample_movie).
Proof.
  split.
  - apply (render_programme_image_outcome (λ _, "") (λ _, None)
             (delete "IMAGE_URL" sample_movie)).
    apply lookup_delete_eq.
  - apply (render_programme_image_outcome (λ _, "") (λ _, None) sample_movie).
    by eexists.
Defined.

Lemma render_programme_details_outcome_witness :
  MarkdownHandler.render_programme_details (λ _, "") (λ _, None)
    (delete "IMAGE_URL" sample_movie)
  = MarkdownHandler.Raised (MarkdownHandler.KeyError "IMAGE_URL")
  ∧ MarkdownHandler.returns
      (MarkdownHandler.render_programme_details (λ _, "") (λ _, None) sample_movie).
Proof.
  split.
  - apply (render_programme_details_outcome (λ _, "") (λ _, None)
             (delete "IMAGE_URL" sample_movie)).
    apply lookup_delete_eq.
  - apply (render_programme_details_outcome (λ _, "") (λ _, None) sample_movie).
    split.
    + intros k Hk. unfold details_keys in Hk.
      repeat (apply elem_of_cons in Hk as [-> | Hk]; [by eexists |]).
      by apply not_elem_of_nil in Hk.
    + by exists (VInt 100), 100.
Defined.
